(** * Field-inspection management application: a shallow embedding

    The development embeds, function by function, the parts of the
    repository that carry logic of their own.  The places are those of
    the source tree under [src/]:

    - [src/hooks/useRolePermissions.ts]: the role capabilities
      [useRolePermissions], followed in the same file by the dashboard
      service ([services/dashboardService]) with [calculateVariation];
    - [src/utils/pdfGenerator.ts]: [PDF_CONFIG], [checkPageBreak],
      [createSlug] and the download name of the report, followed in the
      same file by the progress calculators
      ([utils/progressCalculations]) and the types of [types/auth];
    - [src/components/ui/ProgressBar.tsx] and
      [src/components/ProtectedRoute.tsx];
    - [supabase/migrations/]: the row-level-security policies in force
      on [profiles], [missions], [mission_buildings], [materials],
      [buildings] and [storage.objects];
    - [AddBuildingForm], the form that writes the rows of [buildings]
      (in [src/components/missions/MissionMaterialsTab.tsx]);
    - the layout helpers of the report ([addWrappedText], [addTable],
      [addH3Section], [addH4SubSection]) and the grouping of the
      materials by building, in [src/utils/pdfGenerator.ts];
    - [getDateRange], the indicators and the distribution table of the
      dashboard service;
    - the callers of the calculators and of the capabilities: the cards
      of [MissionBuildingsTab] and [MissionMaterialsTab], the mission
      pages, [RoleGuard], the routes of [App], the navigation of
      [Sidebar] and the [Tabs] component.

    Part I holds the definitions, Part II the lemmas and theorems. *)

From Stdlib Require Import ZArith QArith Qround Qpower Lia Lqa List Bool String Ascii.
From Stdlib Require Import SpecFloat PrimFloat FloatOps Uint63.
From stdpp Require Import gmap strings.

Local Open Scope Z_scope.

(* ===================================================================== *)
(** * Part I: definitions                                                 *)
(* ===================================================================== *)

(** ** JavaScript numbers

    A JavaScript [number] is an IEEE-754 binary64 value.  Finite values
    are kept as the exact rational they denote; every arithmetic
    operation computes the exact rational result and rounds it to the
    nearest binary64 value, ties to even ([fl]).  The sign of zero is not
    tracked: none of the embedded code can observe it. *)

Module JSNumber.

Inductive number : Type :=
| NaN
| PosInf
| NegInf
| Fin (q : Q).

(** Nearest integer, ties to the even one. *)
Definition Qrne (q : Q) : Z :=
  let f := Qfloor q in
  match Qcompare (q - inject_Z f) (1 # 2) with
  | Lt => f
  | Gt => f + 1
  | Eq => if Z.even f then f else f + 1
  end.

(** [Qlog2 q] is the integer [k] with [2^k <= q < 2^(k+1)], for [0 < q]. *)
Definition Qlog2 (q : Q) : Z :=
  let k := Z.log2 (Qnum q) - Z.log2 (Zpos (Qden q)) in
  if Qle_bool (Qpower 2 k) q then k else k - 1.

(** Exponent of the unit in the last place of the binary64 format at [q]:
    53 significant bits, and never below the subnormal spacing 2^-1074. *)
Definition ulp_exp (q : Q) : Z := Z.max (Qlog2 q - 52) (-1074).

(** The multiple of the unit in the last place nearest to a positive
    rational, ties to the even multiple. *)
Definition round_val (q : Q) : Q :=
  let e := ulp_exp q in
  (inject_Z (Qrne (q / Qpower 2 e)) * Qpower 2 e)%Q.

(** Rounding of a positive rational; overflow gives [PosInf]. *)
Definition fl_pos (q : Q) : number :=
  let r := round_val q in
  if Qle_bool (Qpower 2 1024) r then PosInf else Fin (Qred r).

Definition js_neg (x : number) : number :=
  match x with
  | NaN => NaN
  | PosInf => NegInf
  | NegInf => PosInf
  | Fin q => Fin (Qred (- q))
  end.

(** Round to nearest, ties to even. *)
Definition fl (q : Q) : number :=
  match Qcompare q 0 with
  | Eq => Fin 0
  | Gt => fl_pos q
  | Lt => js_neg (fl_pos (- q))
  end.

Definition Qsign_inf (q : Q) : number :=
  match Qcompare q 0 with
  | Lt => NegInf
  | _ => PosInf
  end.

(** [x + y] *)
Definition js_add (x y : number) : number :=
  match x, y with
  | NaN, _ | _, NaN => NaN
  | PosInf, NegInf | NegInf, PosInf => NaN
  | PosInf, _ | _, PosInf => PosInf
  | NegInf, _ | _, NegInf => NegInf
  | Fin a, Fin b => fl (a + b)
  end.

(** [x - y] *)
Definition js_sub (x y : number) : number := js_add x (js_neg y).

(** [x * y] *)
Definition js_mul (x y : number) : number :=
  match x, y with
  | NaN, _ | _, NaN => NaN
  | Fin a, Fin b => fl (a * b)
  | Fin a, PosInf | PosInf, Fin a =>
      match Qcompare a 0 with Eq => NaN | Gt => PosInf | Lt => NegInf end
  | Fin a, NegInf | NegInf, Fin a =>
      match Qcompare a 0 with Eq => NaN | Gt => NegInf | Lt => PosInf end
  | PosInf, PosInf | NegInf, NegInf => PosInf
  | PosInf, NegInf | NegInf, PosInf => NegInf
  end.

(** [x / y]; a zero divisor gives an infinity, or [NaN] for [0 / 0]. *)
Definition js_div (x y : number) : number :=
  match x, y with
  | NaN, _ | _, NaN => NaN
  | Fin a, Fin b =>
      match Qcompare b 0 with
      | Eq => match Qcompare a 0 with Eq => NaN | Gt => PosInf | Lt => NegInf end
      | _ => fl (a / b)
      end
  | Fin _, PosInf | Fin _, NegInf => Fin 0
  | PosInf, Fin b => Qsign_inf b
  | NegInf, Fin b => js_neg (Qsign_inf b)
  | _, _ => NaN
  end.

(** Comparisons: every comparison with [NaN] is false. *)
Definition js_lt (x y : number) : bool :=
  match x, y with
  | NaN, _ | _, NaN => false
  | _, NegInf => false
  | NegInf, _ => true
  | PosInf, _ => false
  | Fin _, PosInf => true
  | Fin a, Fin b => negb (Qle_bool b a)
  end.

Definition js_gt (x y : number) : bool := js_lt y x.

Definition js_le (x y : number) : bool :=
  match x, y with
  | NaN, _ | _, NaN => false
  | NegInf, _ => true
  | _, PosInf => true
  | _, NegInf => false
  | PosInf, _ => false
  | Fin a, Fin b => Qle_bool a b
  end.

Definition js_ge (x y : number) : bool := js_le y x.

(** [x === y] on numbers *)
Definition js_eq (x y : number) : bool :=
  match x, y with
  | PosInf, PosInf | NegInf, NegInf => true
  | Fin a, Fin b => Qeq_bool a b
  | _, _ => false
  end.

Definition is_nan (x : number) : bool :=
  match x with NaN => true | _ => false end.

Definition is_finite (x : number) : bool :=
  match x with Fin _ => true | _ => false end.

(** [Math.round]: the nearest integer, ties towards +infinity, computed
    on the exact value of the argument. *)
Definition Math_round (x : number) : number :=
  match x with
  | Fin q => Fin (inject_Z (Qfloor (q + (1 # 2))))
  | _ => x
  end.

(** [Math.max] and [Math.min] of two arguments: [NaN] is contagious. *)
Definition Math_max (x y : number) : number :=
  match x, y with
  | NaN, _ | _, NaN => NaN
  | _, _ => if js_lt x y then y else x
  end.

Definition Math_min (x y : number) : number :=
  match x, y with
  | NaN, _ | _, NaN => NaN
  | _, _ => if js_lt y x then y else x
  end.

(** The finite values in the range of [fl], the infinities and [NaN]. *)
Definition is_binary64 (x : number) : Prop :=
  match x with
  | Fin q => fl q = Fin q
  | _ => True
  end.

(** Integer literals and counters.  Counters of the source ([length],
    [progress += 1]) stay below 2^53, where binary64 is exact. *)
Definition of_Z (z : Z) : number := Fin (inject_Z z).
Definition of_nat (n : nat) : number := of_Z (Z.of_nat n).

(** Decimal literals denote the nearest binary64 value. *)
Definition lit (q : Q) : number := fl q.

(** Equality of representations (finite values are kept reduced). *)
Definition same_number (x y : number) : bool :=
  match x, y with
  | NaN, NaN | PosInf, PosInf | NegInf, NegInf => true
  | Fin a, Fin b => (Qnum a =? Qnum b)%Z && (Qden a =? Qden b)%positive
  | _, _ => false
  end.

(** Reading of a [spec_float] of the Standard Library (the reference
    model of IEEE-754 arithmetic), used to cross-check [fl]. *)
Definition of_spec_float (f : spec_float) : number :=
  match f with
  | S754_zero _ => Fin 0
  | S754_infinity false => PosInf
  | S754_infinity true => NegInf
  | S754_nan => NaN
  | S754_finite s m e =>
      Fin (Qred (inject_Z (if s then Z.neg m else Z.pos m) * Qpower 2 e))
  end.

Definition b64 (z : Z) : spec_float := binary_normalize 53 1024 z 0 false.
Definition b64_div := SFdiv 53 1024.
Definition b64_mul := SFmul 53 1024.
Definition b64_add := SFadd 53 1024.

(** Reading of a primitive float of the kernel, and the float of a
    small non-negative integer. *)
Definition of_float (f : float) : number := of_spec_float (Prim2SF f).
Definition float_of_Z (z : Z) : float := PrimFloat.of_uint63 (Uint63.of_Z z).

(** The pairs [(p, t)] with [1 <= t <= n] and [0 <= p <= t + 1]. *)
Definition quotients (n : nat) : list (Z * Z) :=
  flat_map (fun t => map (fun p => (Z.of_nat p, Z.of_nat (S t))) (seq 0 (S (S t))))
           (seq 0 n).

End JSNumber.

Export JSNumber.

(** ** JavaScript strings and JSON values

    A JavaScript string is a sequence of UTF-16 code units. *)

Module JSValue.

Definition jsstring : Type := list N.

(** An ASCII literal as a JavaScript string. *)
Definition js (s : string) : jsstring :=
  map N_of_ascii (list_ascii_of_string s).

(** A property that may be absent ([undefined]) or [null]. *)
Inductive optional (A : Type) : Type :=
| undefined
| null
| val (a : A).

Arguments undefined {A}.
Arguments null {A}.
Arguments val {A} a.

Definition is_set {A : Type} (o : optional A) : bool :=
  match o with val _ => true | _ => false end.

(** Truthiness of a string: the empty string is falsy. *)
Definition truthy_string (s : jsstring) : bool :=
  match s with [] => false | _ => true end.

Definition truthy_opt_string (o : optional jsstring) : bool :=
  match o with val s => truthy_string s | _ => false end.

(** [x !== undefined && x !== null && x > 0] *)
Definition set_and_positive (o : optional number) : bool :=
  match o with val x => js_gt x (of_Z 0) | _ => false end.

(** White space and line terminators removed by [String.prototype.trim]. *)
Definition is_js_whitespace (c : N) : bool :=
  existsb (N.eqb c)
    [9; 10; 11; 12; 13; 32; 160; 5760; 8232; 8233; 8239; 8287; 12288; 65279]%N
  || ((8192 <=? c) && (c <=? 8202))%N.

Fixpoint drop_while (f : N -> bool) (s : jsstring) : jsstring :=
  match s with
  | [] => []
  | c :: s' => if f c then drop_while f s' else s
  end.

(** Removal of the longest suffix whose characters satisfy [f]. *)
Fixpoint drop_while_end (f : N -> bool) (s : jsstring) : jsstring :=
  match s with
  | [] => []
  | c :: s' =>
      match drop_while_end f s' with
      | [] => if f c then [] else [c]
      | r => c :: r
      end
  end.

Definition trim (s : jsstring) : jsstring :=
  drop_while_end is_js_whitespace (drop_while is_js_whitespace s).

#[local] Set Warnings "-register-all".

(** Values of a [jsonb] column. *)
Inductive json : Type :=
| JNull
| JBool (b : bool)
| JNum (x : number)
| JStr (s : jsstring)
| JArr (items : list json)
| JObj (fields : list (string * json)).

Definition truthy_json (v : json) : bool :=
  match v with
  | JNull => false
  | JBool b => b
  | JNum x => negb (is_nan x || js_eq x (of_Z 0))
  | JStr s => truthy_string s
  | JArr _ | JObj _ => true
  end.

End JSValue.

Export JSValue.

(** ** Progress calculators ([utils/progressCalculations], in
    [src/utils/pdfGenerator.ts] from line 780) *)

Module Progress.

(** The fields of [Building] and [Material] read by the calculators. *)
Record Building : Type := {
  designation : jsstring;
  basement_area_sqm : optional number;
  ground_floor_area_sqm : optional number;
  first_floor_area_sqm : optional number;
  technical_elements : optional (gmap string json);
  miscellaneous_elements : optional json;
  new_value_mad : optional number;
  obsolescence_percentage : optional number;
  contiguity : optional jsstring;
  communication : optional jsstring
}.

Record Material : Type := {
  name : jsstring;
  building_id : jsstring;
  brand : optional jsstring;
  model : optional jsstring;
  serial_number : optional jsstring;
  quantity : optional number;
  manufacturing_year : optional number;
  condition : optional jsstring;
  material_new_value_mad : optional number;
  material_obsolescence_percentage : optional number
}.

Definition technicalElementKeys : list string :=
  ["semelles"; "elevations"; "ossature"; "portes"; "fenetres"; "grillage";
   "chassis"; "facade"; "toiture"; "sol"; "plafond"; "escalier";
   "cloisonnement"]%string.

(** The test applied to one key of [technical_elements]. *)
Definition technical_element_filled
    (te : optional (gmap string json)) (key : string) : bool :=
  match te with
  | val m =>
      match m !! key with
      | Some value =>
          truthy_json value &&
          match value with
          | JArr items => (0 <? length items)%nat
          | JStr s => (0 <? length (trim s))%nat
          | _ => false
          end
      | None => false
      end
  | _ => false
  end.

(** The entries of [miscellaneous_elements] when it is an array. *)
Definition misc_entries (o : optional json) : list json :=
  match o with
  | val (JArr items) => items
  | _ => []
  end.

(** [Math.round((progress / totalFields) * 100)] *)
Definition percentage (progress totalFields : nat) : number :=
  Math_round (js_mul (js_div (of_nat progress) (of_nat totalFields)) (of_Z 100)).

(** The pair of counters [(progress, totalFields)] at the end of
    [calculateBuildingProgress], threaded as in the source. *)
Definition building_counters (building : Building) : nat * nat :=
  let progress := 0%nat in
  let totalFields := 0%nat in
  (* 1. basic information *)
  let totalFields := (totalFields + 1)%nat in
  let progress := if truthy_string (designation building) then (progress + 1)%nat else progress in
  (* 2. surface areas *)
  let totalFields := (totalFields + 3)%nat in
  let progress := if is_set (basement_area_sqm building) then (progress + 1)%nat else progress in
  let progress := if is_set (ground_floor_area_sqm building) then (progress + 1)%nat else progress in
  let progress := if is_set (first_floor_area_sqm building) then (progress + 1)%nat else progress in
  (* 3. contiguity and communication *)
  let totalFields := (totalFields + 2)%nat in
  let progress := if truthy_opt_string (contiguity building) then (progress + 1)%nat else progress in
  let progress := if truthy_opt_string (communication building) then (progress + 1)%nat else progress in
  (* 4. financial values *)
  let totalFields := (totalFields + 2)%nat in
  let progress := if set_and_positive (new_value_mad building) then (progress + 1)%nat else progress in
  let progress := if is_set (obsolescence_percentage building) then (progress + 1)%nat else progress in
  (* 5. technical elements, one field per key *)
  let '(progress, totalFields) :=
    fold_left
      (fun '(progress, totalFields) key =>
         let totalFields := (totalFields + 1)%nat in
         if technical_element_filled (technical_elements building) key
         then ((progress + 1)%nat, totalFields)
         else (progress, totalFields))
      technicalElementKeys (progress, totalFields) in
  (* 6. miscellaneous elements, one field per entry *)
  fold_left
    (fun '(progress, totalFields) _ => ((progress + 1)%nat, (totalFields + 1)%nat))
    (misc_entries (miscellaneous_elements building)) (progress, totalFields).

(** The tests of the 21 fixed fields, in source order, and the number of
    those that pass: the reading of "filled" that [building_counters] is
    compared with. *)
Definition building_fixed_tests (building : Building) : list bool :=
  [ truthy_string (designation building);
    is_set (basement_area_sqm building);
    is_set (ground_floor_area_sqm building);
    is_set (first_floor_area_sqm building);
    truthy_opt_string (contiguity building);
    truthy_opt_string (communication building);
    set_and_positive (new_value_mad building);
    is_set (obsolescence_percentage building) ]
  ++ map (technical_element_filled (technical_elements building)) technicalElementKeys.

Definition count_true (l : list bool) : nat := length (List.filter (fun b => b) l).

Definition calculateBuildingProgress (building : Building) : number :=
  let '(progress, totalFields) := building_counters building in
  if (0 <? totalFields)%nat then percentage progress totalFields else of_Z 0.

Definition material_counters (material : Material) : nat * nat :=
  let progress := 0%nat in
  let totalFields := 0%nat in
  let totalFields := (totalFields + 1)%nat in
  let progress := if truthy_string (name material) then (progress + 1)%nat else progress in
  let totalFields := (totalFields + 1)%nat in
  let progress := if truthy_string (building_id material) then (progress + 1)%nat else progress in
  let totalFields := (totalFields + 1)%nat in
  let progress := if truthy_opt_string (brand material) then (progress + 1)%nat else progress in
  let totalFields := (totalFields + 1)%nat in
  let progress := if truthy_opt_string (model material) then (progress + 1)%nat else progress in
  let totalFields := (totalFields + 1)%nat in
  let progress := if set_and_positive (quantity material) then (progress + 1)%nat else progress in
  let totalFields := (totalFields + 1)%nat in
  let progress := if truthy_opt_string (serial_number material) then (progress + 1)%nat else progress in
  let totalFields := (totalFields + 1)%nat in
  let progress := if is_set (manufacturing_year material) then (progress + 1)%nat else progress in
  let totalFields := (totalFields + 1)%nat in
  let progress := if truthy_opt_string (condition material) then (progress + 1)%nat else progress in
  let totalFields := (totalFields + 1)%nat in
  let progress := if set_and_positive (material_new_value_mad material) then (progress + 1)%nat else progress in
  let totalFields := (totalFields + 1)%nat in
  let progress := if is_set (material_obsolescence_percentage material) then (progress + 1)%nat else progress in
  (progress, totalFields).

Definition calculateMaterialProgress (material : Material) : number :=
  let '(progress, totalFields) := material_counters material in
  if (0 <? totalFields)%nat then percentage progress totalFields else of_Z 0.

(** [items.reduce((sum, x) => sum + f(x), 0) / items.length] *)
Definition mean_progress {A : Type} (f : A -> number) (items : list A) : number :=
  js_div (fold_left (fun sum x => js_add sum (f x)) items (of_Z 0))
         (of_nat (length items)).

Definition calculateOverallMissionProgress
    (buildings : list Building) (materials : list Material)
    (missionStatus : jsstring) : number :=
  if bool_decide (missionStatus = js "completed") then of_Z 100
  else if bool_decide (missionStatus = js "cancelled") then of_Z 0
  else if ((length buildings =? 0) && (length materials =? 0))%nat then
    if bool_decide (missionStatus = js "draft") then of_Z 0
    else if bool_decide (missionStatus = js "assigned") then of_Z 15
    else if bool_decide (missionStatus = js "in_progress") then of_Z 50
    else of_Z 0
  else
    let totalProgress := of_Z 0 in
    let totalWeight := of_Z 0 in
    let '(totalProgress, totalWeight) :=
      if (0 <? length buildings)%nat then
        let buildingsProgress := mean_progress calculateBuildingProgress buildings in
        (js_add totalProgress (js_mul buildingsProgress (lit (6 # 10))),
         js_add totalWeight (lit (6 # 10)))
      else (totalProgress, totalWeight) in
    let '(totalProgress, totalWeight) :=
      if (0 <? length materials)%nat then
        let materialsProgress := mean_progress calculateMaterialProgress materials in
        (js_add totalProgress (js_mul materialsProgress (lit (4 # 10))),
         js_add totalWeight (lit (4 # 10)))
      else (totalProgress, totalWeight) in
    if js_gt totalWeight (of_Z 0)
    then Math_round (js_div totalProgress totalWeight)
    else of_Z 0.

Record ValidationStatus : Type := {
  completed : nat;
  total : nat;
  status : string;
  color : string
}.

Definition getBuildingsValidationStatus (buildings : list Building) : ValidationStatus :=
  if (length buildings =? 0)%nat then
    {| completed := 0; total := 0; status := "Aucun bâtiment"; color := "text-gray-600" |}
  else
    let completed :=
      length (List.filter (fun building => js_ge (calculateBuildingProgress building) (of_Z 80))
                          buildings) in
    let total := length buildings in
    if (completed =? total)%nat then
      {| completed := completed; total := total; status := "Validé"; color := "text-green-600" |}
    else if (0 <? completed)%nat then
      {| completed := completed; total := total; status := "Validation partielle"; color := "text-amber-600" |}
    else
      {| completed := completed; total := total; status := "En attente"; color := "text-gray-600" |}.

Definition getMaterialsValidationStatus (materials : list Material) : ValidationStatus :=
  if (length materials =? 0)%nat then
    {| completed := 0; total := 0; status := "Aucun matériel"; color := "text-gray-600" |}
  else
    let completed :=
      length (List.filter (fun material => js_ge (calculateMaterialProgress material) (of_Z 80))
                          materials) in
    let total := length materials in
    if (completed =? total)%nat then
      {| completed := completed; total := total; status := "Validé"; color := "text-green-600" |}
    else if (0 <? completed)%nat then
      {| completed := completed; total := total; status := "Validation partielle"; color := "text-amber-600" |}
    else
      {| completed := completed; total := total; status := "En attente"; color := "text-gray-600" |}.

End Progress.

Export Progress.

(** ** PDF report generator ([src/utils/pdfGenerator.ts]) *)

Module PdfGenerator.

(** The entries of [PDF_CONFIG] used by the layout arithmetic (mm). *)
Module PDF_CONFIG.
Definition margins_top : number := of_Z 25.
Definition margins_bottom : number := of_Z 25.
Definition margins_left : number := of_Z 20.
Definition margins_right : number := of_Z 20.
Definition pageWidth : number := of_Z 210.
Definition pageHeight : number := of_Z 297.
Definition lineHeight : number := of_Z 6.
End PDF_CONFIG.

(** The part of a [jsPDF] document that [checkPageBreak] changes. *)
Record jsPDF : Type := { numberOfPages : nat }.

Definition addPage (pdf : jsPDF) : jsPDF :=
  {| numberOfPages := S (numberOfPages pdf) |}.

Definition getContentWidth : number :=
  js_sub (js_sub PDF_CONFIG.pageWidth PDF_CONFIG.margins_left) PDF_CONFIG.margins_right.

(** [const maxY = PDF_CONFIG.pageHeight - PDF_CONFIG.margins.bottom - 20] *)
Definition maxY : number :=
  js_sub (js_sub PDF_CONFIG.pageHeight PDF_CONFIG.margins_bottom) (of_Z 20).

(** Returns the document after the call and the position to write at. *)
Definition checkPageBreak (pdf : jsPDF) (currentY requiredHeight : number)
    : jsPDF * number :=
  if js_gt (js_add currentY requiredHeight) maxY
  then (addPage pdf, PDF_CONFIG.margins_top)
  else (pdf, currentY).

(** [String.prototype.toLowerCase], code unit by code unit.  Besides
    [A-Z], the only characters whose lower case contains a character of
    [a-z] are U+0130 (to [i] and U+0307) and U+212A (to [k]); every other
    code unit is kept, and lies outside [a-z0-9] before and after the
    Unicode mapping. *)
Definition lower_unit (c : N) : list N :=
  if ((65 <=? c) && (c <=? 90))%N then [(c + 32)%N]
  else if (c =? 304)%N then [105; 775]%N
  else if (c =? 8490)%N then [107%N]
  else [c].

Definition toLowerCase (s : jsstring) : jsstring := flat_map lower_unit s.

(** The character class [[a-z0-9]]. *)
Definition is_a_z_0_9 (c : N) : bool :=
  (((97 <=? c) && (c <=? 122)) || ((48 <=? c) && (c <=? 57)))%N.

Definition hyphen : N := 45%N.

Definition is_hyphen (c : N) : bool := (c =? hyphen)%N.

(** [.replace(/[^a-z0-9]+/g, '-')]: every maximal run of characters
    outside the class becomes one hyphen.  [in_run] tells that the
    previous character was part of such a run. *)
Fixpoint replace_runs (in_run : bool) (s : jsstring) : jsstring :=
  match s with
  | [] => []
  | c :: s' =>
      if is_a_z_0_9 c then c :: replace_runs false s'
      else if in_run then replace_runs true s'
      else hyphen :: replace_runs true s'
  end.

(** [.replace(/^-+|-+$/g, '')] *)
Definition strip_hyphens (s : jsstring) : jsstring :=
  drop_while_end is_hyphen (drop_while is_hyphen s).

(** Shape of a slug: characters of [[a-z0-9]] and single hyphens.
    [after_hyphen] tells that the previous character was a hyphen. *)
Fixpoint well_hyphenated (after_hyphen : bool) (s : jsstring) : bool :=
  match s with
  | [] => true
  | c :: s' =>
      if is_a_z_0_9 c then well_hyphenated false s'
      else is_hyphen c && negb after_hyphen && well_hyphenated true s'
  end.

Definition createSlug (title : jsstring) : jsstring :=
  strip_hyphens (replace_runs false (toLowerCase title)).

(** The [download] name set by [generateMissionReportPdf]:
    [`rapport_${slug}.pdf`]. *)
Definition fileName (title : jsstring) : jsstring :=
  let slug := createSlug title in
  js "rapport_" ++ slug ++ js ".pdf".

End PdfGenerator.

(** ** Dashboard ([services/dashboardService], in
    [src/hooks/useRolePermissions.ts] from line 72) *)

Module Dashboard.

Definition calculateVariation (current previous : number) : number :=
  if js_eq previous (of_Z 0)
  then (if js_gt current (of_Z 0) then of_Z 100 else of_Z 0)
  else Math_round
         (js_mul (js_div (js_sub current previous) previous) (of_Z 100)).

End Dashboard.

(** ** [ProgressBar] ([src/components/ui/ProgressBar.tsx]) *)

Module ProgressBarComponent.

Record ProgressBarProps : Type := {
  progress : number;
  showPercentage : bool
}.

(** What the component renders from [progress]: the [width] style of the
    bar, in percent, and the text under it when [showPercentage] is set. *)
Record Rendered : Type := {
  width : number;
  percentageText : option number
}.

Definition normalizedProgress (progress : number) : number :=
  Math_min (Math_max progress (of_Z 0)) (of_Z 100).

Definition ProgressBar (props : ProgressBarProps) : Rendered :=
  let normalizedProgress := normalizedProgress (progress props) in
  {| width := normalizedProgress;
     percentageText :=
       if showPercentage props then Some normalizedProgress else None |}.

End ProgressBarComponent.

(** ** Users and roles ([types/auth], in [src/utils/pdfGenerator.ts]
    from line 1059) *)

Module Auth.

Inductive Role : Type := super_admin | admin | expert | constateur.

#[global] Instance Role_eq_dec : EqDecision Role.
Proof. solve_decision. Defined.

Definition role_name (r : Role) : string :=
  match r with
  | super_admin => "super_admin"
  | admin => "admin"
  | expert => "expert"
  | constateur => "constateur"
  end.

Record User : Type := {
  id : N;
  role : Role;
  is_active : bool
}.

Record AuthState : Type := {
  user : option User;
  loading : bool;
  error : option jsstring
}.

(** Position in the hierarchy super_admin > admin > expert > constateur. *)
Definition rank (r : Role) : nat :=
  match r with
  | constateur => 0
  | expert => 1
  | admin => 2
  | super_admin => 3
  end.

Definition with_role (u : User) (r : Role) : User :=
  {| id := id u; role := r; is_active := is_active u |}.

End Auth.

(** ** [useRolePermissions] ([src/hooks/useRolePermissions.ts]) *)

Module RolePermissions.
Import Auth.

(** The argument of [hasRole]: [string | string[]]. *)
Inductive RequiredRoles : Type :=
| OneRole (r : string)
| ManyRoles (rs : list string).

Section WithUser.
Variable user : option User.

Definition hasRole (requiredRoles : RequiredRoles) : bool :=
  match user with
  | None => false
  | Some u =>
      let roles :=
        match requiredRoles with
        | ManyRoles rs => rs
        | OneRole r => [r]
        end in
      bool_decide (role_name (role u) ∈ roles)
  end.

Definition canAccessAdmin : bool := hasRole (ManyRoles ["super_admin"; "admin"]%string).
Definition canAccessExpert : bool := hasRole (ManyRoles ["super_admin"; "admin"; "expert"]%string).
Definition canManageUsers : bool := hasRole (ManyRoles ["super_admin"; "admin"]%string).
Definition canManageBuildings : bool := hasRole (ManyRoles ["super_admin"; "admin"; "expert"]%string).
Definition canManageMissions : bool := hasRole (ManyRoles ["super_admin"; "admin"; "expert"]%string).
Definition canViewAllMissions : bool := hasRole (ManyRoles ["super_admin"; "admin"; "expert"]%string).
Definition canAssignMissions : bool := hasRole (ManyRoles ["super_admin"; "admin"; "expert"]%string).

Definition isConstateur : bool :=
  match user with Some u => bool_decide (role u = constateur) | None => false end.

Definition isExpert : bool :=
  match user with Some u => bool_decide (role u = expert) | None => false end.

Definition isAdmin : bool := hasRole (ManyRoles ["super_admin"; "admin"]%string).

Definition isSuperAdmin : bool :=
  match user with Some u => bool_decide (role u = super_admin) | None => false end.

End WithUser.

End RolePermissions.

(** ** [ProtectedRoute] ([src/components/ProtectedRoute.tsx]) *)

Module ProtectedRouteComponent.
Import Auth.

(** What the component returns. *)
Inductive View : Type :=
| LoadingScreen
| NavigateToLogin (stateError : option string)
| ErrorScreen (message : jsstring)
| AccessDenied (userRole : Role)
| Children.

(** Truthiness of [error : string | null]. *)
Definition truthy_error (error : option jsstring) : bool :=
  match error with Some s => truthy_string s | None => false end.

(** [!!(errorMessage && !currentUser)] *)
Definition shouldRedirectToLogin
    (errorMessage : option jsstring) (currentUser : option User) : bool :=
  truthy_error errorMessage && negb (bool_decide (is_Some currentUser)).

Definition ProtectedRoute (auth : AuthState) (allowedRoles : option (list Role)) : View :=
  if loading auth then LoadingScreen
  else if truthy_error (error auth) then
    if shouldRedirectToLogin (error auth) (user auth)
    then NavigateToLogin (Some "Session expirée ou invalide")
    else ErrorScreen (default [] (error auth))
  else
    match user auth with
    | None => NavigateToLogin None
    | Some u =>
        match allowedRoles with
        | Some roles =>
            if negb (bool_decide (role u ∈ roles))
            then AccessDenied (role u)
            else Children
        | None => Children
        end
    end.

(** The views that are a redirect to /login or an error or
    access-refused screen. *)
Definition redirect_or_refusal (v : View) : bool :=
  match v with
  | NavigateToLogin _ | ErrorScreen _ | AccessDenied _ => true
  | LoadingScreen | Children => false
  end.

End ProtectedRouteComponent.

(** ** Row-level security ([supabase/migrations/])

    The policies in force, read off the [DROP POLICY] and
    [CREATE POLICY] statements of the migrations in their order:

    - on [profiles], those of [20250624194827_muddy_glitter.sql]
      (lines 515-533), which no later migration touches;
    - on [missions], the INSERT, UPDATE and DELETE policies of
      [20250624194827_muddy_glitter.sql] and the SELECT policy of the
      migration "Fix Missions RLS Policies for Expert Role Isolation"
      ([src/unnamed/part_001]);
    - on [mission_buildings], the SELECT and UPDATE policies of "Fix
      Mission Buildings RLS Policies - Final Version" (second document
      of [20250624155515_teal_frog.sql]; the same text as in
      [20250625125311_wispy_shape.sql]) and the INSERT and DELETE
      policies of [20250625211248_lively_cherry.sql], which replaces
      those of the former to include the status 'draft'.  The policies
      of [muddy_glitter] and of "Fix mission_buildings RLS policies"
      (second document of [20250626103529_falling_portal.sql]) carry
      the names that [wispy_shape] drops.  The second documents of the
      files bear no date: their place follows from the names that they
      drop and create, and from the text that each takes over from the
      one before.  The policies that are replaced on this reading are
      modelled as well, so that no statement on [mission_buildings]
      depends on it;
    - on [materials], those of [20250626103529_falling_portal.sql];
    - on [buildings], those of [20250709133918_falling_valley.sql];
    - on [storage.objects], those of "Storage RLS Policies for Mission
      Documents" ([src/unnamed/part_000]).

    The table [users] of the first migration (second document of
    [src/unnamed/part_000]) is replaced in [muddy_glitter] by a view
    over [profiles]; a view carries no policy.

    A policy condition is read as the Boolean "the SQL expression is
    true": the conditions contain no negation, so an unknown ([NULL])
    comparison can be read as false at the leaves.  Several permissive
    policies for one command are combined with OR.

    Row-level security is enabled on [profiles], [missions] and
    [mission_buildings] ([muddy_glitter], lines 278-282), and the
    policies are evaluated for the session user: a sub-query of a
    policy on one of these tables sees only the rows that the SELECT
    policies of that table let the session read ([select_profile],
    [select_mission], [select_mission_buildings]). *)

Module RLS.

Definition uuid : Type := N.

(** [profiles]: [id uuid PRIMARY KEY], [role text], [is_active boolean]. *)
Record profile : Type := {
  profile_role : option string;
  profile_is_active : option bool
}.

Inductive mission_status : Type :=
| draft | assigned | in_progress | completed | cancelled.

#[global] Instance mission_status_eq_dec : EqDecision mission_status.
Proof. solve_decision. Defined.

(** [missions]: [id uuid PRIMARY KEY], [assigned_to uuid],
    [created_by uuid NOT NULL], [status mission_status]. *)
Record mission : Type := {
  assigned_to : option uuid;
  mission_created_by : uuid;
  status : option mission_status
}.

(** [mission_buildings]: [PRIMARY KEY (mission_id, building_id)]. *)
Record mission_building : Type := {
  mission_id : uuid;
  building_id : uuid
}.

(** The columns of a [buildings] row that the policies read. *)
Record building : Type := {
  id : uuid;
  created_by : option uuid
}.

(** The columns of a [materials] row that the policies read. *)
Record material : Type := {
  material_building_id : uuid;
  material_created_by : option uuid;
  material_is_active : option bool
}.

(** The columns of a [storage.objects] row that the policies read. *)
Record storage_object : Type := {
  bucket_id : string;
  object_name : string
}.

(** Tables with a primary key [id] are maps from the key to the row. *)
Record database : Type := {
  profiles : gmap uuid profile;
  missions : gmap uuid mission;
  mission_buildings : list mission_building
}.

Section Policies.
Variable db : database.
(** [auth.uid()] of the authenticated session. *)
Variable uid : uuid.

(** [column = true] on a nullable Boolean column *)
Definition column_true (column : option bool) : bool :=
  match column with Some b => b | None => false end.

(** [created_by = auth.uid()] on a nullable column *)
Definition is_uid (column : option uuid) : bool :=
  bool_decide (column = Some uid).

(** *** [profiles]

    A row is the key [id] with the other columns. *)

(** "Users can read own profile" or "Users can read active profiles" *)
Definition profiles_select_using (row : uuid * profile) : bool :=
  bool_decide (uid = fst row) || column_true (profile_is_active (snd row)).

(** "Users can insert own profile" *)
Definition profiles_insert_check (row : uuid * profile) : bool :=
  bool_decide (uid = fst row).

(** "Users can update own profile": [USING] and [WITH CHECK] *)
Definition profiles_update_using (row : uuid * profile) : bool :=
  bool_decide (uid = fst row).

Definition profiles_update_check (row : uuid * profile) : bool :=
  bool_decide (uid = fst row).

(** "Service role can manage all profiles": [FOR ALL TO service_role
    USING (true) WITH CHECK (true)], the only policy that is not
    [TO authenticated]. *)
Definition profiles_service_role_all (row : uuid * profile) : bool := true.

(** The row of [profiles] with primary key [id], when the session may
    read it. *)
Definition select_profile (id : uuid) : option profile :=
  match profiles db !! id with
  | Some p => if profiles_select_using (id, p) then Some p else None
  | None => None
  end.

(** [EXISTS (SELECT 1 FROM profiles WHERE profiles.id = auth.uid()
            AND profiles.role IN (roles) AND profiles.is_active = true)] *)
Definition exists_profile (roles : list string) : bool :=
  match select_profile uid with
  | Some p =>
      match profile_role p with
      | Some r => bool_decide (r ∈ roles)
      | None => false
      end
      && match profile_is_active p with
         | Some active => active
         | None => false
         end
  | None => false
  end.

(** *** [missions] *)

(** "Users can read missions based on role and ownership" *)
Definition missions_select_using (m : mission) : bool :=
  exists_profile ["super_admin"; "admin"]%string
  || (exists_profile ["expert"]%string && bool_decide (mission_created_by m = uid))
  || (exists_profile ["constateur"]%string && is_uid (assigned_to m)).

(** "Experts and above can create missions" *)
Definition missions_insert_check (m : mission) : bool :=
  exists_profile ["super_admin"; "admin"; "expert"]%string.

(** "Experts and above can update missions" or "Constatateurs can
    update their assigned missions" *)
Definition missions_update_using (m : mission) : bool :=
  exists_profile ["super_admin"; "admin"; "expert"]%string
  || is_uid (assigned_to m).

(** "Admins and experts can delete missions" *)
Definition missions_delete_using (m : mission) : bool :=
  match select_profile uid with
  | Some p =>
      match profile_is_active p with Some active => active | None => false end
      && match profile_role p with
         | Some r =>
             bool_decide (r ∈ ["super_admin"; "admin"]%string)
             || (bool_decide (r = "expert"%string)
                 && bool_decide (mission_created_by m = uid))
         | None => false
         end
  | None => false
  end.

(** The row of [missions] with primary key [id], when the session may
    read it. *)
Definition select_mission (id : uuid) : option mission :=
  match missions db !! id with
  | Some m => if missions_select_using m then Some m else None
  | None => None
  end.

(** [m.status IN ('draft', 'assigned', 'in_progress')] *)
Definition is_open (s : option mission_status) : bool :=
  match s with
  | Some s => bool_decide (s ∈ [draft; assigned; in_progress])
  | None => false
  end.

(** *** [mission_buildings] *)

(** [EXISTS (SELECT 1 FROM missions WHERE missions.id =
            mission_buildings.mission_id AND condition)] *)
Definition exists_mission_of (mb : mission_building) (condition : mission -> bool) : bool :=
  match select_mission (mission_id mb) with
  | Some m => condition m
  | None => false
  end.

(** "Allow adding buildings to missions based on role and access"
    ([lively_cherry]) *)
Definition mission_buildings_insert_check (mb : mission_building) : bool :=
  exists_profile ["super_admin"; "admin"]%string
  || exists_profile ["expert"]%string
  || exists_mission_of mb (fun m => bool_decide (mission_created_by m = uid))
  || (exists_profile ["constateur"]%string
      && exists_mission_of mb (fun m => is_uid (assigned_to m) && is_open (status m))).

(** "Allow reading mission buildings based on mission access" *)
Definition mission_buildings_select_using (mb : mission_building) : bool :=
  exists_profile ["super_admin"; "admin"; "expert"]%string
  || exists_mission_of mb (fun m => bool_decide (mission_created_by m = uid))
  || exists_mission_of mb (fun m => is_uid (assigned_to m)).

(** "Allow updating mission buildings based on mission access":
    [USING] and [WITH CHECK] *)
Definition mission_buildings_update_using (mb : mission_building) : bool :=
  exists_profile ["super_admin"; "admin"; "expert"]%string
  || exists_mission_of mb (fun m => bool_decide (mission_created_by m = uid))
  || exists_mission_of mb (fun m => is_uid (assigned_to m)).

Definition mission_buildings_update_check (mb : mission_building) : bool :=
  exists_profile ["super_admin"; "admin"; "expert"]%string
  || exists_mission_of mb (fun m => bool_decide (mission_created_by m = uid))
  || exists_mission_of mb (fun m => is_uid (assigned_to m)).

(** "Allow deleting mission buildings based on role and access"
    ([lively_cherry]) *)
Definition mission_buildings_delete_using (mb : mission_building) : bool :=
  exists_profile ["super_admin"; "admin"]%string
  || exists_mission_of mb
       (fun m => bool_decide (mission_created_by m = uid) && exists_profile ["expert"]%string)
  || (exists_profile ["constateur"]%string
      && exists_mission_of mb (fun m => is_uid (assigned_to m) && is_open (status m))).

(** The rows of [mission_buildings] that the session may read. *)
Definition select_mission_buildings : list mission_building :=
  List.filter mission_buildings_select_using (mission_buildings db).

(** [EXISTS (SELECT 1 FROM mission_buildings mb
            JOIN missions m ON m.id = mb.mission_id
            WHERE mb.building_id = bid
            AND m.assigned_to = auth.uid())] *)
Definition exists_assigned_mission (bid : uuid) : bool :=
  existsb
    (fun mb =>
       match select_mission (mission_id mb) with
       | Some m =>
           bool_decide (building_id mb = bid)
           && bool_decide (assigned_to m = Some uid)
       | None => false
       end)
    select_mission_buildings.

(** The same with [AND m.status IN ('draft', 'assigned', 'in_progress')]. *)
Definition exists_open_assigned_mission (bid : uuid) : bool :=
  existsb
    (fun mb =>
       match select_mission (mission_id mb) with
       | Some m =>
           bool_decide (building_id mb = bid)
           && bool_decide (assigned_to m = Some uid)
           && match status m with
              | Some s => bool_decide (s ∈ [draft; assigned; in_progress])
              | None => false
              end
       | None => false
       end)
    select_mission_buildings.

(** *** [mission_buildings]: the policies that the above replace

    They are kept beside the policies in force: what is proved of the
    latter is proved of these as well, alone where they stood alone and
    beside the policies in force where they carry other names. *)

(** [m.status IN ('assigned', 'in_progress')] *)
Definition is_assigned_or_in_progress (s : option mission_status) : bool :=
  match s with
  | Some s => bool_decide (s ∈ [assigned; in_progress])
  | None => false
  end.

(** "Allow adding buildings to missions based on role and access" of
    "Fix Mission Buildings RLS Policies - Final Version", before
    [lively_cherry] adds 'draft'; the policy of [wispy_shape] joins
    [missions] with [profiles] to the same effect. *)
Definition mission_buildings_insert_check_final_version (mb : mission_building) : bool :=
  exists_profile ["super_admin"; "admin"]%string
  || exists_profile ["expert"]%string
  || exists_mission_of mb (fun m => bool_decide (mission_created_by m = uid))
  || (exists_profile ["constateur"]%string
      && exists_mission_of mb
           (fun m => is_uid (assigned_to m) && is_assigned_or_in_progress (status m))).

(** "Allow deleting mission buildings based on role and access" of the
    same migration *)
Definition mission_buildings_delete_using_final_version (mb : mission_building) : bool :=
  exists_profile ["super_admin"; "admin"]%string
  || exists_mission_of mb
       (fun m => bool_decide (mission_created_by m = uid) && exists_profile ["expert"]%string)
  || (exists_profile ["constateur"]%string
      && exists_mission_of mb
           (fun m => is_uid (assigned_to m) && is_assigned_or_in_progress (status m))).

(** The policies of "Fix mission_buildings RLS policies" (second
    document of [20250626103529_falling_portal.sql]), under the names
    that [wispy_shape] drops.

    "Experts and above can add buildings to any mission" *)
Definition experts_can_add_buildings_check (mb : mission_building) : bool :=
  exists_profile ["super_admin"; "admin"; "expert"]%string.

(** "Constatateurs can add buildings to their assigned missions":
    [FROM missions m JOIN profiles p ON p.id = auth.uid()] *)
Definition constateurs_can_add_buildings_check (mb : mission_building) : bool :=
  exists_mission_of mb
    (fun m => is_uid (assigned_to m)
              && exists_profile ["constateur"]%string
              && is_assigned_or_in_progress (status m)).

(** "Users can read mission buildings based on mission access" *)
Definition users_can_read_mission_buildings_using (mb : mission_building) : bool :=
  exists_mission_of mb
    (fun m => is_uid (assigned_to m)
              || exists_profile ["super_admin"; "admin"; "expert"]%string).

(** "Users can update mission buildings based on mission access":
    [USING] and [WITH CHECK] *)
Definition users_can_update_mission_buildings_using (mb : mission_building) : bool :=
  exists_mission_of mb
    (fun m => is_uid (assigned_to m)
              || exists_profile ["super_admin"; "admin"; "expert"]%string).

Definition users_can_update_mission_buildings_check (mb : mission_building) : bool :=
  exists_mission_of mb
    (fun m => is_uid (assigned_to m)
              || exists_profile ["super_admin"; "admin"; "expert"]%string).

(** "Constatateurs can delete buildings from their assigned missions" *)
Definition constateurs_can_delete_buildings_using (mb : mission_building) : bool :=
  exists_mission_of mb
    (fun m => is_uid (assigned_to m)
              && exists_profile ["constateur"]%string
              && is_assigned_or_in_progress (status m)).

(** "Admins and above can delete any mission buildings" *)
Definition admins_can_delete_mission_buildings_using (mb : mission_building) : bool :=
  exists_profile ["super_admin"; "admin"]%string.

(** *** [buildings] *)

(** "Users can read buildings based on role and ownership" *)
Definition buildings_select_using (b : building) : bool :=
  exists_profile ["super_admin"; "admin"]%string
  || (exists_profile ["expert"]%string && is_uid (created_by b))
  || (exists_profile ["constateur"]%string && exists_assigned_mission (id b)).

(** "Allow creating buildings based on role with proper ownership" *)
Definition buildings_insert_check (b : building) : bool :=
  exists_profile ["super_admin"; "admin"; "expert"; "constateur"]%string
  && is_uid (created_by b).

(** "Allow updating buildings based on role and ownership": [USING] *)
Definition buildings_update_using (b : building) : bool :=
  exists_profile ["super_admin"; "admin"]%string
  || (exists_profile ["expert"]%string && is_uid (created_by b))
  || (is_uid (created_by b)
      && exists_profile ["constateur"]%string
      && exists_open_assigned_mission (id b)).

(** ... and its [WITH CHECK], applied to the row after the update. *)
Definition buildings_update_check (b : building) : bool :=
  exists_profile ["super_admin"; "admin"]%string
  || (exists_profile ["expert"]%string && is_uid (created_by b))
  || (is_uid (created_by b)
      && exists_profile ["constateur"]%string
      && exists_open_assigned_mission (id b)).

(** "Allow deleting buildings based on role and ownership" *)
Definition buildings_delete_using (b : building) : bool :=
  exists_profile ["super_admin"; "admin"]%string
  || (exists_profile ["expert"]%string && is_uid (created_by b))
  || (is_uid (created_by b)
      && exists_profile ["constateur"]%string
      && exists_open_assigned_mission (id b)).

(** *** [materials] *)

(** "Allow creating materials based on role and mission access" *)
Definition materials_insert_check (m : material) : bool :=
  exists_profile ["super_admin"; "admin"; "expert"]%string
  || (exists_profile ["constateur"]%string
      && exists_open_assigned_mission (material_building_id m)).

(** "Allow reading materials based on role and access" *)
Definition materials_select_using (m : material) : bool :=
  match material_is_active m with Some active => active | None => false end
  || exists_profile ["super_admin"; "admin"; "expert"]%string
  || exists_assigned_mission (material_building_id m).

(** "Allow updating materials based on role and access": [USING] *)
Definition materials_update_using (m : material) : bool :=
  exists_profile ["super_admin"; "admin"; "expert"]%string
  || (is_uid (material_created_by m)
      && exists_profile ["constateur"]%string
      && exists_open_assigned_mission (material_building_id m)).

(** ... and its [WITH CHECK]. *)
Definition materials_update_check (m : material) : bool :=
  exists_profile ["super_admin"; "admin"; "expert"]%string
  || (is_uid (material_created_by m)
      && exists_profile ["constateur"]%string
      && exists_open_assigned_mission (material_building_id m)).

(** "Allow deleting materials based on role and access" *)
Definition materials_delete_using (m : material) : bool :=
  exists_profile ["super_admin"; "admin"]%string
  || (is_uid (material_created_by m) && exists_profile ["expert"]%string)
  || (is_uid (material_created_by m)
      && exists_profile ["constateur"]%string
      && exists_open_assigned_mission (material_building_id m)).

(** *** [storage.objects] *)

(** [m.id::text], the text of a UUID: hexadecimal digits and hyphens,
    none of which is a wildcard of [LIKE]. *)
Variable uuid_text : uuid -> string.

Definition in_mission_documents (o : storage_object) : bool :=
  bool_decide (bucket_id o = "mission-documents"%string).

(** "Allow experts and above to upload mission documents" *)
Definition storage_insert_check (o : storage_object) : bool :=
  in_mission_documents o
  && exists_profile ["super_admin"; "admin"; "expert"]%string.

(** "Allow experts and above to update mission documents": [USING] and
    [WITH CHECK] *)
Definition storage_update_using (o : storage_object) : bool :=
  in_mission_documents o
  && exists_profile ["super_admin"; "admin"; "expert"]%string.

Definition storage_update_check (o : storage_object) : bool :=
  in_mission_documents o
  && exists_profile ["super_admin"; "admin"; "expert"]%string.

(** "Allow experts and above to delete mission documents" *)
Definition storage_delete_using (o : storage_object) : bool :=
  in_mission_documents o
  && exists_profile ["super_admin"; "admin"; "expert"]%string.

(** "Allow users to read mission documents based on access"; the
    second branch joins the missions that the session may read with
    its profile, and [name LIKE 'missions/' || m.id::text || '/%'] is
    the test that [name] starts with that path. *)
Definition storage_select_using (o : storage_object) : bool :=
  in_mission_documents o
  && (exists_profile ["super_admin"; "admin"; "expert"]%string
      || existsb
           (fun '(mission_id, m) =>
              missions_select_using m
              && is_uid (assigned_to m)
              && exists_profile ["constateur"]%string
              && String.prefix ("missions/" ++ uuid_text mission_id ++ "/")%string
                               (object_name o))
           (map_to_list (missions db))).

End Policies.

(** Permissive policies for one command are combined with OR. *)
Definition either {Row : Type} (policy other : database -> uuid -> Row -> bool)
    (db : database) (uid : uuid) (row : Row) : bool :=
  policy db uid row || other db uid row.

(** The statuses under which a constateur may still write. *)
Definition open_status (s : option mission_status) : Prop :=
  s = Some draft \/ s = Some assigned \/ s = Some in_progress.

(** The same database where the profile of [uid] has role [r]. *)
Definition set_role (db : database) (uid : uuid) (r : string) : database :=
  {| profiles :=
       alter (fun p => {| profile_role := Some r;
                          profile_is_active := profile_is_active p |})
             uid (profiles db);
     missions := missions db;
     mission_buildings := mission_buildings db |}.

(** The session has a profile that is active. *)
Definition has_active_profile (db : database) (uid : uuid) : bool :=
  match profiles db !! uid with
  | Some p => column_true (profile_is_active p)
  | None => false
  end.

End RLS.

(** ** Monotonicity in the role hierarchy

    A capability of the front end is monotone when raising the role of a
    user, everything else unchanged, never removes it; a policy
    condition is monotone when raising the role stored in the profile of
    the session user never removes a row. *)

Module Hierarchy.
Import Auth RLS.

Definition capability_monotone (capability : option User -> bool) : Prop :=
  forall (u : User) (r_low r_high : Role),
    (rank r_low < rank r_high)%nat ->
    capability (Some (with_role u r_low)) = true ->
    capability (Some (with_role u r_high)) = true.

Definition policy_monotone_between {Row : Type}
    (policy : database -> uuid -> Row -> bool) (r_low r_high : Role) : Prop :=
  forall (db : database) (uid : uuid) (row : Row),
    policy (set_role db uid (role_name r_low)) uid row = true ->
    policy (set_role db uid (role_name r_high)) uid row = true.

Definition policy_monotone {Row : Type}
    (policy : database -> uuid -> Row -> bool) : Prop :=
  forall r_low r_high : Role,
    (rank r_low < rank r_high)%nat -> policy_monotone_between policy r_low r_high.

(** The roles that [hasRole] looks for. *)
Definition required_list (requiredRoles : RolePermissions.RequiredRoles) : list string :=
  match requiredRoles with
  | RolePermissions.ManyRoles rs => rs
  | RolePermissions.OneRole r => [r]
  end.

(** A list of roles that holds, with a role, every role above it. *)
Definition upward_closed (roles : list string) : Prop :=
  forall r_low r_high : Role,
    (rank r_low < rank r_high)%nat ->
    role_name r_low ∈ roles -> role_name r_high ∈ roles.

End Hierarchy.
(** ** Layout helpers of the PDF report ([src/utils/pdfGenerator.ts],
    lines 110-216) *)

Module PdfLayout.
Import PdfGenerator.

(** Further entries of [PDF_CONFIG]: [fontSize] and [spacing]. *)
Definition fontSize_h3 : number := of_Z 14.
Definition fontSize_h4 : number := of_Z 12.
Definition fontSize_p : number := of_Z 10.
Definition spacing_beforeH3 : number := of_Z 12.
Definition spacing_afterH3 : number := of_Z 8.
Definition spacing_beforeH4 : number := of_Z 8.
Definition spacing_afterH4 : number := of_Z 5.
Definition spacing_afterParagraph : number := of_Z 4.
Definition spacing_tableRowHeight : number := of_Z 7.

Inductive FontStyle : Type := normal | bold | italic.

(** What a call of [pdf.text] or [pdf.line] leaves on a page. *)
Inductive Drawing : Type :=
| Text (page : nat) (text : jsstring) (x y : number)
| Line (page : nat) (x1 y1 x2 y2 : number).

(** The state of the [jsPDF] object that the helpers read and write:
    the pages, the font settings, the line width and the drawings made
    so far, oldest first. *)
Record Document : Type := {
  pages : jsPDF;
  doc_fontSize : number;
  doc_fontStyle : FontStyle;
  doc_lineWidth : number;
  drawings : list Drawing
}.

Definition setFontSize (pdf : Document) (size : number) : Document :=
  {| pages := pages pdf; doc_fontSize := size; doc_fontStyle := doc_fontStyle pdf;
     doc_lineWidth := doc_lineWidth pdf; drawings := drawings pdf |}.

(** [pdf.setFont('helvetica', style)] *)
Definition setFont (pdf : Document) (style : FontStyle) : Document :=
  {| pages := pages pdf; doc_fontSize := doc_fontSize pdf; doc_fontStyle := style;
     doc_lineWidth := doc_lineWidth pdf; drawings := drawings pdf |}.

Definition setLineWidth (pdf : Document) (w : number) : Document :=
  {| pages := pages pdf; doc_fontSize := doc_fontSize pdf;
     doc_fontStyle := doc_fontStyle pdf; doc_lineWidth := w; drawings := drawings pdf |}.

(** The helpers draw on the current page, which is the last one:
    [addPage] makes the page it adds current, and [setPage] is only
    called by the footer loop that ends the report. *)
Definition currentPage (pdf : Document) : nat := numberOfPages (pages pdf).

(** [pdf.text(text, x, y)] *)
Definition text (pdf : Document) (s : jsstring) (x y : number) : Document :=
  {| pages := pages pdf; doc_fontSize := doc_fontSize pdf;
     doc_fontStyle := doc_fontStyle pdf; doc_lineWidth := doc_lineWidth pdf;
     drawings := drawings pdf ++ [Text (currentPage pdf) s x y] |}.

(** [pdf.line(x1, y1, x2, y2)] *)
Definition line (pdf : Document) (x1 y1 x2 y2 : number) : Document :=
  {| pages := pages pdf; doc_fontSize := doc_fontSize pdf;
     doc_fontStyle := doc_fontStyle pdf; doc_lineWidth := doc_lineWidth pdf;
     drawings := drawings pdf ++ [Line (currentPage pdf) x1 y1 x2 y2] |}.

(** [checkPageBreak] on the pages of a document. *)
Definition checkPageBreak_doc (pdf : Document) (currentY requiredHeight : number)
    : Document * number :=
  let '(p, y) := checkPageBreak (pages pdf) currentY requiredHeight in
  ({| pages := p; doc_fontSize := doc_fontSize pdf; doc_fontStyle := doc_fontStyle pdf;
      doc_lineWidth := doc_lineWidth pdf; drawings := drawings pdf |}, y).

(** [y + h <= maxY]: a block of height [h] placed at [y] ends above the
    limit of [checkPageBreak]. *)
Definition within_limit (y h : number) : bool := js_le (js_add y h) maxY.

Definition drawing_page (d : Drawing) : nat :=
  match d with Text page _ _ _ | Line page _ _ _ _ => page end.

Section Layout.

(** [pdf.splitTextToSize(text, maxWidth)] of the jsPDF library: the
    lines of [text] wrapped at [maxWidth] in the current font size and
    style. *)
Variable splitTextToSize : number -> FontStyle -> jsstring -> number -> list jsstring.

(** Every call site passes [fontSize]; [fontStyle] defaults to
    ['normal']. *)
Definition addWrappedText (pdf : Document) (s : jsstring) (x y maxWidth : number)
    (fontSize : number) (fontStyle : FontStyle) : Document * number :=
  let pdf := setFontSize pdf fontSize in
  let pdf := setFont pdf fontStyle in
  let lines := splitTextToSize (doc_fontSize pdf) (doc_fontStyle pdf) s maxWidth in
  let currentY := y in
  fold_left
    (fun '(pdf, currentY) line_ =>
       let '(pdf, currentY) :=
         checkPageBreak_doc pdf currentY (js_add PDF_CONFIG.lineHeight (of_Z 2)) in
       let pdf := text pdf line_ x currentY in
       (pdf, js_add currentY PDF_CONFIG.lineHeight))
    lines (pdf, currentY).

(** The body of [data.forEach(([label, value]) => ...)] in [addTable]. *)
Definition addTable_row (labelWidth valueWidth : number)
    (state : Document * number) (row : jsstring * jsstring) : Document * number :=
  let '(pdf, currentY) := state in
  let '(label, value) := row in
  if truthy_string label && truthy_string value then
    let '(pdf, currentY) := checkPageBreak_doc pdf currentY spacing_tableRowHeight in
    let pdf := setFontSize pdf fontSize_p in
    let pdf := setFont pdf bold in
    let pdf := text pdf label PDF_CONFIG.margins_left currentY in
    let pdf := setFont pdf normal in
    let wrappedValue :=
      splitTextToSize (doc_fontSize pdf) (doc_fontStyle pdf) value valueWidth in
    let valueY := currentY in
    let '(pdf, valueY) :=
      fold_left
        (fun '(pdf, valueY) line_ =>
           (text pdf line_ (js_add PDF_CONFIG.margins_left labelWidth) valueY,
            js_add valueY PDF_CONFIG.lineHeight))
        wrappedValue (pdf, valueY) in
    (pdf, Math_max (js_add currentY spacing_tableRowHeight) valueY)
  else (pdf, currentY).

Definition addTable (pdf : Document) (data : list (jsstring * jsstring))
    (startY : number) : Document * number :=
  let currentY := startY in
  let contentWidth := getContentWidth in
  let labelWidth := js_mul contentWidth (lit (4 # 10)) in
  let valueWidth := js_mul contentWidth (lit (6 # 10)) in
  let '(pdf, currentY) :=
    fold_left (addTable_row labelWidth valueWidth) data (pdf, currentY) in
  (pdf, js_add currentY spacing_afterParagraph).

End Layout.

Definition addH3Section (pdf : Document) (title : jsstring) (currentY : number)
    : Document * number :=
  let currentY := js_add currentY spacing_beforeH3 in
  let '(pdf, currentY) :=
    checkPageBreak_doc pdf currentY
      (js_add (js_add fontSize_h3 spacing_afterH3) (of_Z 10)) in
  let pdf := setFontSize pdf fontSize_h3 in
  let pdf := setFont pdf bold in
  let pdf := text pdf title PDF_CONFIG.margins_left currentY in
  let lineY := js_add currentY (of_Z 3) in
  let pdf := setLineWidth pdf (lit (5 # 10)) in
  let pdf := line pdf PDF_CONFIG.margins_left lineY
                  (js_sub PDF_CONFIG.pageWidth PDF_CONFIG.margins_right) lineY in
  (pdf, js_add currentY spacing_afterH3).

Definition addH4SubSection (pdf : Document) (title : jsstring) (currentY : number)
    : Document * number :=
  let currentY := js_add currentY spacing_beforeH4 in
  let '(pdf, currentY) :=
    checkPageBreak_doc pdf currentY
      (js_add (js_add fontSize_h4 spacing_afterH4) (of_Z 5)) in
  let pdf := setFontSize pdf fontSize_h4 in
  let pdf := setFont pdf bold in
  let pdf := text pdf title PDF_CONFIG.margins_left currentY in
  (pdf, js_add currentY spacing_afterH4).

(** The rows that [addTable] prints: both cells non-empty. *)
Definition printed_row (row : jsstring * jsstring) : bool :=
  truthy_string (fst row) && truthy_string (snd row).

(** Lines of text written one under the other on one page, from [y]
    downwards and [lineHeight] apart. *)
Fixpoint stacked_lines (page : nat) (x y : number) (lines : list jsstring)
    : list Drawing :=
  match lines with
  | [] => []
  | line_ :: lines' =>
      Text page line_ x y :: stacked_lines page x (js_add y PDF_CONFIG.lineHeight) lines'
  end.

(** One printed row of a table: the label where 7 mm are left, the lines
    of the value on the same page from the same height. *)
Definition row_drawings
    (splitTextToSize : number -> FontStyle -> jsstring -> number -> list jsstring)
    (group : list Drawing) (row : jsstring * jsstring) : Prop :=
  exists page p,
    group = Text page (fst row) (of_Z 20) p
            :: stacked_lines page (of_Z 88) p
                 (splitTextToSize (of_Z 10) normal (snd row) (of_Z 102))
    /\ within_limit p (of_Z 7) = true.

End PdfLayout.

(** ** Cards of the mission tabs
    ([src/components/missions/MissionBuildingsTab.tsx] and
    [MissionMaterialsTab.tsx], lines 116-120 and the [map] over the
    items) *)

Module MissionTabs.
Import Progress ProgressBarComponent.

Definition getProgressColor (progress : number) : string :=
  if js_lt progress (of_Z 30) then "bg-red-500"
  else if js_lt progress (of_Z 70) then "bg-amber-500"
  else "bg-green-500".

(** The progress bar of a card: its colour class and what [ProgressBar]
    renders. *)
Record CardBar : Type := {
  progressColor : string;
  bar : Rendered
}.

(** [const progress = calculateBuildingProgress(building);
     const progressColor = getProgressColor(progress);
     <ProgressBar progress={progress} color={progressColor} height="h-2" />] *)
Definition buildingCardBar (building : Building) : CardBar :=
  let progress := calculateBuildingProgress building in
  let progressColor := getProgressColor progress in
  {| progressColor := progressColor;
     bar := ProgressBar {| progress := progress; showPercentage := false |} |}.

Definition materialCardBar (material : Material) : CardBar :=
  let progress := calculateMaterialProgress material in
  let progressColor := getProgressColor progress in
  {| progressColor := progressColor;
     bar := ProgressBar {| progress := progress; showPercentage := false |} |}.

(** The ten tests of [calculateMaterialProgress], in source order. *)
Definition material_tests (material : Material) : list bool :=
  [ truthy_string (name material);
    truthy_string (building_id material);
    truthy_opt_string (brand material);
    truthy_opt_string (model material);
    set_and_positive (quantity material);
    truthy_opt_string (serial_number material);
    is_set (manufacturing_year material);
    truthy_opt_string (condition material);
    set_and_positive (material_new_value_mad material);
    is_set (material_obsolescence_percentage material) ].

End MissionTabs.

(** ** Dashboard service ([services/dashboardService], in
    [src/hooks/useRolePermissions.ts], lines 120-178 and 228-264,
    326-339) *)

Module DashboardService.
Import Dashboard.

(** A [Date] object is modelled by its time value: the number of
    milliseconds since the epoch, or [NaN] for an invalid date. *)
Definition Date : Type := number.

Definition getTime (d : Date) : number := d.

(** Integer part, towards zero. *)
Definition Qtruncate (q : Q) : Z :=
  if Qle_bool 0 q then Qfloor q else Qceiling q.

(** [TimeClip] of ECMAScript: a time value is an integer of magnitude at
    most 8.64e15; everything else is an invalid date. *)
Definition TimeClip (t : number) : number :=
  match t with
  | Fin q =>
      if Qle_bool (inject_Z (- 8640000000000000)) q
         && Qle_bool q (inject_Z 8640000000000000)
      then Fin (inject_Z (Qtruncate q))
      else NaN
  | _ => NaN
  end.

(** [new Date(value)] for a number. *)
Definition new_Date (value : number) : Date := TimeClip value.

Record DateRange : Type := {
  range_start : Date;
  range_end : Date
}.

Record DateRanges : Type := {
  current : DateRange;
  previous : DateRange
}.

(** A call that returns or throws [new Error(message)]. *)
Inductive outcome (A : Type) : Type :=
| Return (a : A)
| Throw (message : string).

Arguments Return {A} a.
Arguments Throw {A} message.

Section Calendar.

(** The clock and the calendar of the browser, in local time:
    [new Date()], [getFullYear], [getMonth] and
    [new Date(year, monthIndex, day)]. *)
Variable now : Date.
Variable getFullYear : Date -> number.
Variable getMonth : Date -> number.
Variable Date_of : number -> number -> number -> Date.

(** [period] is the string received at run time; the optional dates are
    absent ([None]) or [Date] objects, which are always truthy. *)
Definition getDateRange (period : string) (customStart customEnd : option Date)
    : outcome DateRanges :=
  if String.eqb period "ce_mois" then
    let currentStart := Date_of (getFullYear now) (getMonth now) (of_Z 1) in
    let currentEnd := Date_of (getFullYear now) (js_add (getMonth now) (of_Z 1)) (of_Z 0) in
    let previousStart := Date_of (getFullYear now) (js_sub (getMonth now) (of_Z 1)) (of_Z 1) in
    let previousEnd := Date_of (getFullYear now) (getMonth now) (of_Z 0) in
    Return {| current := {| range_start := currentStart; range_end := currentEnd |};
              previous := {| range_start := previousStart; range_end := previousEnd |} |}
  else if String.eqb period "3_mois" then
    let currentEnd := Date_of (getFullYear now) (js_add (getMonth now) (of_Z 1)) (of_Z 0) in
    let currentStart := Date_of (getFullYear now) (js_sub (getMonth now) (of_Z 2)) (of_Z 1) in
    let previousEnd := Date_of (getFullYear now) (js_sub (getMonth now) (of_Z 2)) (of_Z 0) in
    let previousStart := Date_of (getFullYear now) (js_sub (getMonth now) (of_Z 5)) (of_Z 1) in
    Return {| current := {| range_start := currentStart; range_end := currentEnd |};
              previous := {| range_start := previousStart; range_end := previousEnd |} |}
  else if String.eqb period "annee_courante" then
    let currentStart := Date_of (getFullYear now) (of_Z 0) (of_Z 1) in
    let currentEnd := Date_of (getFullYear now) (of_Z 11) (of_Z 31) in
    let previousStart := Date_of (js_sub (getFullYear now) (of_Z 1)) (of_Z 0) (of_Z 1) in
    let previousEnd := Date_of (js_sub (getFullYear now) (of_Z 1)) (of_Z 11) (of_Z 31) in
    Return {| current := {| range_start := currentStart; range_end := currentEnd |};
              previous := {| range_start := previousStart; range_end := previousEnd |} |}
  else if String.eqb period "annee_precedente" then
    let currentStart := Date_of (js_sub (getFullYear now) (of_Z 1)) (of_Z 0) (of_Z 1) in
    let currentEnd := Date_of (js_sub (getFullYear now) (of_Z 1)) (of_Z 11) (of_Z 31) in
    let previousStart := Date_of (js_sub (getFullYear now) (of_Z 2)) (of_Z 0) (of_Z 1) in
    let previousEnd := Date_of (js_sub (getFullYear now) (of_Z 2)) (of_Z 11) (of_Z 31) in
    Return {| current := {| range_start := currentStart; range_end := currentEnd |};
              previous := {| range_start := previousStart; range_end := previousEnd |} |}
  else if String.eqb period "personnalise" then
    match customStart, customEnd with
    | Some customStart, Some customEnd =>
        let currentStart := customStart in
        let currentEnd := customEnd in
        let diffMs := js_sub (getTime currentEnd) (getTime currentStart) in
        let previousEnd := new_Date (js_sub (getTime currentStart) (of_Z 1)) in
        let previousStart := new_Date (js_sub (getTime previousEnd) diffMs) in
        Return {| current := {| range_start := currentStart; range_end := currentEnd |};
                  previous := {| range_start := previousStart; range_end := previousEnd |} |}
    | _, _ => Throw "Dates personnalisées requises"
    end
  else Throw "Période non supportée".

End Calendar.

(** The columns of a mission that the indicators read. *)
Record MissionRow : Type := {
  mission_status : jsstring;
  scheduled_start_date : option jsstring;
  created_at : jsstring;
  plan_de_masse_url : option jsstring
}.

Record DashboardKPIs : Type := {
  total : nat;
  en_cours : nat;
  cloturees : nat;
  sans_plan : nat;
  total_variation : number;
  en_cours_variation : number;
  cloturees_variation : number;
  sans_plan_variation : number
}.

Record StatusTableRow : Type := {
  statut : string;
  count : nat;
  percent : number
}.

(** [['draft', 'assigned', 'in_progress'].includes(m.status)] *)
Definition is_en_cours (m : MissionRow) : bool :=
  bool_decide (mission_status m ∈ [js "draft"; js "assigned"; js "in_progress"]).

(** [m.status === 'completed'] *)
Definition is_cloturee (m : MissionRow) : bool :=
  bool_decide (mission_status m = js "completed").

(** [!m.plan_de_masse_url] *)
Definition is_sans_plan (m : MissionRow) : bool :=
  negb (match plan_de_masse_url m with Some s => truthy_string s | None => false end).

Section Indicators.

(** [new Date(string)], the parser of the browser. *)
Variable Date_parse : jsstring -> Date.

(** [new Date(mission.scheduled_start_date || mission.created_at)] *)
Definition missionDate (mission : MissionRow) : Date :=
  Date_parse
    (match scheduled_start_date mission with
     | Some s => if truthy_string s then s else created_at mission
     | None => created_at mission
     end).

(** [missionDate >= range.start && missionDate <= range.end] *)
Definition in_range (range : DateRange) (mission : MissionRow) : bool :=
  js_ge (missionDate mission) (range_start range)
  && js_le (missionDate mission) (range_end range).

(** The indicators that [getDashboardData] computes from the missions
    it fetched and the two periods. *)
Definition kpis (missions : list MissionRow) (ranges : DateRanges) : DashboardKPIs :=
  let currentMissions := List.filter (in_range (current ranges)) missions in
  let previousMissions := List.filter (in_range (previous ranges)) missions in
  let currentTotal := length currentMissions in
  let currentEnCours := length (List.filter is_en_cours currentMissions) in
  let currentCloturees := length (List.filter is_cloturee currentMissions) in
  let currentSansPlan := length (List.filter is_sans_plan currentMissions) in
  let previousTotal := length previousMissions in
  let previousEnCours := length (List.filter is_en_cours previousMissions) in
  let previousCloturees := length (List.filter is_cloturee previousMissions) in
  let previousSansPlan := length (List.filter is_sans_plan previousMissions) in
  {| total := currentTotal;
     en_cours := currentEnCours;
     cloturees := currentCloturees;
     sans_plan := currentSansPlan;
     total_variation := calculateVariation (of_nat currentTotal) (of_nat previousTotal);
     en_cours_variation :=
       calculateVariation (of_nat currentEnCours) (of_nat previousEnCours);
     cloturees_variation :=
       calculateVariation (of_nat currentCloturees) (of_nat previousCloturees);
     sans_plan_variation :=
       calculateVariation (of_nat currentSansPlan) (of_nat previousSansPlan) |}.

End Indicators.

(** The distribution table computed from [currentEnCours] and
    [currentCloturees]; the percentage is
    [Math.round((count / totalForDistribution) * 100)]. *)
Definition statusTable (currentEnCours currentCloturees : nat) : list StatusTableRow :=
  let totalForDistribution := (currentEnCours + currentCloturees)%nat in
  [ {| statut := "En cours";
       count := currentEnCours;
       percent := if (0 <? totalForDistribution)%nat
                  then percentage currentEnCours totalForDistribution
                  else of_Z 0 |};
    {| statut := "Clôturées";
       count := currentCloturees;
       percent := if (0 <? totalForDistribution)%nat
                  then percentage currentCloturees totalForDistribution
                  else of_Z 0 |} ].

End DashboardService.

(** ** [RoleGuard] ([src/components/RoleGuard.tsx], in
    [src/unnamed/part_004]) *)

Module RoleGuardComponent.
Import Auth.

(** What the component returns. *)
Inductive GuardView : Type :=
| GuardLoading
| GuardNavigateToLogin
| GuardAccessDenied (userRole : Role)
| GuardNavigate (to : string)
| GuardChildren.

(** [fallbackPath] defaults to ['/dashboard'] and [showAccessDenied] to
    [true]. *)
Definition RoleGuard (auth : AuthState) (allowedRoles : list Role)
    (fallbackPath : string) (showAccessDenied : bool) : GuardView :=
  if loading auth then GuardLoading
  else
    match user auth with
    | None => GuardNavigateToLogin
    | Some u =>
        if negb (bool_decide (role u ∈ allowedRoles)) then
          if showAccessDenied then GuardAccessDenied (role u)
          else GuardNavigate fallbackPath
        else GuardChildren
    end.

End RoleGuardComponent.

(** ** The routes of [App] ([src/App.tsx], in [src/lib/supabase.ts]
    from line 37) and the navigation of the side bar
    ([src/components/layout/Sidebar.tsx]) *)

Module AppRoutes.
Import Auth ProtectedRouteComponent RoleGuardComponent.

Inductive Page : Type :=
| LoginPage | SignupPage | DashboardPage | MissionsPage | MissionDetailPage
| AddMissionPage | ExpertManagementPage | ExpertMissionsPage
| ConstateurManagementPage | ProfilePage.

(** The [element] of a route.  [<Layout>], which frames a page with the
    side bar, is left out. *)
Inductive Element : Type :=
| PageElement (page : Page)
| ProtectedRouteElement (children : Element)
| RoleGuardElement (allowedRoles : list Role) (children : Element)
| NavigateElement (to : string).

Definition routes : list (string * Element) :=
  [ ("/login", PageElement LoginPage);
    ("/signup", PageElement SignupPage);
    ("/dashboard", ProtectedRouteElement (PageElement DashboardPage));
    ("/missions", ProtectedRouteElement (PageElement MissionsPage));
    ("/missions/:id", ProtectedRouteElement (PageElement MissionDetailPage));
    ("/add-mission",
     ProtectedRouteElement
       (RoleGuardElement [super_admin; admin; expert] (PageElement AddMissionPage)));
    ("/expert-management",
     ProtectedRouteElement
       (RoleGuardElement [super_admin; admin] (PageElement ExpertManagementPage)));
    ("/expert-missions",
     ProtectedRouteElement
       (RoleGuardElement [super_admin; admin; expert] (PageElement ExpertMissionsPage)));
    ("/constateur-management",
     ProtectedRouteElement
       (RoleGuardElement [super_admin; admin; expert]
          (PageElement ConstateurManagementPage)));
    ("/profile", ProtectedRouteElement (PageElement ProfilePage));
    ("/", NavigateElement "/dashboard") ]%string.

(** What the user gets for an element. *)
Inductive Screen : Type :=
| ShowPage (page : Page)
| FromProtectedRoute (view : View)
| FromRoleGuard (view : GuardView)
| RedirectTo (to : string).

Fixpoint render (auth : AuthState) (element : Element) : Screen :=
  match element with
  | PageElement page => ShowPage page
  | ProtectedRouteElement children =>
      match ProtectedRoute auth None with
      | Children => render auth children
      | view => FromProtectedRoute view
      end
  | RoleGuardElement allowedRoles children =>
      match RoleGuard auth allowedRoles "/dashboard" true with
      | GuardChildren => render auth children
      | view => FromRoleGuard view
      end
  | NavigateElement to => RedirectTo to
  end.

(** The element of the route declared with a given path. *)
Definition route_element (path : string) : option Element :=
  match List.find (fun r => String.eqb (fst r) path) routes with
  | Some r => Some (snd r)
  | None => None
  end.

Record NavigationItem : Type := {
  nav_name : string;
  href : string;
  roles : option (list Role)
}.

Definition navigation : list NavigationItem :=
  [ {| nav_name := "Dashboard"; href := "/dashboard"; roles := None |};
    {| nav_name := "Missions"; href := "/missions"; roles := None |};
    {| nav_name := "Gestion des Experts"; href := "/expert-management";
       roles := Some [super_admin; admin] |};
    {| nav_name := "Mes Constatateurs"; href := "/constateur-management";
       roles := Some [super_admin; admin; expert] |};
    {| nav_name := "Profil"; href := "/profile"; roles := None |} ]%string.

(** [navigation.filter(item =>
       !item.roles || (user && item.roles.includes(user.role)))] *)
Definition filteredNavigation (user : option User) : list NavigationItem :=
  List.filter
    (fun item =>
       match roles item with
       | None => true
       | Some rs =>
           match user with
           | Some u => bool_decide (role u ∈ rs)
           | None => false
           end
       end)
    navigation.

End AppRoutes.

(** ** [Tabs] ([src/components/ui/Tabs.tsx], in
    [src/components/ui/ProgressBar.tsx] from line 36) *)

Module TabsComponent.

(** [badge?: string | number] *)
Inductive Badge : Type :=
| BadgeString (s : jsstring)
| BadgeNumber (n : number).

Record Tab (Content : Type) : Type := {
  tab_id : jsstring;
  label : jsstring;
  content : Content;
  badge : option Badge
}.

Arguments tab_id {Content} _.
Arguments label {Content} _.
Arguments content {Content} _.
Arguments badge {Content} _.

(** The state [activeTab]: a tab identifier, or [undefined] ([None]). *)
Definition ActiveTab : Type := option jsstring.

(** [useState(defaultTab || tabs[0]?.id)] *)
Definition initialActiveTab {Content : Type}
    (tabs : list (Tab Content)) (defaultTab : option jsstring) : ActiveTab :=
  match defaultTab with
  | Some d => if truthy_string d then Some d else head (map tab_id tabs)
  | None => head (map tab_id tabs)
  end.

(** [handleTabChange]: the new state; [onTabChange], when given, is
    called with the same identifier. *)
Definition handleTabChange (tabId : jsstring) : ActiveTab := Some tabId.

Definition shouldShowBadge (b : option Badge) : bool :=
  match b with
  | None => false
  | Some (BadgeNumber n) => js_gt n (of_Z 0)
  | Some (BadgeString s) =>
      negb (bool_decide (s = js "0")) && negb (bool_decide (s = js ""))
  end.

Record TabHeader : Type := {
  header_label : jsstring;
  isActive : bool;
  showBadge : bool
}.

Record TabsView (Content : Type) : Type := {
  headers : list TabHeader;
  activeTabContent : option Content
}.

Arguments headers {Content} _.
Arguments activeTabContent {Content} _.

(** What [Tabs] renders in the state [activeTab]. *)
Definition Tabs {Content : Type} (tabs : list (Tab Content)) (activeTab : ActiveTab)
    : TabsView Content :=
  {| headers :=
       map (fun tab =>
              {| header_label := label tab;
                 isActive := bool_decide (activeTab = Some (tab_id tab));
                 showBadge := shouldShowBadge (badge tab) |})
           tabs;
     activeTabContent :=
       match List.find (fun tab => bool_decide (Some (tab_id tab) = activeTab)) tabs with
       | Some tab => Some (content tab)
       | None => None
       end |}.

End TabsComponent.

(** ** Permission tests of the pages ([src/pages/MissionsPage.tsx],
    [src/pages/AddMissionPage.tsx] and [src/pages/MissionDetailPage.tsx],
    the latter in [src/unnamed/part_002]) *)

Module MissionPages.
Import Auth RLS.

(** The values that the pages test: the hook returns its capabilities
    as functions, and a function object is truthy. *)
Inductive value : Type :=
| Function (call : unit -> bool)
| Boolean (b : bool).

Definition truthy (v : value) : bool :=
  match v with
  | Function _ => true
  | Boolean b => b
  end.

(** [const { canManageMissions, isConstateur } = useRolePermissions()] *)
Record Permissions : Type := {
  canManageMissions : value;
  isConstateur : value
}.

Definition useRolePermissions (user : option User) : Permissions :=
  {| canManageMissions := Function (fun _ => RolePermissions.canManageMissions user);
     isConstateur := Function (fun _ => RolePermissions.isConstateur user) |}.

(** [MissionsPage]: [{canManageMissions && (<Button ...>Nouvelle
    mission</Button>)}]; the button navigates to ['/add-mission']. *)
Definition showsNewMissionButton (user : option User) : bool :=
  truthy (canManageMissions (useRolePermissions user)).

(** [AddMissionPage]: [if (!canManageMissions) return null], and the
    effect that navigates to ['/missions'] under the same test. *)
Definition rendersMissionForm (user : option User) : bool :=
  if negb (truthy (canManageMissions (useRolePermissions user))) then false else true.

Section MissionDetailPage.
Variable user : option User.
(** The mission on the page, with the columns of its row. *)
Variable mission : RLS.mission.

(** [mission?.assigned_to === user?.id] *)
Definition assigned_to_user : bool :=
  match user with
  | Some u => bool_decide (assigned_to mission = Some (Auth.id u))
  | None => false
  end.

Definition canUpdateStatus : value :=
  if truthy (isConstateur (useRolePermissions user))
  then Boolean assigned_to_user
  else canManageMissions (useRolePermissions user).

Definition canEditMission : value := canManageMissions (useRolePermissions user).

Definition canDeleteMission : bool :=
  match user with
  | Some u =>
      if bool_decide (role u = super_admin) || bool_decide (role u = admin) then true
      else if bool_decide (role u = expert)
              && bool_decide (mission_created_by mission = Auth.id u) then true
      else false
  | None => false
  end.

(** [{canUpdateStatus() && mission.status !== 'completed' &&
      mission.status !== 'cancelled' && (...)}] *)
Definition showsStatusButtons : bool :=
  truthy canUpdateStatus
  && negb (bool_decide (status mission = Some completed))
  && negb (bool_decide (status mission = Some cancelled)).

(** [{canEditMission() && (<Button ...>Modifier</Button>)}]; the button
    navigates to ['/expert-missions?edit=...']. *)
Definition showsEditButton : bool := truthy canEditMission.

(** [{canDeleteMission() && (<Button ...>Supprimer</Button>)}] *)
Definition showsDeleteButton : bool := canDeleteMission.

End MissionDetailPage.

End MissionPages.

(** ** Data of the report ([generateMissionReportPdfBlob] in
    [src/utils/pdfGenerator.ts], lines 318-328) *)

Module ReportData.
Import Progress DashboardService.

(** The property names that every object inherits from
    [Object.prototype]. *)
Definition Object_prototype_names : list jsstring :=
  map js
    [ "constructor"; "hasOwnProperty"; "isPrototypeOf"; "propertyIsEnumerable";
      "toLocaleString"; "toString"; "valueOf"; "__proto__"; "__defineGetter__";
      "__defineSetter__"; "__lookupGetter__"; "__lookupSetter__" ]%string.

(** What reading a property of [materialsByBuilding] gives. *)
Inductive PropertyValue : Type :=
| Undefined
| ArrayValue (group : list Material)
| InheritedMember (name : jsstring).

(** [materialsByBuilding[key]].  The object literal [{}] holds the
    groups as own properties; a name that is not an own property is
    looked up in [Object.prototype], whose members are functions (and,
    for [__proto__], the prototype itself). *)
Definition get (materialsByBuilding : gmap jsstring (list Material)) (key : jsstring)
    : PropertyValue :=
  match materialsByBuilding !! key with
  | Some group => ArrayValue group
  | None =>
      if bool_decide (key ∈ Object_prototype_names) then InheritedMember key
      else Undefined
  end.

(** The body of [materials.forEach(material => ...)].  An inherited
    member is truthy, so no array is stored for its name, and it has no
    [push]: the call throws a [TypeError]. *)
Definition group_material
    (acc : outcome (gmap jsstring (list Material))) (material : Material)
    : outcome (gmap jsstring (list Material)) :=
  match acc with
  | Throw message => Throw message
  | Return materialsByBuilding =>
      if truthy_string (building_id material) then
        match get materialsByBuilding (building_id material) with
        | ArrayValue group =>
            Return (<[building_id material := group ++ [material]]> materialsByBuilding)
        | Undefined =>
            Return (<[building_id material := [] ++ [material]]> materialsByBuilding)
        | InheritedMember _ => Throw "TypeError"
        end
      else Return materialsByBuilding
  end.

Definition materialsByBuilding (materials : list Material)
    : outcome (gmap jsstring (list Material)) :=
  fold_left group_material materials (Return ∅).

(** The materials of one building, in the order of the list. *)
Definition materials_of (key : jsstring) (materials : list Material) : list Material :=
  List.filter (fun material => bool_decide (building_id material = key)) materials.

End ReportData.


(** ** The form that writes buildings ([components/missions/AddBuildingForm],
    in [src/components/missions/MissionMaterialsTab.tsx] from line 394) *)

Module BuildingForm.
Import Progress.

(** [BuildingFormData.technical_elements]: the options ticked for each
    of the twelve elements of the form (there is no [chassis] entry). *)
Record TechnicalElementsForm : Type := {
  te_semelles : list jsstring;
  te_elevations : list jsstring;
  te_ossature : list jsstring;
  te_portes : list jsstring;
  te_fenetres : list jsstring;
  te_grillage : list jsstring;
  te_facade : list jsstring;
  te_toiture : list jsstring;
  te_sol : list jsstring;
  te_plafond : list jsstring;
  te_escalier : list jsstring;
  te_cloisonnement : list jsstring
}.

(** [BuildingFormData]: the state of the form; the numeric fields hold
    the text of their inputs. *)
Record BuildingFormData : Type := {
  form_designation : jsstring;
  form_basement_area_sqm : jsstring;
  form_ground_floor_area_sqm : jsstring;
  form_first_floor_area_sqm : jsstring;
  form_new_value_mad : jsstring;
  form_obsolescence_percentage : jsstring;
  form_contiguity : jsstring;
  form_communication : jsstring;
  form_technical_elements : TechnicalElementsForm;
  form_miscellaneous_elements : list jsstring
}.

(** [x || 0] on a number: [NaN] and 0 are falsy. *)
Definition or_zero (x : number) : number :=
  if is_nan x || js_eq x (of_Z 0) then of_Z 0 else x.

Definition string_array (items : list jsstring) : json := JArr (map JStr items).

(** [formData.technical_elements] as the JSON object that is stored. *)
Definition technical_elements_json (te : TechnicalElementsForm) : gmap string json :=
  list_to_map
    [ ("semelles", string_array (te_semelles te));
      ("elevations", string_array (te_elevations te));
      ("ossature", string_array (te_ossature te));
      ("portes", string_array (te_portes te));
      ("fenetres", string_array (te_fenetres te));
      ("grillage", string_array (te_grillage te));
      ("facade", string_array (te_facade te));
      ("toiture", string_array (te_toiture te));
      ("sol", string_array (te_sol te));
      ("plafond", string_array (te_plafond te));
      ("escalier", string_array (te_escalier te));
      ("cloisonnement", string_array (te_cloisonnement te)) ]%string.

Section Submit.

(** The global [parseFloat]. *)
Variable parseFloat : jsstring -> number.

(** [buildingData] of [handleSubmit]: the fields of the row that the
    form inserts or updates, as far as the calculators read them. *)
Definition buildingData (formData : BuildingFormData) : Building :=
  {| designation := form_designation formData;
     basement_area_sqm := val (or_zero (parseFloat (form_basement_area_sqm formData)));
     ground_floor_area_sqm := val (or_zero (parseFloat (form_ground_floor_area_sqm formData)));
     first_floor_area_sqm := val (or_zero (parseFloat (form_first_floor_area_sqm formData)));
     technical_elements := val (technical_elements_json (form_technical_elements formData));
     miscellaneous_elements := val (string_array (form_miscellaneous_elements formData));
     new_value_mad :=
       if truthy_string (form_new_value_mad formData)
       then val (parseFloat (form_new_value_mad formData))
       else null;
     obsolescence_percentage :=
       val (or_zero (parseFloat (form_obsolescence_percentage formData)));
     contiguity := val (form_contiguity formData);
     communication := val (form_communication formData) |}.

End Submit.

End BuildingForm.

(** ** The percentage that the progress calculators are meant to give *)

Module ProgressSpec.
Import Progress.

(** [round(100 * filled / total)] on exact values, halves rounded up as
    [Math.round] does. *)
Definition rounded_percentage (filled total : nat) : Z :=
  Qfloor (100 * inject_Z (Z.of_nat filled) / inject_Z (Z.of_nat total) + (1 # 2))%Q.

(** [100 * filled / total] lies exactly half-way between two integers. *)
Definition is_half (filled total : Z) : bool :=
  ((200 * filled + total) mod (2 * total) =? 0)%Z.

(** For a building with [fixed] of the 21 fixed fields filled and [misc]
    miscellaneous entries: where the exact percentage is a half, the
    value computed by the source is the rounded percentage. *)
Definition half_rounded_up (fixed misc : Z) : bool :=
  let filled := (fixed + misc)%Z in
  let total := (21 + misc)%Z in
  if is_half filled total
  then same_number (percentage (Z.to_nat filled) (Z.to_nat total))
         (of_Z ((200 * filled + total) / (2 * total)))
  else true.

End ProgressSpec.

(** ** Sample data used by the examples of Part II *)

Module Samples.
Import Progress.

(** A building with 19 miscellaneous entries and four of the 21 fixed
    fields filled: 23 fields out of 40. *)
Definition building_23_of_40 : Building :=
  {| designation := js "Entrepot";
     basement_area_sqm := null;
     ground_floor_area_sqm := val (of_Z 1200);
     first_floor_area_sqm := null;
     technical_elements := val ∅;
     miscellaneous_elements := val (JArr (repeat (JStr (js "rayonnage")) 19));
     new_value_mad := null;
     obsolescence_percentage := null;
     contiguity := val (js "neant");
     communication := val (js "neant") |}.

(** The same four fields and no miscellaneous entry: 4 out of 21. *)
Definition building_4_of_21 : Building :=
  {| designation := js "Atelier";
     basement_area_sqm := null;
     ground_floor_area_sqm := val (of_Z 300);
     first_floor_area_sqm := null;
     technical_elements := undefined;
     miscellaneous_elements := val (JArr []);
     new_value_mad := null;
     obsolescence_percentage := null;
     contiguity := val (js "neant");
     communication := val (js "neant") |}.

(** Every one of the 21 fixed fields filled. *)
Definition building_complete : Building :=
  {| designation := js "Bureaux";
     basement_area_sqm := val (of_Z 0);
     ground_floor_area_sqm := val (of_Z 450);
     first_floor_area_sqm := val (of_Z 450);
     technical_elements :=
       val (list_to_map
              (map (fun key => (key, JArr [JStr (js "beton")])) technicalElementKeys));
     miscellaneous_elements := val (JArr []);
     new_value_mad := val (of_Z 2500000);
     obsolescence_percentage := val (of_Z 10);
     contiguity := val (js "neant");
     communication := val (js "neant") |}.

(** Two states of [AddBuildingForm] at submission: the defaults of the
    form, a designation, and options ticked for four (respectively five)
    technical elements; nothing else is filled in. *)
Definition form_11_of_21 : BuildingForm.BuildingFormData :=
  {| BuildingForm.form_designation := js "Atelier";
     BuildingForm.form_basement_area_sqm := js "0";
     BuildingForm.form_ground_floor_area_sqm := js "0";
     BuildingForm.form_first_floor_area_sqm := js "0";
     BuildingForm.form_new_value_mad := [];
     BuildingForm.form_obsolescence_percentage := js "0";
     BuildingForm.form_contiguity := js "neant";
     BuildingForm.form_communication := js "neant";
     BuildingForm.form_technical_elements :=
       {| BuildingForm.te_semelles := [js "moellons"];
          BuildingForm.te_elevations := [];
          BuildingForm.te_ossature := [js "bois"];
          BuildingForm.te_portes := [js "Bois"];
          BuildingForm.te_fenetres := [js "Bois"];
          BuildingForm.te_grillage := [];
          BuildingForm.te_facade := [];
          BuildingForm.te_toiture := [];
          BuildingForm.te_sol := [];
          BuildingForm.te_plafond := [];
          BuildingForm.te_escalier := [];
          BuildingForm.te_cloisonnement := [] |};
     BuildingForm.form_miscellaneous_elements := [] |}.

Definition form_12_of_21 : BuildingForm.BuildingFormData :=
  {| BuildingForm.form_designation := js "Bureaux";
     BuildingForm.form_basement_area_sqm := js "0";
     BuildingForm.form_ground_floor_area_sqm := js "0";
     BuildingForm.form_first_floor_area_sqm := js "0";
     BuildingForm.form_new_value_mad := [];
     BuildingForm.form_obsolescence_percentage := js "0";
     BuildingForm.form_contiguity := js "neant";
     BuildingForm.form_communication := js "oui";
     BuildingForm.form_technical_elements :=
       {| BuildingForm.te_semelles := [js "moellons"];
          BuildingForm.te_elevations := [];
          BuildingForm.te_ossature := [js "bois"];
          BuildingForm.te_portes := [js "Bois"];
          BuildingForm.te_fenetres := [js "Bois"];
          BuildingForm.te_grillage := [];
          BuildingForm.te_facade := [];
          BuildingForm.te_toiture := [js "Zinc"];
          BuildingForm.te_sol := [];
          BuildingForm.te_plafond := [];
          BuildingForm.te_escalier := [];
          BuildingForm.te_cloisonnement := [] |};
     BuildingForm.form_miscellaneous_elements := [] |}.


(** A constateur (user 1) assigned to mission 10, created by user 2,
    which holds building 100, created by user 2. *)
Definition db_assigned : RLS.database :=
  {| RLS.profiles :=
       {[ 1%N := {| RLS.profile_role := Some "constateur"%string;
                    RLS.profile_is_active := Some true |} ]};
     RLS.missions :=
       {[ 10%N := {| RLS.assigned_to := Some 1%N;
                     RLS.mission_created_by := 2%N;
                     RLS.status := Some RLS.in_progress |} ]};
     RLS.mission_buildings :=
       [ {| RLS.mission_id := 10%N; RLS.building_id := 100%N |} ] |}.

Definition building_of_other : RLS.building :=
  {| RLS.id := 100%N; RLS.created_by := Some 2%N |}.

(** A constateur (user 1) who created building 100, which belongs to
    the completed mission 10 and to the mission 11 in progress, both
    assigned to them. *)
Definition db_two_missions : RLS.database :=
  {| RLS.profiles :=
       {[ 1%N := {| RLS.profile_role := Some "constateur"%string;
                    RLS.profile_is_active := Some true |} ]};
     RLS.missions :=
       {[ 10%N := {| RLS.assigned_to := Some 1%N;
                     RLS.mission_created_by := 2%N;
                     RLS.status := Some RLS.completed |};
          11%N := {| RLS.assigned_to := Some 1%N;
                     RLS.mission_created_by := 2%N;
                     RLS.status := Some RLS.in_progress |} ]};
     RLS.mission_buildings :=
       [ {| RLS.mission_id := 10%N; RLS.building_id := 100%N |};
         {| RLS.mission_id := 11%N; RLS.building_id := 100%N |} ] |}.

Definition building_own : RLS.building :=
  {| RLS.id := 100%N; RLS.created_by := Some 1%N |}.

Definition some_user : Auth.User :=
  {| Auth.id := 1%N; Auth.role := Auth.constateur; Auth.is_active := true |}.

End Samples.

(* ===================================================================== *)
(** * Part II: lemmas and theorems                                        *)
(* ===================================================================== *)

(** ** Rounding to binary64

    [fl] is monotone, leaves binary64 values unchanged, and agrees with
    the reference implementation [SpecFloat] of the Standard Library and
    with the primitive floats of the kernel on the values met below. *)

Section FloatingPoint.
Local Open Scope Q_scope.

Lemma Qrne_cases q :
  Qrne q = Qfloor q \/ Qrne q = (Qfloor q + 1)%Z.
Proof.
  unfold Qrne. destruct (Qcompare _ _); [destruct (Z.even _)|..]; auto.
Qed.

Lemma Qrne_comp a b : a == b -> Qrne a = Qrne b.
Proof.
  intros H. unfold Qrne.
  rewrite (Qfloor_comp _ _ H).
  assert (E : a - inject_Z (Qfloor b) == b - inject_Z (Qfloor b)) by (rewrite H; reflexivity).
  rewrite (Qcompare_comp _ _ E _ _ (Qeq_refl _)). reflexivity.
Qed.

Lemma Qrne_inject_Z z : Qrne (inject_Z z) = z.
Proof.
  unfold Qrne. rewrite Qfloor_Z.
  destruct (Qcompare_spec (inject_Z z - inject_Z z) (1 # 2)) as [E|E|E];
    [exfalso; lra | reflexivity | exfalso; lra].
Qed.

Lemma Qfloor_frac q : inject_Z (Qfloor q) <= q < inject_Z (Qfloor q) + 1.
Proof.
  split; [apply Qfloor_le|].
  pose proof (Qlt_floor q) as H. rewrite inject_Z_plus in H. exact H.
Qed.

Lemma Qrne_le_compat a b : a <= b -> (Qrne a <= Qrne b)%Z.
Proof.
  intros Hab.
  pose proof (Qfloor_resp_le _ _ Hab) as Hf.
  destruct (Z.eq_dec (Qfloor a) (Qfloor b)) as [E|NE].
  - unfold Qrne. rewrite <- E.
    destruct (Qcompare_spec (a - inject_Z (Qfloor a)) (1 # 2)) as [Ha|Ha|Ha];
    destruct (Qcompare_spec (b - inject_Z (Qfloor a)) (1 # 2)) as [Hb|Hb|Hb];
    try destruct (Z.even (Qfloor a)); try lia; exfalso; lra.
  - destruct (Qrne_cases a) as [-> | ->], (Qrne_cases b) as [-> | ->]; lia.
Qed.

Lemma Qrne_le_Z q z : q <= inject_Z z -> (Qrne q <= z)%Z.
Proof. intros H. rewrite <- (Qrne_inject_Z z). now apply Qrne_le_compat. Qed.

Lemma Qrne_ge_Z q z : inject_Z z <= q -> (z <= Qrne q)%Z.
Proof. intros H. rewrite <- (Qrne_inject_Z z). now apply Qrne_le_compat. Qed.


Lemma pow2_pos e : 0 < 2 ^ e.
Proof. apply Qpower_0_lt. reflexivity. Qed.

Lemma pow2_add a b : 2 ^ (a + b) == 2 ^ a * 2 ^ b.
Proof. apply Qpower_plus. discriminate. Qed.

Lemma pow2_sub a b : 2 ^ (a - b) == 2 ^ a / 2 ^ b.
Proof. apply Qpower_minus. discriminate. Qed.

Lemma pow2_le a b : (a <= b)%Z -> 2 ^ a <= 2 ^ b.
Proof. intros H. apply Qpower_le_compat_l; [exact H | discriminate]. Qed.

Lemma pow2_lt a b : (a < b)%Z -> 2 ^ a < 2 ^ b.
Proof. intros H. apply Qpower_lt_compat_l; [exact H | reflexivity]. Qed.

Lemma pow2_lt_inv a b : 2 ^ a < 2 ^ b -> (a < b)%Z.
Proof. intros H. eapply Qpower_lt_compat_l_inv; [exact H | reflexivity]. Qed.

Lemma pow2_Z n : (0 <= n)%Z -> inject_Z (2 ^ n) == 2 ^ n.
Proof. intros H. apply (Zpower_Qpower 2 n H). Qed.

Lemma Qdiv_lt_cross n d A B :
  0 < d -> 0 < B -> n * B < A * d -> n / d < A / B.
Proof.
  intros Hd HB H.
  apply Qlt_shift_div_l; [exact HB|].
  assert (E : n / d * B == n * B / d) by (field; lra).
  rewrite E. apply Qlt_shift_div_r; [exact Hd | exact H].
Qed.

Lemma Qlog2_spec q : 0 < q -> 2 ^ Qlog2 q <= q < 2 ^ (Qlog2 q + 1).
Proof.
  intros Hq. destruct q as [n d].
  assert (Hn : (0 < n)%Z).
  { unfold Qlt in Hq. simpl in Hq. lia. }
  pose proof (Z.log2_spec n Hn) as [Ha1 Ha2].
  pose proof (Z.log2_spec (Zpos d) (Pos2Z.is_pos d)) as [Hb1 Hb2].
  pose proof (Z.log2_nonneg n) as Ha0.
  pose proof (Z.log2_nonneg (Zpos d)) as Hb0.
  unfold Qlog2. cbn [Qnum Qden].
  set (a := Z.log2 n) in *. set (b := Z.log2 (Zpos d)) in *.
  assert (Hup : n # d < 2 ^ (a - b + 1)).
  { replace (a - b + 1)%Z with (Z.succ a - b)%Z by lia.
    rewrite pow2_sub, (Qmake_Qdiv n d), <- !pow2_Z by lia.
    apply Qdiv_lt_cross.
    - change 0 with (inject_Z 0). rewrite <- Zlt_Qlt. lia.
    - change 0 with (inject_Z 0). rewrite <- Zlt_Qlt. lia.
    - rewrite <- !inject_Z_mult, <- Zlt_Qlt. nia. }
  assert (Hlow : 2 ^ (a - b - 1) < n # d).
  { replace (a - b - 1)%Z with (a - Z.succ b)%Z by lia.
    rewrite pow2_sub, (Qmake_Qdiv n d), <- !pow2_Z by lia.
    apply Qdiv_lt_cross.
    - change 0 with (inject_Z 0). rewrite <- Zlt_Qlt. lia.
    - change 0 with (inject_Z 0). rewrite <- Zlt_Qlt. lia.
    - rewrite <- !inject_Z_mult, <- Zlt_Qlt. nia. }
  destruct (Qle_bool (2 ^ (a - b)) (n # d)) eqn:E.
  - apply Qle_bool_iff in E. split; assumption.
  - assert (H : n # d < 2 ^ (a - b)).
    { apply Qnot_le_lt. intros H. apply Qle_bool_iff in H. congruence. }
    split.
    + apply Qlt_le_weak. exact Hlow.
    + replace (a - b - 1 + 1)%Z with (a - b)%Z by lia. exact H.
Qed.

Lemma Qlog2_unique q k : 2 ^ k <= q < 2 ^ (k + 1) -> Qlog2 q = k.
Proof.
  intros [H1 H2].
  assert (Hq : 0 < q) by (pose proof (pow2_pos k); lra).
  destruct (Qlog2_spec q Hq) as [H3 H4].
  assert ((Qlog2 q < k + 1)%Z) by (apply pow2_lt_inv; lra).
  assert ((k < Qlog2 q + 1)%Z) by (apply pow2_lt_inv; lra).
  lia.
Qed.

Lemma Qlog2_le_compat a b : 0 < a -> a <= b -> (Qlog2 a <= Qlog2 b)%Z.
Proof.
  intros Ha Hab.
  destruct (Qlog2_spec a Ha) as [H1 _].
  destruct (Qlog2_spec b ltac:(lra)) as [_ H2].
  assert ((Qlog2 a < Qlog2 b + 1)%Z) by (apply pow2_lt_inv; lra).
  lia.
Qed.


Lemma Qred_inject_Z z : Qred (inject_Z z) = inject_Z z.
Proof.
  unfold Qred, inject_Z.
  pose proof (Z.ggcd_gcd z 1) as Hg.
  pose proof (Z.ggcd_correct_divisors z 1) as Hd.
  destruct (Z.ggcd z 1) as [g [a b]]. cbn [fst snd] in *.
  rewrite Z.gcd_1_r in Hg. subst g. destruct Hd as [Hz Hb].
  rewrite Z.mul_1_l in Hz, Hb. subst a b. reflexivity.
Qed.

Lemma ulp_exp_le_compat a b : 0 < a -> a <= b -> (ulp_exp a <= ulp_exp b)%Z.
Proof.
  intros Ha Hab. unfold ulp_exp.
  pose proof (Qlog2_le_compat a b Ha Hab). lia.
Qed.

Lemma Qdiv_pow2_le a b e : a <= b -> a / 2 ^ e <= b / 2 ^ e.
Proof.
  intros H. unfold Qdiv. apply Qmult_le_compat_r; [exact H|].
  apply Qlt_le_weak, Qinv_lt_0_compat, pow2_pos.
Qed.

(** The scaled value lies below 2^53 ... *)
Lemma scaled_lt q : 0 < q -> q / 2 ^ ulp_exp q < 2 ^ 53.
Proof.
  intros Hq. destruct (Qlog2_spec q Hq) as [_ H].
  apply Qlt_shift_div_r; [apply pow2_pos|].
  rewrite <- pow2_add.
  eapply Qlt_le_trans; [exact H|]. apply pow2_le. unfold ulp_exp. lia.
Qed.

(** ... and, away from the subnormal range, not below 2^52. *)
Lemma scaled_ge q : 0 < q -> ulp_exp q = (Qlog2 q - 52)%Z -> 2 ^ 52 <= q / 2 ^ ulp_exp q.
Proof.
  intros Hq E. destruct (Qlog2_spec q Hq) as [H _].
  apply Qle_shift_div_l; [apply pow2_pos|].
  rewrite <- pow2_add, E.
  replace (52 + (Qlog2 q - 52))%Z with (Qlog2 q) by lia. exact H.
Qed.

Lemma round_val_le_compat a b : 0 < a -> a <= b -> round_val a <= round_val b.
Proof.
  intros Ha Hab. assert (Hb : 0 < b) by lra.
  pose proof (ulp_exp_le_compat a b Ha Hab) as He.
  unfold round_val. cbv zeta.
  destruct (Z.eq_dec (ulp_exp a) (ulp_exp b)) as [E|NE].
  - rewrite E. apply Qmult_le_compat_r; [|apply Qlt_le_weak, pow2_pos].
    rewrite <- Zle_Qle. apply Qrne_le_compat, Qdiv_pow2_le, Hab.
  - assert (En : ulp_exp b = (Qlog2 b - 52)%Z) by (unfold ulp_exp in *; lia).
    pose proof (scaled_ge b Hb En) as Hlo.
    pose proof (scaled_lt a Ha) as Hhi.
    assert (H1 : (Qrne (a / 2 ^ ulp_exp a) <= 2 ^ 53)%Z).
    { apply Qrne_le_Z. rewrite pow2_Z by lia. lra. }
    assert (H2 : (2 ^ 52 <= Qrne (b / 2 ^ ulp_exp b))%Z).
    { apply Qrne_ge_Z. rewrite pow2_Z by lia. exact Hlo. }
    rewrite Zle_Qle in H1, H2. rewrite pow2_Z in H1, H2 by lia.
    apply Qle_trans with (2 ^ 53 * 2 ^ ulp_exp a).
    { apply Qmult_le_compat_r; [exact H1 | apply Qlt_le_weak, pow2_pos]. }
    apply Qle_trans with (2 ^ 52 * 2 ^ ulp_exp b).
    { rewrite <- !pow2_add. apply pow2_le. lia. }
    apply Qmult_le_compat_r; [exact H2 | apply Qlt_le_weak, pow2_pos].
Qed.

Lemma round_val_nonneg q : 0 < q -> 0 <= round_val q.
Proof.
  intros Hq. unfold round_val. cbv zeta.
  apply Qmult_le_0_compat; [|apply Qlt_le_weak, pow2_pos].
  change 0 with (inject_Z 0). rewrite <- Zle_Qle. apply Qrne_ge_Z.
  apply Qle_shift_div_l; [apply pow2_pos|]. change (inject_Z 0) with 0. lra.
Qed.


Lemma Qlog2_comp a b : 0 < a -> a == b -> Qlog2 a = Qlog2 b.
Proof.
  intros Ha E. symmetry. apply Qlog2_unique.
  destruct (Qlog2_spec a Ha). split; lra.
Qed.

Lemma round_val_comp a b : 0 < a -> a == b -> round_val a == round_val b.
Proof.
  intros Ha E. unfold round_val, ulp_exp. cbv zeta.
  rewrite <- (Qlog2_comp a b Ha E).
  rewrite (Qrne_comp (a / _) (b / 2 ^ Z.max (Qlog2 a - 52) (-1074))); [reflexivity|].
  unfold Qdiv. apply Qmult_comp; [exact E | reflexivity].
Qed.

Lemma Qle_bool_comp a b c d : a == b -> c == d -> Qle_bool a c = Qle_bool b d.
Proof.
  intros E1 E2. apply eq_true_iff_eq. rewrite !Qle_bool_iff, E1, E2. reflexivity.
Qed.

Lemma fl_pos_comp a b : 0 < a -> a == b -> fl_pos a = fl_pos b.
Proof.
  intros Ha E. unfold fl_pos. cbv zeta.
  pose proof (round_val_comp a b Ha E) as Er.
  rewrite (Qle_bool_comp _ _ _ _ (Qeq_refl (2 ^ 1024)) Er).
  rewrite (Qred_complete _ _ Er). reflexivity.
Qed.

Lemma fl_comp a b : a == b -> fl a = fl b.
Proof.
  intros E. unfold fl.
  rewrite (Qcompare_comp _ _ E _ _ (Qeq_refl 0)).
  destruct (Qcompare_spec b 0) as [H|H|H]; [reflexivity | |].
  - f_equal. apply fl_pos_comp; [lra | rewrite E; reflexivity].
  - apply fl_pos_comp; [lra | exact E].
Qed.

(** Values with at most 53 significant bits are not changed by rounding. *)
Lemma round_val_exact m e :
  (0 < m < 2 ^ 53)%Z -> (-1074 <= e)%Z ->
  round_val (inject_Z m * 2 ^ e) == inject_Z m * 2 ^ e.
Proof.
  intros Hm He.
  set (q := inject_Z m * 2 ^ e).
  assert (Hm0 : 0 < inject_Z m) by (change 0 with (inject_Z 0); rewrite <- Zlt_Qlt; lia).
  assert (Hq : 0 < q) by (apply Qmult_lt_0_compat; [exact Hm0 | apply pow2_pos]).
  destruct (Qlog2_spec q Hq) as [HL _].
  assert (Hlt : q < 2 ^ (53 + e)).
  { rewrite pow2_add. unfold q. apply Qmult_lt_compat_r; [apply pow2_pos|].
    rewrite <- pow2_Z by lia. rewrite <- Zlt_Qlt. lia. }
  assert (HLe : (Qlog2 q < 53 + e)%Z).
  { apply pow2_lt_inv. eapply Qle_lt_trans; [exact HL | exact Hlt]. }
  assert (Hu : (ulp_exp q <= e)%Z) by (unfold ulp_exp; lia).
  unfold round_val. cbv zeta.
  set (u := ulp_exp q) in *.
  assert (Hpu : ~ 2 ^ u == 0) by (pose proof (pow2_pos u); lra).
  assert (Es : q / 2 ^ u == inject_Z (m * 2 ^ (e - u))).
  { rewrite inject_Z_mult, pow2_Z, pow2_sub by lia. unfold q.
    field. exact Hpu. }
  rewrite (Qrne_comp _ _ Es), Qrne_inject_Z.
  rewrite inject_Z_mult, pow2_Z, pow2_sub by lia. unfold q.
  field. exact Hpu.
Qed.

Lemma fl_pos_exact m e :
  (0 < m < 2 ^ 53)%Z -> (-1074 <= e)%Z -> inject_Z m * 2 ^ e < 2 ^ 1024 ->
  fl_pos (inject_Z m * 2 ^ e) = Fin (Qred (inject_Z m * 2 ^ e)).
Proof.
  intros Hm He Hlt. unfold fl_pos. cbv zeta.
  pose proof (round_val_exact m e Hm He) as E.
  destruct (Qle_bool (2 ^ 1024) (round_val (inject_Z m * 2 ^ e))) eqn:Hb.
  - apply Qle_bool_iff in Hb. rewrite E in Hb. lra.
  - rewrite (Qred_complete _ _ E). reflexivity.
Qed.

(** Integers up to 2^53 in magnitude are binary64 values. *)
Lemma fl_pos_inject_Z z : (0 < z <= 2 ^ 53)%Z -> fl_pos (inject_Z z) = Fin (inject_Z z).
Proof.
  intros Hz.
  assert (Hz0 : 0 < inject_Z z) by (change 0 with (inject_Z 0); rewrite <- Zlt_Qlt; lia).
  destruct (Z.eq_dec z (2 ^ 53)%Z) as [->|NE].
  - rewrite (fl_pos_comp _ (inject_Z 1 * 2 ^ 53)); [|exact Hz0 | reflexivity].
    rewrite fl_pos_exact; [reflexivity | lia | lia | reflexivity].
  - rewrite (fl_pos_comp _ (inject_Z z * 2 ^ 0)); [|exact Hz0 | ring].
    rewrite fl_pos_exact; [| lia | lia |].
    + rewrite <- (Qred_inject_Z z) at 2. f_equal. apply Qred_complete. ring.
    + change (2 ^ 0) with 1. rewrite Qmult_1_r.
      apply Qle_lt_trans with (inject_Z (2 ^ 53)); [rewrite <- Zle_Qle; lia | reflexivity].
Qed.

Lemma fl_inject_Z z : (Z.abs z <= 2 ^ 53)%Z -> fl (inject_Z z) = Fin (inject_Z z).
Proof.
  intros Hz. unfold fl.
  destruct (Qcompare_spec (inject_Z z) 0) as [H|H|H].
  - assert (z = 0%Z) as -> by (unfold Qeq in H; simpl in H; lia). reflexivity.
  - change 0 with (inject_Z 0) in H. rewrite <- Zlt_Qlt in H.
    rewrite <- inject_Z_opp, fl_pos_inject_Z by lia.
    cbn [js_neg]. rewrite <- inject_Z_opp, Z.opp_involutive. f_equal. apply Qred_inject_Z.
  - change 0 with (inject_Z 0) in H. rewrite <- Zlt_Qlt in H.
    apply fl_pos_inject_Z. lia.
Qed.


Lemma fl_pos_le_compat a b : 0 < a -> a <= b -> js_le (fl_pos a) (fl_pos b) = true.
Proof.
  intros Ha Hab. pose proof (round_val_le_compat a b Ha Hab) as Hr.
  unfold fl_pos. cbv zeta.
  destruct (Qle_bool (2 ^ 1024) (round_val a)) eqn:Oa;
  destruct (Qle_bool (2 ^ 1024) (round_val b)) eqn:Ob; cbn [js_le]; try reflexivity.
  - apply Qle_bool_iff in Oa.
    assert (H : Qle_bool (2 ^ 1024) (round_val b) = true) by (apply Qle_bool_iff; lra).
    congruence.
  - apply Qle_bool_iff, Qred_le, Hr.
Qed.

Lemma fl_pos_nonneg q : 0 < q -> js_le (Fin 0) (fl_pos q) = true.
Proof.
  intros Hq. pose proof (round_val_nonneg q Hq) as Hr.
  unfold fl_pos. cbv zeta.
  destruct (Qle_bool (2 ^ 1024) (round_val q)); cbn [js_le]; [reflexivity|].
  apply Qle_bool_iff. rewrite Qred_correct. exact Hr.
Qed.

Lemma js_le_neg x y : js_le x y = true -> js_le (js_neg y) (js_neg x) = true.
Proof.
  destruct x as [| | |a], y as [| | |b]; cbn [js_le js_neg]; try easy.
  rewrite !Qle_bool_iff, !Qred_correct. lra.
Qed.

Lemma js_le_trans x y z : js_le x y = true -> js_le y z = true -> js_le x z = true.
Proof.
  destruct x as [| | |a], y as [| | |b], z as [| | |c]; cbn [js_le]; try easy.
  rewrite !Qle_bool_iff. lra.
Qed.

Lemma js_neg_fl_pos_nonpos q : 0 < q -> js_le (js_neg (fl_pos q)) (Fin 0) = true.
Proof.
  intros Hq. apply (js_le_neg (Fin 0) (fl_pos q)), fl_pos_nonneg, Hq.
Qed.

(** Rounding is monotone. *)
Lemma fl_le_compat a b : a <= b -> js_le (fl a) (fl b) = true.
Proof.
  intros Hab. unfold fl.
  destruct (Qcompare_spec a 0) as [Ha|Ha|Ha], (Qcompare_spec b 0) as [Hb|Hb|Hb];
    try (exfalso; lra).
  - reflexivity.
  - apply fl_pos_nonneg, Hb.
  - apply js_neg_fl_pos_nonpos. lra.
  - apply js_le_neg, fl_pos_le_compat; lra.
  - eapply js_le_trans; [apply js_neg_fl_pos_nonpos | apply fl_pos_nonneg]; lra.
  - apply fl_pos_le_compat; lra.
Qed.

(** A value between two binary64 values rounds to a value between them. *)
Lemma fl_between lo hi lo' hi' q :
  fl lo = Fin lo' -> fl hi = Fin hi' -> lo <= q <= hi ->
  exists q', fl q = Fin q' /\ lo' <= q' <= hi'.
Proof.
  intros Elo Ehi [H1 H2].
  pose proof (fl_le_compat lo q H1) as L1. pose proof (fl_le_compat q hi H2) as L2.
  rewrite Elo in L1. rewrite Ehi in L2.
  destruct (fl q) as [| | |q']; cbn [js_le] in L1, L2; try discriminate.
  exists q'. rewrite !Qle_bool_iff in *. auto.
Qed.

Lemma Math_round_between (lo hi : Z) q :
  inject_Z lo <= q <= inject_Z hi ->
  exists z, Math_round (Fin q) = of_Z z /\ (lo <= z <= hi)%Z.
Proof.
  intros [H1 H2]. exists (Qfloor (q + (1 # 2))). split; [reflexivity|]. split.
  - rewrite <- (Qfloor_Z lo). apply Qfloor_resp_le. lra.
  - pose proof (Qfloor_le (q + (1 # 2))) as Hf.
    assert (H : inject_Z (Qfloor (q + (1 # 2))) < inject_Z (hi + 1)).
    { rewrite inject_Z_plus. change (inject_Z 1) with 1. lra. }
    rewrite <- Zlt_Qlt in H. lia.
Qed.

(** The significand of a rounded value has at most 53 bits. *)
Lemma Qrne_scaled_range q :
  0 < q -> (0 <= Qrne (q / 2 ^ ulp_exp q) <= 2 ^ 53)%Z.
Proof.
  intros Hq. pose proof (scaled_lt q Hq) as Hlt.
  assert (H0 : 0 <= q / 2 ^ ulp_exp q).
  { apply Qle_shift_div_l; [apply pow2_pos | lra]. }
  split.
  - apply Qrne_ge_Z. exact H0.
  - apply Qrne_le_Z. rewrite pow2_Z by lia. lra.
Qed.

Lemma ulp_exp_ge q : (-1074 <= ulp_exp q)%Z.
Proof. unfold ulp_exp. lia. Qed.

(** A rounded value is left unchanged by rounding. *)
Lemma fl_pos_idempotent q v :
  0 < q -> fl_pos q = Fin v -> fl v = Fin v.
Proof.
  intros Hq. unfold fl_pos. cbv zeta.
  destruct (Qle_bool (2 ^ 1024) (round_val q)) eqn:Hov; [discriminate|].
  intros [= <-].
  assert (Hlt : round_val q < 2 ^ 1024).
  { apply Qnot_le_lt. intros H. apply Qle_bool_iff in H. congruence. }
  pose proof (Qrne_scaled_range q Hq) as [Hm0 Hm53].
  pose proof (ulp_exp_ge q) as Hu.
  unfold round_val in *. cbv zeta in *.
  set (m := Qrne (q / 2 ^ ulp_exp q)) in *. set (u := ulp_exp q) in *.
  destruct (Z.eq_dec m 0%Z) as [E0|N0].
  - rewrite E0. rewrite (Qred_complete (inject_Z 0 * 2 ^ u) 0) by ring. reflexivity.
  - assert (Hpos : 0 < inject_Z m * 2 ^ u).
    { apply Qmult_lt_0_compat; [|apply pow2_pos].
      change 0 with (inject_Z 0). rewrite <- Zlt_Qlt. lia. }
    rewrite (fl_comp _ (inject_Z m * 2 ^ u)) by apply Qred_correct.
    unfold fl. destruct (Qcompare_spec (inject_Z m * 2 ^ u) 0) as [H|H|H];
      [exfalso; lra | exfalso; lra |].
    destruct (Z.eq_dec m (2 ^ 53)%Z) as [E|NE].
    + assert (Ev : inject_Z m * 2 ^ u == inject_Z 1 * 2 ^ (53 + u)).
      { rewrite E, pow2_add, pow2_Z by lia. ring. }
      rewrite (fl_pos_comp _ _ Hpos Ev).
      rewrite fl_pos_exact; [| lia | lia | rewrite <- Ev; exact Hlt].
      f_equal. apply Qred_complete. symmetry. exact Ev.
    + apply fl_pos_exact; [lia | lia | exact Hlt].
Qed.

Lemma fl_idempotent q v : fl q = Fin v -> fl v = Fin v.
Proof.
  unfold fl at 1. destruct (Qcompare_spec q 0) as [H|H|H].
  - intros [= <-]. reflexivity.
  - destruct (fl_pos (- q)) as [| | |w] eqn:E; try discriminate.
    cbn [js_neg]. intros [= <-].
    pose proof (fl_pos_idempotent (- q) w ltac:(lra) E) as Hw.
    pose proof (fl_pos_nonneg (- q) ltac:(lra)) as Hw0.
    rewrite E in Hw0. cbn [js_le] in Hw0. apply Qle_bool_iff in Hw0.
    destruct (Qeq_dec w 0) as [Ez|Nz].
    + rewrite (Qred_complete (- w) 0) by lra. reflexivity.
    + assert (Hpos : 0 < w) by lra.
      assert (Hfw : fl_pos w = Fin w).
      { unfold fl in Hw. destruct (Qcompare_spec w 0); [exfalso; lra | exfalso; lra | exact Hw]. }
      unfold fl. destruct (Qcompare_spec (Qred (- w)) 0) as [H1|H1|H1];
        rewrite Qred_correct in H1; [exfalso; lra | | exfalso; lra].
      rewrite (fl_pos_comp (- Qred (- w)) w);
        [rewrite Hfw; reflexivity | rewrite Qred_correct; lra | rewrite Qred_correct; ring].
  - apply fl_pos_idempotent. exact H.
Qed.


(** *** Rounding error *)

Lemma Qrne_error x : x - (1 # 2) <= inject_Z (Qrne x) <= x + (1 # 2).
Proof.
  pose proof (Qfloor_frac x) as [H1 H2]. unfold Qrne.
  destruct (Qcompare_spec (x - inject_Z (Qfloor x)) (1 # 2)) as [H|H|H];
    [destruct (Z.even (Qfloor x))| |]; rewrite ?inject_Z_plus;
    change (inject_Z 1) with 1; split; lra.
Qed.

Lemma Qlog2_le_bound q k : 0 < q -> q <= 2 ^ k -> (Qlog2 q <= k)%Z.
Proof.
  intros Hq Hk. destruct (Qlog2_spec q Hq) as [H _].
  assert ((Qlog2 q < k + 1)%Z); [|lia].
  apply pow2_lt_inv. eapply Qle_lt_trans; [exact H|].
  eapply Qle_lt_trans; [exact Hk|]. apply pow2_lt. lia.
Qed.

Lemma pow2_half k : 2 ^ (k - 1) == (1 # 2) * 2 ^ k.
Proof. rewrite pow2_sub. change (2 ^ 1) with 2. field. Qed.

(** A value of magnitude at most [2^k] is rounded with an error of at
    most [2^(k-53)], half a unit in the last place. *)
Lemma fl_error q k :
  0 <= q <= 2 ^ k -> (-1022 <= k <= 1022)%Z ->
  exists v, fl q = Fin v /\ q - 2 ^ (k - 53) <= v <= q + 2 ^ (k - 53).
Proof.
  intros [Hq0 Hqk] Hk. pose proof (pow2_pos (k - 53)) as Hpe.
  unfold fl. destruct (Qcompare_spec q 0) as [H|H|H]; [|exfalso; lra|].
  - exists 0. split; [reflexivity|]. split; lra.
  - pose proof (Qlog2_le_bound q k H Hqk) as HL.
    assert (Hu : (ulp_exp q <= k - 52)%Z) by (unfold ulp_exp; lia).
    pose proof (Qrne_error (q / 2 ^ ulp_exp q)) as [E1 E2].
    pose proof (pow2_pos (ulp_exp q)) as Hpu.
    assert (Hhalf : (1 # 2) * 2 ^ ulp_exp q <= 2 ^ (k - 53)).
    { rewrite <- pow2_half. apply pow2_le. lia. }
    assert (Es : q / 2 ^ ulp_exp q * 2 ^ ulp_exp q == q) by (field; lra).
    assert (Hv : q - 2 ^ (k - 53) <= round_val q <= q + 2 ^ (k - 53)).
    { unfold round_val. cbv zeta.
      set (m := inject_Z (Qrne (q / 2 ^ ulp_exp q))) in *.
      set (s := q / 2 ^ ulp_exp q) in *. set (w := 2 ^ ulp_exp q) in *.
      assert (s * w - (1 # 2) * w <= m * w) by nra.
      assert (m * w <= s * w + (1 # 2) * w) by nra.
      split; lra. }
    unfold fl_pos. cbv zeta.
    assert (Hlt : round_val q < 2 ^ 1024).
    { apply Qle_lt_trans with (2 ^ (k + 1)); [|apply pow2_lt; lia].
      assert (2 ^ (k - 53) <= 2 ^ k) by (apply pow2_le; lia).
      assert (2 ^ (k + 1) == 2 * 2 ^ k) by (rewrite pow2_add; change (2 ^ 1) with 2; ring).
      lra. }
    destruct (Qle_bool (2 ^ 1024) (round_val q)) eqn:Hov.
    + apply Qle_bool_iff in Hov. exfalso; lra.
    + exists (Qred (round_val q)). split; [reflexivity|].
      rewrite Qred_correct. exact Hv.
Qed.

Lemma Qfloor_unique z k : inject_Z k <= z < inject_Z k + 1 -> Qfloor z = k.
Proof.
  intros [H1 H2]. pose proof (Qfloor_frac z) as [F1 F2].
  assert (A : inject_Z (Qfloor z) < inject_Z (k + 1)).
  { rewrite inject_Z_plus. change (inject_Z 1) with 1. lra. }
  assert (B : inject_Z k < inject_Z (Qfloor z + 1)).
  { rewrite inject_Z_plus. change (inject_Z 1) with 1. lra. }
  rewrite <- Zlt_Qlt in A, B. lia.
Qed.

(** *** The results of the arithmetic operations are binary64 values *)

Lemma fl_binary64 q : is_binary64 (fl q).
Proof. destruct (fl q) as [| | |v] eqn:E; cbn; auto. apply (fl_idempotent q v E). Qed.

Lemma js_add_binary64 x y : is_binary64 (js_add x y).
Proof. destruct x as [| | |a], y as [| | |b]; cbn [js_add]; try exact I. apply fl_binary64. Qed.

Lemma js_mul_binary64 x y : is_binary64 (js_mul x y).
Proof.
  destruct x as [| | |a], y as [| | |b]; cbn [js_mul]; try exact I;
    try (destruct (Qcompare _ _); exact I). apply fl_binary64.
Qed.

Lemma js_add_0_l x : is_binary64 x -> js_add (of_Z 0) x = x.
Proof.
  destruct x as [| | |q]; try reflexivity. cbn [is_binary64 of_Z js_add]. intros H.
  rewrite (fl_comp (inject_Z 0 + q) q) by ring. exact H.
Qed.

Lemma js_div_1_r x : is_binary64 x -> js_div x (of_Z 1) = x.
Proof.
  destruct x as [| | |q]; try reflexivity. cbn [is_binary64 of_Z js_div]. intros H.
  change (Qcompare (inject_Z 1) 0) with Gt. cbv iota.
  rewrite (fl_comp (q / inject_Z 1) q); [exact H|]. change (inject_Z 1) with 1. field.
Qed.

End FloatingPoint.

(** Cross-checks of the arithmetic used by the progress calculators. *)

#[local] Set Warnings "-inexact-float".

Example fl_matches_SpecFloat_23_40 :
  js_mul (js_div (of_Z 23) (of_Z 40)) (of_Z 100)
  = of_spec_float (b64_mul (b64_div (b64 23) (b64 40)) (b64 100)).
Proof. vm_compute. reflexivity. Qed.

Example fl_matches_PrimFloat_23_40 :
  js_mul (js_div (of_Z 23) (of_Z 40)) (of_Z 100) = of_float (23 / 40 * 100)%float.
Proof. vm_compute. reflexivity. Qed.

(** [p / t * 100] for every [1 <= t <= 64] and [0 <= p <= t + 1]: the
    model, [SpecFloat] and the primitive floats agree. *)
Example fl_matches_on_percentages :
  forallb
    (fun '(p, t) =>
       let modelled := js_mul (js_div (of_Z p) (of_Z t)) (of_Z 100) in
       same_number modelled
         (of_spec_float (b64_mul (b64_div (b64 p) (b64 t)) (b64 100)))
       && same_number modelled (of_float (float_of_Z p / float_of_Z t * 100)%float))
    (quotients 64) = true.
Proof. vm_compute. reflexivity. Qed.

Example lit_matches_PrimFloat :
  lit (6 # 10) = of_float 0.6%float /\ lit (4 # 10) = of_float 0.4%float.
Proof. split; vm_compute; reflexivity. Qed.

Example weights_add_to_one : js_add (lit (6 # 10)) (lit (4 # 10)) = of_Z 1.
Proof. vm_compute. reflexivity. Qed.

Example fl_matches_PrimFloat_weighting :
  js_div (js_mul (Fin (119 # 2)) (lit (6 # 10))) (lit (6 # 10))
  = of_float (59.5 * 0.6 / 0.6)%float.
Proof. vm_compute. reflexivity. Qed.

(** The weighting of every mean [k / 2] with [0 <= k <= 200], alone and
    combined with the mean [50.5]: the model and the primitive floats
    agree. *)
Example fl_matches_on_weightings :
  forallb
    (fun k =>
       let mean := js_div (of_Z k) (of_Z 2) in
       let pmean := (float_of_Z k / 2)%float in
       same_number (js_div (js_mul mean (lit (6 # 10))) (lit (6 # 10)))
                   (of_float (pmean * 0.6 / 0.6)%float)
       && same_number (js_div (js_mul mean (lit (4 # 10))) (lit (4 # 10)))
                      (of_float (pmean * 0.4 / 0.4)%float)
       && same_number
            (js_add (js_mul mean (lit (6 # 10))) (js_mul (Fin (101 # 2)) (lit (4 # 10))))
            (of_float (pmean * 0.6 + 50.5 * 0.4)%float))
    (map Z.of_nat (seq 0 201)) = true.
Proof. vm_compute. reflexivity. Qed.

(** ** Progress calculators *)

Section ProgressCalculators.
Import Progress.

Lemma technical_fold te keys progress totalFields :
  fold_left
    (fun '(progress, totalFields) key =>
       let totalFields := (totalFields + 1)%nat in
       if technical_element_filled te key
       then ((progress + 1)%nat, totalFields)
       else (progress, totalFields))
    keys (progress, totalFields)
  = ((progress + count_true (map (technical_element_filled te) keys))%nat,
     (totalFields + length keys)%nat).
Proof.
  revert progress totalFields.
  induction keys as [|key keys IH]; intros progress totalFields; cbn [fold_left map].
  - unfold count_true. cbn. f_equal; lia.
  - destruct (technical_element_filled te key) eqn:E; rewrite IH;
      unfold count_true; cbn [List.filter length]; rewrite ?E;
      cbn [length]; f_equal; lia.
Qed.

Lemma miscellaneous_fold (entries : list json) progress totalFields :
  fold_left
    (fun '(progress, totalFields) _ => ((progress + 1)%nat, (totalFields + 1)%nat))
    entries (progress, totalFields)
  = ((progress + length entries)%nat, (totalFields + length entries)%nat).
Proof.
  revert progress totalFields.
  induction entries as [|e entries IH]; intros progress totalFields; cbn [fold_left length].
  - f_equal; lia.
  - rewrite IH. f_equal; lia.
Qed.

Lemma count_true_cons b l :
  count_true (b :: l) = ((if b then 1 else 0) + count_true l)%nat.
Proof.
  unfold count_true. cbn [List.filter]. destruct b; reflexivity.
Qed.

Lemma count_true_le l : (count_true l <= length l)%nat.
Proof. unfold count_true. apply List.filter_length_le. Qed.

(** [if (test) progress += 1] adds one or nothing. *)
Lemma incr_if (test : bool) (progress : nat) :
  (if test then (progress + 1)%nat else progress)
  = (progress + (if test then 1 else 0))%nat.
Proof. destruct test; lia. Qed.

(** The counters of [calculateBuildingProgress]: [totalFields] is 21 plus
    the number of miscellaneous entries, and [progress] counts the fixed
    fields that pass their test plus every miscellaneous entry. *)
Lemma building_counters_spec building :
  building_counters building
  = ((count_true (building_fixed_tests building)
      + length (misc_entries (miscellaneous_elements building)))%nat,
     (21 + length (misc_entries (miscellaneous_elements building)))%nat).
Proof.
  unfold building_counters. cbv zeta.
  rewrite technical_fold, miscellaneous_fold.
  unfold building_fixed_tests. cbn [app].
  rewrite !count_true_cons, !incr_if.
  cbn [length technicalElementKeys]. f_equal; lia.
Qed.

Lemma building_fixed_tests_length building :
  length (building_fixed_tests building) = 21%nat.
Proof. reflexivity. Qed.


Lemma fl_0 : fl 0 = Fin 0.
Proof. reflexivity. Qed.

Lemma fl_1 : fl 1 = Fin 1.
Proof. vm_compute. reflexivity. Qed.

Lemma fl_100 : fl 100 = Fin 100.
Proof. vm_compute. reflexivity. Qed.

Lemma inject_Z_of_nat_pos n : (0 < n)%nat -> (0 < inject_Z (Z.of_nat n))%Q.
Proof. intros H. change 0%Q with (inject_Z 0). rewrite <- Zlt_Qlt. lia. Qed.

(** [Math.round((progress / totalFields) * 100)] is an integer between 0
    and 100 whenever [progress <= totalFields] and [totalFields] is
    positive. *)
Lemma percentage_range progress totalFields :
  (progress <= totalFields)%nat -> (0 < totalFields)%nat ->
  exists z, percentage progress totalFields = of_Z z /\ 0 <= z <= 100.
Proof.
  intros Hle Hpos. unfold percentage, of_nat, of_Z. cbn [js_div].
  pose proof (inject_Z_of_nat_pos totalFields Hpos) as Ht.
  destruct (Qcompare_spec (inject_Z (Z.of_nat totalFields)) 0) as [E|E|E];
    [exfalso; lra | exfalso; lra |].
  assert (Hq : (0 <= inject_Z (Z.of_nat progress) / inject_Z (Z.of_nat totalFields) <= 1)%Q).
  { split.
    - apply Qle_shift_div_l; [exact Ht|]. rewrite Qmult_0_l.
      change 0%Q with (inject_Z 0). rewrite <- Zle_Qle. lia.
    - apply Qle_shift_div_r; [exact Ht|]. rewrite Qmult_1_l, <- Zle_Qle. lia. }
  destruct (fl_between 0 1 0 1 _ fl_0 fl_1 Hq) as (x & -> & Hx).
  cbn [js_mul].
  assert (Hy : (0 <= x * inject_Z 100 <= 100)%Q).
  { change (inject_Z 100) with 100%Q. split; lra. }
  destruct (fl_between 0 100 0 100 _ fl_0 fl_100 Hy) as (y & -> & Hy').
  apply (Math_round_between 0 100 y). exact Hy'.
Qed.

Lemma calculateBuildingProgress_eq building :
  calculateBuildingProgress building
  = percentage
      (count_true (building_fixed_tests building)
       + length (misc_entries (miscellaneous_elements building)))
      (21 + length (misc_entries (miscellaneous_elements building))).
Proof.
  unfold calculateBuildingProgress. rewrite building_counters_spec. reflexivity.
Qed.

(** The result of [calculateBuildingProgress] always lies in [0, 100]. *)
Lemma calculateBuildingProgress_range building :
  exists z, calculateBuildingProgress building = of_Z z /\ 0 <= z <= 100.
Proof.
  rewrite calculateBuildingProgress_eq. apply percentage_range; [|lia].
  pose proof (count_true_le (building_fixed_tests building)) as H.
  rewrite building_fixed_tests_length in H. lia.
Qed.

Local Open Scope Q_scope.

(** Away from exact halves, the percentage of the source is the exact
    quotient rounded to the nearest integer. *)
Lemma percentage_exact_away_from_ties (progress totalFields : nat) :
  (0 < totalFields)%nat -> (progress <= totalFields)%nat ->
  (Z.of_nat totalFields <= 2 ^ 32)%Z ->
  ((200 * Z.of_nat progress + Z.of_nat totalFields) mod (2 * Z.of_nat totalFields) <> 0)%Z ->
  percentage progress totalFields
  = of_Z ((200 * Z.of_nat progress + Z.of_nat totalFields) / (2 * Z.of_nat totalFields)).
Proof.
  intros Hpos Hle Hbound Htie. unfold percentage, of_nat, of_Z.
  assert (HT : (0 < Z.of_nat totalFields)%Z) by lia.
  assert (HP : (0 <= Z.of_nat progress <= Z.of_nat totalFields)%Z) by lia.
  remember (Z.of_nat totalFields) as T eqn:ET.
  remember (Z.of_nat progress) as P eqn:EP. clear ET EP Hpos Hle.
  pose proof (Z.div_mod (200 * P + T) (2 * T) ltac:(lia)) as Hdm.
  pose proof (Z.mod_pos_bound (200 * P + T) (2 * T) ltac:(lia)) as Hr.
  remember ((200 * P + T) / (2 * T))%Z as K eqn:EK.
  remember ((200 * P + T) mod (2 * T))%Z as r eqn:Er. clear EK Er.
  cbn [js_div].
  assert (HqT : 0 < inject_Z T) by (change 0 with (inject_Z 0); rewrite <- Zlt_Qlt; lia).
  destruct (Qcompare_spec (inject_Z T) 0) as [E|E|E]; [exfalso; lra | exfalso; lra |].
  remember (inject_Z P / inject_Z T) as e eqn:Ee.
  assert (He : e * inject_Z T == inject_Z P) by (rewrite Ee; field; apply Qnot_eq_sym, Qlt_not_eq, HqT).
  assert (HqP : 0 <= inject_Z P <= inject_Z T)
    by (change 0 with (inject_Z 0); rewrite <- !Zle_Qle; lia).
  assert (He01 : 0 <= e <= 1).
  { rewrite Ee. split.
    - apply Qle_shift_div_l; [exact HqT | lra].
    - apply Qle_shift_div_r; [exact HqT | lra]. }
  destruct (fl_error e 0 ltac:(change (2 ^ 0) with 1; exact He01) ltac:(lia))
    as (x & Ex & Hx).
  destruct (fl_between 0 1 0 1 e eq_refl ltac:(vm_compute; reflexivity) He01)
    as (x' & Ex' & Hx01).
  rewrite Ex in Ex'. injection Ex' as <-. rewrite Ex. cbn [js_mul].
  assert (C53 : 2 ^ (0 - 53) == 1 # 9007199254740992) by reflexivity.
  assert (C46 : 2 ^ (7 - 53) == 1 # 70368744177664) by reflexivity.
  change (inject_Z 100) with 100.
  destruct (fl_error (x * 100) 7 ltac:(change (2 ^ 7) with 128; lra) ltac:(lia))
    as (y & -> & Hy).
  cbn [Math_round]. do 2 f_equal. apply Qfloor_unique.
  (* the exact percentage plus one half is K + r / (2 T) *)
  assert (Hdiv : 200 * inject_Z P + inject_Z T
                 == 2 * inject_Z T * inject_Z K + inject_Z r).
  { change 200 with (inject_Z 200). change 2 with (inject_Z 2).
    rewrite <- !inject_Z_mult, <- !inject_Z_plus. rewrite Hdm at 1. reflexivity. }
  assert (Hr1 : 1 <= inject_Z r) by (change 1 with (inject_Z 1); rewrite <- Zle_Qle; lia).
  assert (Hr2 : inject_Z r <= 2 * inject_Z T - 1).
  { assert (A : inject_Z (r + 1) <= inject_Z (2 * T)) by (rewrite <- Zle_Qle; lia).
    rewrite inject_Z_plus, inject_Z_mult in A.
    change (inject_Z 1) with 1 in A. change (inject_Z 2) with 2 in A. lra. }
  assert (HT33 : 2 * inject_Z T <= 8589934592).
  { change 2 with (inject_Z 2). change 8589934592 with (inject_Z (2 ^ 33)).
    rewrite <- inject_Z_mult, <- Zle_Qle. lia. }
  remember (/ (2 * inject_Z T)) as w eqn:Ew.
  assert (Hw : w * (2 * inject_Z T) == 1) by (rewrite Ew; field; lra).
  assert (Hw0 : 0 < w) by (rewrite Ew; apply Qinv_lt_0_compat; lra).
  assert (Hw33 : (1 # 8589934592) <= w) by nra.
  assert (Hz : 100 * e + (1 # 2) == inject_Z K + inject_Z r * w).
  { assert (A : (100 * e + (1 # 2)) * (2 * inject_Z T)
                == (inject_Z K + inject_Z r * w) * (2 * inject_Z T)) by nra.
    apply (Qmult_inj_r _ _ (2 * inject_Z T)); [lra | exact A]. }
  assert (Hrw1 : w <= inject_Z r * w) by nra.
  assert (Hrw2 : inject_Z r * w <= 1 - w) by nra.
  split; lra.
Qed.

(** Every building whose percentage is not an exact half gets the exact
    rounded percentage. *)
Lemma calculateBuildingProgress_exact_away_from_ties building :
  let progress := (count_true (building_fixed_tests building)
                   + length (misc_entries (miscellaneous_elements building)))%nat in
  let totalFields := (21 + length (misc_entries (miscellaneous_elements building)))%nat in
  (Z.of_nat totalFields <= 2 ^ 32)%Z ->
  ((200 * Z.of_nat progress + Z.of_nat totalFields) mod (2 * Z.of_nat totalFields) <> 0)%Z ->
  calculateBuildingProgress building
  = of_Z ((200 * Z.of_nat progress + Z.of_nat totalFields) / (2 * Z.of_nat totalFields)).
Proof.
  cbv zeta. intros Hb Ht. rewrite calculateBuildingProgress_eq.
  apply percentage_exact_away_from_ties; [lia | | exact Hb | exact Ht].
  pose proof (count_true_le (building_fixed_tests building)) as H.
  rewrite building_fixed_tests_length in H. lia.
Qed.

Local Close Scope Q_scope.

(** The rounded percentage as an integer quotient. *)
Lemma rounded_percentage_quotient (filled total : nat) :
  (0 < total)%nat ->
  ProgressSpec.rounded_percentage filled total
  = (200 * Z.of_nat filled + Z.of_nat total) / (2 * Z.of_nat total).
Proof.
  intros Hpos. unfold ProgressSpec.rounded_percentage.
  assert (HT : 0 < Z.of_nat total) by lia.
  remember (Z.of_nat filled) as P eqn:EP. remember (Z.of_nat total) as T eqn:ET.
  clear EP ET Hpos filled total.
  apply Qfloor_unique.
  pose proof (Z.div_mod (200 * P + T) (2 * T) ltac:(lia)) as Hdm.
  pose proof (Z.mod_pos_bound (200 * P + T) (2 * T) ltac:(lia)) as Hr.
  set (K := (200 * P + T) / (2 * T)) in *. set (r := (200 * P + T) mod (2 * T)) in *.
  clearbody K r.
  assert (HqT : (0 < inject_Z T)%Q)
    by (change 0%Q with (inject_Z 0); rewrite <- Zlt_Qlt; lia).
  assert (Hq : (200 * inject_Z P + inject_Z T
                == 2 * inject_Z T * inject_Z K + inject_Z r)%Q).
  { change 200%Q with (inject_Z 200). change 2%Q with (inject_Z 2).
    rewrite <- !inject_Z_mult, <- !inject_Z_plus. rewrite Hdm at 1. reflexivity. }
  assert (Hr1 : (0 <= inject_Z r)%Q)
    by (change 0%Q with (inject_Z 0); rewrite <- Zle_Qle; lia).
  assert (Hr2 : (inject_Z r < 2 * inject_Z T)%Q).
  { change 2%Q with (inject_Z 2). rewrite <- inject_Z_mult, <- Zlt_Qlt. lia. }
  remember (100 * inject_Z P / inject_Z T + (1 # 2))%Q as X eqn:EX.
  assert (HX : (X * (2 * inject_Z T) == 200 * inject_Z P + inject_Z T)%Q)
    by (rewrite EX; field; lra).
  clear EX. split.
  - apply (Qmult_le_r _ _ (2 * inject_Z T)); [lra|]. lra.
  - apply (Qmult_lt_r _ _ (2 * inject_Z T)); [lra|]. lra.
Qed.

Lemma same_number_eq x y : same_number x y = true -> x = y.
Proof.
  destruct x as [| | |[a b]], y as [| | |[c d]]; cbn; try discriminate; try reflexivity.
  intros H. apply andb_true_iff in H as [H1 H2].
  apply Z.eqb_eq in H1. apply Pos.eqb_eq in H2. subst. reflexivity.
Qed.

(** With at most 21 fields missing, an exact half needs [total] to
    divide [200 * missing] with an odd quotient: there are no halves
    beyond 4200 fields. *)
Lemma half_bounded (fixed misc : Z) :
  0 <= fixed <= 21 -> 0 <= misc ->
  ProgressSpec.is_half (fixed + misc) (21 + misc) = true -> misc <= 4179.
Proof.
  intros Hf Hm H. unfold ProgressSpec.is_half in H. apply Z.eqb_eq in H.
  apply Z.mod_divide in H; [|lia]. destruct H as [k Hk].
  assert (Hj : 200 * (21 - fixed) = (21 + misc) * (201 - 2 * k)) by lia.
  assert (Hpos : 1 <= 201 - 2 * k).
  { destruct (Z_lt_le_dec (201 - 2 * k) 1) as [Hlt|]; [|assumption].
    assert (201 - 2 * k <= 0) by lia.
    assert ((21 + misc) * (201 - 2 * k) <= 0) by nia.
    assert (21 - fixed = 0) by lia.
    assert ((21 + misc) * (201 - 2 * k) = 0) by lia.
    assert (201 - 2 * k = 0) by nia. lia. }
  assert (21 + misc <= 200 * (21 - fixed)) by nia.
  lia.
Qed.

(** Every half that a building can reach is rounded up by the source,
    save the one of 4 fixed fields with 19 miscellaneous entries. *)
Lemma halves_checked :
  forallb
    (fun misc =>
       forallb
         (fun fixed =>
            ((fixed =? 4) && (misc =? 19)) || ProgressSpec.half_rounded_up fixed misc)
         (map Z.of_nat (seq 0 22)))
    (map Z.of_nat (seq 0 4180)) = true.
Proof. vm_compute. reflexivity. Qed.

(** [calculateBuildingProgress] gives the rounded percentage of the
    filled fields for every building but those with exactly 4 of the 21
    fixed fields filled and 19 miscellaneous entries. *)
Lemma calculateBuildingProgress_rounded building :
  let fixed := count_true (building_fixed_tests building) in
  let misc := length (misc_entries (miscellaneous_elements building)) in
  (Z.of_nat (21 + misc) <= 2 ^ 32)%Z ->
  ~ (fixed = 4%nat /\ misc = 19%nat) ->
  calculateBuildingProgress building
  = of_Z (ProgressSpec.rounded_percentage (fixed + misc) (21 + misc)).
Proof.
  intros fixed misc Hb Hne.
  rewrite rounded_percentage_quotient by lia.
  assert (Hfixed : (fixed <= 21)%nat).
  { pose proof (count_true_le (building_fixed_tests building)) as H.
    rewrite building_fixed_tests_length in H. exact H. }
  destruct (ProgressSpec.is_half (Z.of_nat fixed + Z.of_nat misc) (21 + Z.of_nat misc))
    eqn:Eh.
  - pose proof (half_bounded (Z.of_nat fixed) (Z.of_nat misc) ltac:(lia) ltac:(lia) Eh) as Hm.
    pose proof halves_checked as Hall.
    rewrite forallb_forall in Hall.
    specialize (Hall (Z.of_nat misc) ltac:(apply in_map, in_seq; lia)).
    rewrite forallb_forall in Hall.
    specialize (Hall (Z.of_nat fixed) ltac:(apply in_map, in_seq; lia)).
    apply orb_true_iff in Hall as [Hall|Hall].
    + apply andb_true_iff in Hall as [H4 H19].
      apply Z.eqb_eq in H4, H19. exfalso. apply Hne. split; lia.
    + unfold ProgressSpec.half_rounded_up in Hall. cbv zeta in Hall.
      rewrite Eh in Hall. apply same_number_eq in Hall.
      rewrite calculateBuildingProgress_eq.
      replace (Z.to_nat (Z.of_nat fixed + Z.of_nat misc)) with (fixed + misc)%nat in Hall
        by lia.
      replace (Z.to_nat (21 + Z.of_nat misc)) with (21 + misc)%nat in Hall by lia.
      fold fixed misc. rewrite Hall. f_equal. f_equal; f_equal; lia.
  - rewrite (calculateBuildingProgress_exact_away_from_ties building Hb); [reflexivity|].
    unfold ProgressSpec.is_half in Eh. apply Z.eqb_neq in Eh.
    fold fixed misc. intros H. apply Eh. rewrite <- H. f_equal; lia.
Qed.

(** What [AddBuildingForm] stores: the three areas and the obsolescence
    are numbers, never null, whatever the inputs hold; contiguity and
    communication are the values of their radio inputs. *)
Lemma buildingData_fixed_fields (parseFloat : jsstring -> number)
    (formData : BuildingForm.BuildingFormData) :
  let building := BuildingForm.buildingData parseFloat formData in
  (4 <= count_true (building_fixed_tests building) <= 20)%nat
  /\ (BuildingForm.form_contiguity formData <> [] ->
      (5 <= count_true (building_fixed_tests building))%nat)
  /\ length (misc_entries (miscellaneous_elements building))
     = length (BuildingForm.form_miscellaneous_elements formData).
Proof.
  cbv zeta. unfold building_fixed_tests, BuildingForm.buildingData.
  cbn [designation basement_area_sqm ground_floor_area_sqm first_floor_area_sqm
       technical_elements miscellaneous_elements new_value_mad obsolescence_percentage
       contiguity communication is_set truthy_opt_string app misc_entries
       BuildingForm.string_array].
  rewrite !count_true_cons. cbn [map technicalElementKeys].
  rewrite !count_true_cons. change (count_true []) with 0%nat.
  assert (Hch : technical_element_filled
                  (val (BuildingForm.technical_elements_json
                          (BuildingForm.form_technical_elements formData)))
                  "chassis" = false) by reflexivity.
  rewrite Hch. rewrite length_map.
  repeat match goal with
         | |- context [if ?b then 1%nat else 0%nat] =>
             lazymatch b with
             | true => fail
             | false => fail
             | _ =>
                 let n := fresh "n" in
                 let H := fresh "H" in
                 assert (H : ((if b then 1 else 0) <= 1)%nat) by (destruct b; lia);
                 first [ is_var b; destruct b
                       | set (n := (if b then 1%nat else 0%nat)) in * ]
             end
         end.
  split; [|split; [|reflexivity]].
  - cbn [Nat.add]. lia.
  - intros Hc. destruct (BuildingForm.form_contiguity formData) as [|c s]; [congruence|].
    cbn. lia.
Qed.

(** Hence the progress shown for a building written by the form is the
    rounded percentage of its filled fields. *)
Lemma buildingData_progress_rounded (parseFloat : jsstring -> number)
    (formData : BuildingForm.BuildingFormData) :
  let building := BuildingForm.buildingData parseFloat formData in
  let fixed := count_true (building_fixed_tests building) in
  let misc := length (BuildingForm.form_miscellaneous_elements formData) in
  (Z.of_nat (21 + misc) <= 2 ^ 32)%Z ->
  BuildingForm.form_contiguity formData <> [] ->
  calculateBuildingProgress building
  = of_Z (ProgressSpec.rounded_percentage (fixed + misc) (21 + misc)).
Proof.
  intros building fixed misc Hb Hc.
  destruct (buildingData_fixed_fields parseFloat formData) as (_ & H5 & Hm).
  specialize (H5 Hc). fold building in H5, Hm. subst misc. rewrite <- Hm in *.
  apply calculateBuildingProgress_rounded; [exact Hb|].
  intros [H4 _]. fold fixed in H5. unfold fixed in *. lia.
Qed.

Lemma material_counters_total material :
  snd (material_counters material) = 10%nat
  /\ (fst (material_counters material) <= 10)%nat.
Proof.
  unfold material_counters. cbv zeta. rewrite !incr_if. cbn [fst snd].
  split; [reflexivity|].
  repeat match goal with
         | |- context [if ?b then 1%nat else 0%nat] =>
             let n := fresh "n" in
             assert (((if b then 1 else 0) <= 1)%nat) by (destruct b; lia);
             set (n := (if b then 1%nat else 0%nat)) in *; clearbody n
         end.
  lia.
Qed.

Lemma calculateMaterialProgress_range material :
  exists z, calculateMaterialProgress material = of_Z z /\ 0 <= z <= 100.
Proof.
  unfold calculateMaterialProgress.
  pose proof (material_counters_total material) as [Ht Hp].
  destruct (material_counters material) as [progress totalFields].
  cbn [fst snd] in Ht, Hp. subst totalFields. cbn [Nat.ltb Nat.leb].
  apply percentage_range; lia.
Qed.



(** The buildings left out of C3: at [Samples.building_23_of_40] (19
    miscellaneous entries, four fixed fields filled) the counters are 23
    and 40, the double [23 / 40 * 100] is 57.49999999999999 and not
    57.5, and [calculateBuildingProgress] returns 57, whereas
    [100 * 23 / 40] is exactly 57.5 and rounds to 58. *)
Example calculateBuildingProgress_23_of_40 :
  building_counters Samples.building_23_of_40 = (23%nat, 40%nat)
  /\ js_mul (js_div (of_nat 23) (of_nat 40)) (of_Z 100)
     = Fin (8092405580431359 # 140737488355328)
  /\ calculateBuildingProgress Samples.building_23_of_40 = of_Z 57
  /\ Math_round (js_div (js_mul (of_Z 100) (of_nat 23)) (of_nat 40)) = of_Z 58
  /\ Qfloor (100 * 23 / 40 + 1 / 2)%Q = 58.
Proof. repeat split; vm_compute; reflexivity. Qed.


(** A completed mission is at 100 and a cancelled one at 0, whatever the
    lists hold. *)
Lemma calculateOverallMissionProgress_closed buildings materials :
  calculateOverallMissionProgress buildings materials (js "completed") = of_Z 100
  /\ calculateOverallMissionProgress buildings materials (js "cancelled") = of_Z 0.
Proof. split; reflexivity. Qed.

Local Open Scope Q_scope.

Lemma weights :
  js_add (of_Z 0) (lit (6 # 10)) = lit (6 # 10)
  /\ js_add (of_Z 0) (lit (4 # 10)) = lit (4 # 10)
  /\ js_add (lit (6 # 10)) (lit (4 # 10)) = of_Z 1
  /\ js_gt (lit (6 # 10)) (of_Z 0) = true
  /\ js_gt (lit (4 # 10)) (of_Z 0) = true
  /\ js_gt (of_Z 1) (of_Z 0) = true.
Proof. repeat split; vm_compute; reflexivity. Qed.

(** What [calculateOverallMissionProgress] computes for a mission that is
    neither completed nor cancelled and has at least one item. *)
Lemma calculateOverallMissionProgress_open buildings materials missionStatus :
  missionStatus <> js "completed" -> missionStatus <> js "cancelled" ->
  let mb := mean_progress calculateBuildingProgress buildings in
  let mm := mean_progress calculateMaterialProgress materials in
  let r := calculateOverallMissionProgress buildings materials missionStatus in
  (buildings <> [] -> materials <> [] ->
     r = Math_round (js_add (js_mul mb (lit (6 # 10))) (js_mul mm (lit (4 # 10)))))
  /\ (buildings <> [] -> materials = [] ->
     r = Math_round (js_div (js_mul mb (lit (6 # 10))) (lit (6 # 10))))
  /\ (buildings = [] -> materials <> [] ->
     r = Math_round (js_div (js_mul mm (lit (4 # 10))) (lit (4 # 10)))).
Proof.
  intros Hc Hx. cbv zeta. unfold calculateOverallMissionProgress.
  rewrite (bool_decide_eq_false_2 _ Hc), (bool_decide_eq_false_2 _ Hx).
  destruct weights as (W1 & W2 & W3 & G1 & G2 & G3).
  destruct buildings as [|b bs], materials as [|m ms]; (split; [|split]); try congruence;
    intros _ _; cbn [length Nat.eqb Nat.ltb Nat.leb andb].
  - rewrite (js_add_0_l _ (js_mul_binary64 _ _)), W2, G2. reflexivity.
  - rewrite (js_add_0_l _ (js_mul_binary64 _ _)), W1, G1. reflexivity.
  - rewrite (js_add_0_l _ (js_mul_binary64 _ _)), W1, W3, G3.
    rewrite (js_div_1_r _ (js_add_binary64 _ _)). reflexivity.
Qed.

Local Close Scope Q_scope.

(** C4, at a mission in progress with no material and two buildings as
    [AddBuildingForm] stores them ([Samples.form_11_of_21] and
    [Samples.form_12_of_21], whatever [parseFloat] reads in their numeric
    inputs): 11 and 12 of the 21 fields are filled, the progress values
    are 52 and 57 and their mean is 54.5, which rounds to 55; the
    weighting [54.5 * 0.6 / 0.6] gives the double 54.49999999999999 and
    [calculateOverallMissionProgress] returns 54.  The same happens
    with [Samples.building_complete] (progress 100) and
    [Samples.building_4_of_21] (progress 19): the mean is 59.5, which
    rounds to 60, and the function returns 59. *)
Theorem calculateOverallMissionProgress_buildings_only :
  (forall parseFloat : jsstring -> number,
     let b11 := BuildingForm.buildingData parseFloat Samples.form_11_of_21 in
     let b12 := BuildingForm.buildingData parseFloat Samples.form_12_of_21 in
     building_counters b11 = (11%nat, 21%nat)
     /\ building_counters b12 = (12%nat, 21%nat)
     /\ calculateBuildingProgress b11 = of_Z 52
     /\ calculateBuildingProgress b12 = of_Z 57
     /\ mean_progress calculateBuildingProgress [b11; b12] = Fin (109 # 2)
     /\ Math_round (mean_progress calculateBuildingProgress [b11; b12]) = of_Z 55
     /\ js_div (js_mul (Fin (109 # 2)) (lit (6 # 10))) (lit (6 # 10))
        = Fin (7670193115365375 # 140737488355328)
     /\ calculateOverallMissionProgress [b11; b12] [] (js "in_progress") = of_Z 54)
  /\ (let buildings := [Samples.building_complete; Samples.building_4_of_21] in
      calculateBuildingProgress Samples.building_complete = of_Z 100
      /\ calculateBuildingProgress Samples.building_4_of_21 = of_Z 19
      /\ mean_progress calculateBuildingProgress buildings = Fin (119 # 2)
      /\ Math_round (mean_progress calculateBuildingProgress buildings) = of_Z 60
      /\ js_div (js_mul (Fin (119 # 2)) (lit (6 # 10))) (lit (6 # 10))
         = Fin (8373880557142015 # 140737488355328)
      /\ calculateOverallMissionProgress buildings [] (js "in_progress") = of_Z 59).
Proof.
  split.
  - intros parseFloat b11 b12.
    assert (C11 : building_counters b11 = (11%nat, 21%nat)) by (vm_compute; reflexivity).
    assert (C12 : building_counters b12 = (12%nat, 21%nat)) by (vm_compute; reflexivity).
    assert (P11 : calculateBuildingProgress b11 = of_Z 52)
      by (unfold calculateBuildingProgress; rewrite C11; vm_compute; reflexivity).
    assert (P12 : calculateBuildingProgress b12 = of_Z 57)
      by (unfold calculateBuildingProgress; rewrite C12; vm_compute; reflexivity).
    assert (M : mean_progress calculateBuildingProgress [b11; b12] = Fin (109 # 2))
      by (unfold mean_progress; cbn [fold_left length]; rewrite P11, P12;
          vm_compute; reflexivity).
    split; [exact C11|]. split; [exact C12|]. split; [exact P11|]. split; [exact P12|].
    split; [exact M|]. split; [rewrite M; vm_compute; reflexivity|].
    split; [vm_compute; reflexivity|].
    destruct (calculateOverallMissionProgress_open [b11; b12] [] (js "in_progress"))
      as (_ & H & _); [discriminate | discriminate |].
    rewrite (H ltac:(discriminate) eq_refl), M. vm_compute. reflexivity.
  - cbv zeta. repeat split; vm_compute; reflexivity.
Qed.

Lemma filter_length_le_bool {A : Type} (f : A -> bool) (l : list A) :
  (length (List.filter f l) <= length l)%nat.
Proof. apply List.filter_length_le. Qed.

(** C10: the validation summaries.  [completed] is the number of items
    whose progress is at least 80, [total] is the length of the list,
    [completed <= total], and the label is "Validé" exactly when
    [0 < total] and [completed = total], "Validation partielle" exactly
    when [0 < completed < total], "En attente" exactly when
    [completed = 0 < total], and "Aucun bâtiment" (for materials "Aucun
    matériel") exactly when the list is empty. *)
Theorem validation_status_consistent (buildings : list Building) (materials : list Material) :
  let sb := getBuildingsValidationStatus buildings in
  let sm := getMaterialsValidationStatus materials in
  (completed sb
   = length (List.filter (fun b => js_ge (calculateBuildingProgress b) (of_Z 80)) buildings)
   /\ total sb = length buildings
   /\ (0 <= completed sb <= total sb)%nat
   /\ (status sb = "Validé"%string <-> (0 < total sb)%nat /\ completed sb = total sb)
   /\ (status sb = "Validation partielle"%string <-> (0 < completed sb < total sb)%nat)
   /\ (status sb = "En attente"%string <-> completed sb = 0%nat /\ (0 < total sb)%nat)
   /\ (status sb = "Aucun bâtiment"%string <-> buildings = []))
  /\
  (completed sm
   = length (List.filter (fun m => js_ge (calculateMaterialProgress m) (of_Z 80)) materials)
   /\ total sm = length materials
   /\ (0 <= completed sm <= total sm)%nat
   /\ (status sm = "Validé"%string <-> (0 < total sm)%nat /\ completed sm = total sm)
   /\ (status sm = "Validation partielle"%string <-> (0 < completed sm < total sm)%nat)
   /\ (status sm = "En attente"%string <-> completed sm = 0%nat /\ (0 < total sm)%nat)
   /\ (status sm = "Aucun matériel"%string <-> materials = [])).
Proof.
  cbv zeta. split.
  - unfold getBuildingsValidationStatus.
    pose proof (filter_length_le_bool
                  (fun b => js_ge (calculateBuildingProgress b) (of_Z 80)) buildings) as Hle.
    destruct buildings as [|b0 bs]; [cbn; repeat split; try easy; lia|].
    set (l := b0 :: bs) in *.
    set (c := length (List.filter _ l)) in *.
    assert (Hl : (0 < length l)%nat) by (cbn; lia).
    replace (length l =? 0)%nat with false by (symmetry; apply Nat.eqb_neq; lia).
    destruct (Nat.eqb_spec c (length l)) as [E|NE];
      [|destruct (Nat.ltb_spec 0 c) as [Hc|Hc]];
      cbn [completed total status]; repeat split; try easy; try lia.
  - unfold getMaterialsValidationStatus.
    pose proof (filter_length_le_bool
                  (fun m => js_ge (calculateMaterialProgress m) (of_Z 80)) materials) as Hle.
    destruct materials as [|m0 ms]; [cbn; repeat split; try easy; lia|].
    set (l := m0 :: ms) in *.
    set (c := length (List.filter _ l)) in *.
    assert (Hl : (0 < length l)%nat) by (cbn; lia).
    replace (length l =? 0)%nat with false by (symmetry; apply Nat.eqb_neq; lia).
    destruct (Nat.eqb_spec c (length l)) as [E|NE];
      [|destruct (Nat.ltb_spec 0 c) as [Hc|Hc]];
      cbn [completed total status]; repeat split; try easy; try lia.
Qed.

End ProgressCalculators.

(** ** The PDF generator: page breaks and file names *)

Section PdfGeneratorFacts.
Import PdfGenerator.

Lemma maxY_252 : maxY = of_Z 252.
Proof. vm_compute. reflexivity. Qed.

Lemma fl_pos_not_nan q : is_nan (fl_pos q) = false.
Proof. unfold fl_pos. cbv zeta. destruct (Qle_bool _ _); reflexivity. Qed.

Lemma fl_not_nan q : is_nan (fl q) = false.
Proof.
  unfold fl. destruct (Qcompare q 0); [reflexivity | |apply fl_pos_not_nan].
  pose proof (fl_pos_not_nan (- q)) as H. destruct (fl_pos (- q)); easy.
Qed.

Lemma js_add_finite_not_nan x y :
  is_finite x = true -> is_finite y = true -> is_nan (js_add x y) = false.
Proof.
  destruct x as [| | |a], y as [| | |b]; try discriminate. intros _ _. apply fl_not_nan.
Qed.

(** Away from [NaN], [x > y] is the negation of [x <= y]. *)
Lemma js_gt_negb_le x y :
  is_nan x = false -> is_nan y = false -> js_gt x y = negb (js_le x y).
Proof.
  destruct x as [| | |a], y as [| | |b]; try discriminate; try reflexivity.
Qed.

Lemma fl_252 : fl 252 = Fin 252.
Proof. vm_compute. reflexivity. Qed.

(** C5: for finite [currentY] and [requiredHeight], with the sums and
    comparisons of the source (binary64): the limit [maxY] is 252;
    [checkPageBreak] returns the unchanged position, and adds no page,
    whenever [currentY + requiredHeight <= 252]; otherwise it adds
    exactly one page and returns the top margin 25; and whenever
    [requiredHeight <= 227] the returned position [y'] satisfies
    [y' + requiredHeight <= 252].  The first case covers every pair
    whose exact sum is at most 252. *)
Theorem checkPageBreak_spec (pdf : jsPDF) (currentY requiredHeight : number) :
  is_finite currentY = true -> is_finite requiredHeight = true ->
  let result := checkPageBreak pdf currentY requiredHeight in
  maxY = of_Z 252
  /\ (js_le (js_add currentY requiredHeight) (of_Z 252) = true ->
      result = (pdf, currentY))
  /\ (js_le (js_add currentY requiredHeight) (of_Z 252) = false ->
      result = (addPage pdf, of_Z 25)
      /\ numberOfPages (fst result) = S (numberOfPages pdf))
  /\ (js_le requiredHeight (of_Z 227) = true ->
      js_le (js_add (snd result) requiredHeight) (of_Z 252) = true)
  /\ (forall y h, currentY = Fin y -> requiredHeight = Fin h ->
      (y + h <= 252)%Q -> result = (pdf, currentY)).
Proof.
  intros Hy Hh. cbv zeta.
  pose proof (js_add_finite_not_nan _ _ Hy Hh) as Hnan.
  unfold checkPageBreak. rewrite maxY_252.
  rewrite (js_gt_negb_le _ (of_Z 252) Hnan eq_refl).
  assert (Hexact : forall y h, currentY = Fin y -> requiredHeight = Fin h ->
            (y + h <= 252)%Q -> js_le (js_add currentY requiredHeight) (of_Z 252) = true).
  { intros y h -> -> Hsum. cbn [js_add]. unfold of_Z. change (inject_Z 252) with 252%Q.
    rewrite <- fl_252. apply fl_le_compat, Hsum. }
  split; [reflexivity|]. split; [|split; [|split]].
  - intros ->. reflexivity.
  - intros ->. split; reflexivity.
  - intros H227.
    destruct (js_le (js_add currentY requiredHeight) (of_Z 252)) eqn:E; cbn [negb snd].
    + exact E.
    + destruct requiredHeight as [| | |h]; try discriminate.
      cbn [js_le of_Z] in H227. apply Qle_bool_iff in H227.
      change (inject_Z 227) with 227%Q in H227.
      unfold PDF_CONFIG.margins_top, of_Z. cbn [js_add].
      change (inject_Z 252) with 252%Q. rewrite <- fl_252.
      apply fl_le_compat. change (inject_Z 25) with 25%Q. lra.
  - intros y h E1 E2 Hsum. rewrite (Hexact y h E1 E2 Hsum). reflexivity.
Qed.

(** A witness: at [currentY = 250] a block of height 8 does not fit. *)
Lemma checkPageBreak_spec_witness :
  checkPageBreak {| numberOfPages := 1 |} (of_Z 250) (of_Z 8)
  = ({| numberOfPages := 2 |}, of_Z 25).
Proof.
  pose proof (checkPageBreak_spec {| numberOfPages := 1 |} (of_Z 250) (of_Z 8)
                eq_refl eq_refl) as (_ & _ & H & _).
  exact (proj1 (H eq_refl)).
Defined.


(** *** [createSlug] *)

Lemma is_a_z_0_9_not_hyphen c : is_a_z_0_9 c = true -> is_hyphen c = false.
Proof.
  unfold is_a_z_0_9, is_hyphen, hyphen. intros H. apply N.eqb_neq. intros ->.
  discriminate H.
Qed.

Lemma replace_runs_well_hyphenated in_run s :
  well_hyphenated in_run (replace_runs in_run s) = true.
Proof.
  revert in_run. induction s as [|c s IH]; intros in_run; [reflexivity|].
  cbn [replace_runs]. destruct (is_a_z_0_9 c) eqn:Ec.
  - cbn [well_hyphenated]. rewrite Ec. apply IH.
  - destruct in_run; [apply IH|].
    cbn [well_hyphenated]. rewrite IH. reflexivity.
Qed.

Lemma well_hyphenated_weaken s :
  well_hyphenated true s = true -> well_hyphenated false s = true.
Proof.
  destruct s as [|c s]; [reflexivity|]. cbn [well_hyphenated].
  destruct (is_a_z_0_9 c); [auto|]. rewrite andb_false_r. discriminate.
Qed.

Lemma well_hyphenated_any p s :
  well_hyphenated p s = true -> well_hyphenated false s = true.
Proof. destruct p; [apply well_hyphenated_weaken | auto]. Qed.

Lemma well_hyphenated_tail p c s :
  well_hyphenated p (c :: s) = true -> well_hyphenated false s = true.
Proof.
  cbn [well_hyphenated]. destruct (is_a_z_0_9 c); [auto|].
  intros H. apply andb_true_iff in H as [_ H]. now apply well_hyphenated_weaken.
Qed.

Lemma well_hyphenated_drop_while p s :
  well_hyphenated p s = true ->
  well_hyphenated false (drop_while is_hyphen s) = true.
Proof.
  revert p. induction s as [|c s IH]; intros p H; [reflexivity|].
  cbn [drop_while]. destruct (is_hyphen c).
  - apply (IH false), (well_hyphenated_tail p c s H).
  - apply (well_hyphenated_any p), H.
Qed.

Lemma well_hyphenated_drop_while_end p s :
  well_hyphenated p s = true ->
  well_hyphenated p (drop_while_end is_hyphen s) = true.
Proof.
  revert p. induction s as [|c s IH]; intros p H; [reflexivity|].
  cbn [drop_while_end]. cbn [well_hyphenated] in H.
  destruct (is_a_z_0_9 c) eqn:Ec.
  - specialize (IH false H). rewrite (is_a_z_0_9_not_hyphen c Ec).
    destruct (drop_while_end is_hyphen s); cbn [well_hyphenated]; rewrite Ec; auto.
  - apply andb_true_iff in H as [H1 H2]. apply andb_true_iff in H1 as [Hc Hp].
    specialize (IH true H2). rewrite Hc.
    destruct (drop_while_end is_hyphen s) as [|c' r]; [reflexivity|].
    cbn [well_hyphenated] in *. rewrite Ec, Hc, Hp. exact IH.
Qed.

Lemma well_hyphenated_fixed p s :
  well_hyphenated p s = true -> replace_runs p s = s.
Proof.
  revert p. induction s as [|c s IH]; intros p H; [reflexivity|].
  cbn [replace_runs]. cbn [well_hyphenated] in H.
  destruct (is_a_z_0_9 c) eqn:Ec.
  - f_equal. apply IH, H.
  - apply andb_true_iff in H as [H1 H2]. apply andb_true_iff in H1 as [Hc Hp].
    apply negb_true_iff in Hp. subst p.
    apply N.eqb_eq in Hc. subst c. f_equal. apply IH, H2.
Qed.

Lemma well_hyphenated_chars p s :
  well_hyphenated p s = true ->
  Forall (fun c => is_a_z_0_9 c = true \/ c = hyphen) s.
Proof.
  revert p. induction s as [|c s IH]; intros p H; [constructor|].
  cbn [well_hyphenated] in H. destruct (is_a_z_0_9 c) eqn:Ec.
  - constructor; [now left | apply (IH false), H].
  - apply andb_true_iff in H as [H1 H2]. apply andb_true_iff in H1 as [Hc _].
    apply N.eqb_eq in Hc. constructor; [now right | apply (IH true), H2].
Qed.

Lemma lower_unit_fixed c :
  is_a_z_0_9 c = true \/ c = hyphen -> lower_unit c = [c].
Proof.
  unfold lower_unit, is_a_z_0_9, hyphen. intros H.
  destruct (N.leb_spec 65 c), (N.leb_spec c 90), (N.eqb_spec c 304), (N.eqb_spec c 8490);
    cbn [andb]; try reflexivity; exfalso;
    destruct H as [H| ->]; try lia;
    destruct (N.leb_spec 97 c), (N.leb_spec c 122), (N.leb_spec 48 c), (N.leb_spec c 57);
    cbn in H; try discriminate; lia.
Qed.

Lemma toLowerCase_fixed s :
  Forall (fun c => is_a_z_0_9 c = true \/ c = hyphen) s -> toLowerCase s = s.
Proof.
  unfold toLowerCase. induction 1 as [|c s Hc _ IH]; [reflexivity|].
  cbn [flat_map]. rewrite (lower_unit_fixed c Hc), IH. reflexivity.
Qed.

Lemma head_drop_while f s c : head (drop_while f s) = Some c -> f c = false.
Proof.
  induction s as [|c' s IH]; [discriminate|]. cbn [drop_while].
  destruct (f c') eqn:E; [exact IH|]. cbn. intros [= <-]. exact E.
Qed.

Lemma head_drop_while_end f s c :
  head (drop_while_end f s) = Some c -> head s = Some c.
Proof.
  destruct s as [|c' s]; [discriminate|]. cbn [drop_while_end].
  destruct (drop_while_end f s); [destruct (f c')|]; cbn; congruence.
Qed.

Lemma last_drop_while_end f s c :
  last (drop_while_end f s) = Some c -> f c = false.
Proof.
  induction s as [|c' s IH]; [discriminate|]. cbn [drop_while_end].
  destruct (drop_while_end f s) as [|c'' r] eqn:E.
  - destruct (f c') eqn:Ec; [discriminate|]. cbn. intros [= <-]. exact Ec.
  - change (last (c' :: c'' :: r)) with (last (c'' :: r)). exact IH.
Qed.

Lemma drop_while_id f s :
  (forall c, head s = Some c -> f c = false) -> drop_while f s = s.
Proof.
  destruct s as [|c s]; [reflexivity|]. intros H. cbn [drop_while].
  rewrite (H c eq_refl). reflexivity.
Qed.

Lemma drop_while_end_id f s :
  (forall c, last s = Some c -> f c = false) -> drop_while_end f s = s.
Proof.
  induction s as [|c s IH]; [reflexivity|]. intros H. cbn [drop_while_end].
  destruct s as [|c' s'].
  - cbn. rewrite (H c eq_refl). reflexivity.
  - rewrite IH; [reflexivity|]. intros c0 Hc0. apply H. exact Hc0.
Qed.

Lemma createSlug_shape title :
  well_hyphenated false (createSlug title) = true
  /\ (forall c, head (createSlug title) = Some c -> is_hyphen c = false)
  /\ (forall c, last (createSlug title) = Some c -> is_hyphen c = false).
Proof.
  unfold createSlug, strip_hyphens.
  pose proof (replace_runs_well_hyphenated false (toLowerCase title)) as H.
  apply well_hyphenated_drop_while in H. split; [|split].
  - apply well_hyphenated_drop_while_end, H.
  - intros c Hc. apply head_drop_while_end in Hc. apply (head_drop_while _ _ _ Hc).
  - intros c Hc. apply (last_drop_while_end _ _ _ Hc).
Qed.

(** C6: the report is downloaded as "rapport_" ++ slug ++ ".pdf"; the
    slug holds only characters of a-z, 0-9 and '-', neither starts nor
    ends with '-', and [createSlug] is idempotent. *)
Theorem createSlug_spec (title : jsstring) :
  fileName title = js "rapport_" ++ createSlug title ++ js ".pdf"
  /\ Forall (fun c => is_a_z_0_9 c = true \/ c = hyphen) (createSlug title)
  /\ head (createSlug title) <> Some hyphen
  /\ last (createSlug title) <> Some hyphen
  /\ createSlug (createSlug title) = createSlug title.
Proof.
  destruct (createSlug_shape title) as (Hwf & Hhead & Hlast).
  pose proof (well_hyphenated_chars _ _ Hwf) as Hchars.
  split; [reflexivity|]. split; [exact Hchars|]. split; [|split].
  - intros H. specialize (Hhead _ H). discriminate.
  - intros H. specialize (Hlast _ H). discriminate.
  - unfold createSlug at 1. rewrite (toLowerCase_fixed _ Hchars).
    rewrite (well_hyphenated_fixed _ _ Hwf). unfold strip_hyphens.
    rewrite (drop_while_id _ _ Hhead). apply drop_while_end_id, Hlast.
Qed.

Example createSlug_example :
  createSlug (js "  Mission: Usine A-12 (Casablanca) ")
  = js "mission-usine-a-12-casablanca".
Proof. vm_compute. reflexivity. Qed.

End PdfGeneratorFacts.

(** ** Dashboard: [calculateVariation] *)

Section DashboardFacts.
Import Dashboard.

Lemma js_neg_of_Z z : js_neg (of_Z z) = of_Z (- z).
Proof.
  unfold of_Z. cbn [js_neg]. rewrite <- inject_Z_opp, Qred_inject_Z. reflexivity.
Qed.

(** Subtraction of counters is exact. *)
Lemma js_sub_of_Z a b :
  Z.abs (a - b) <= 2 ^ 53 -> js_sub (of_Z a) (of_Z b) = of_Z (a - b).
Proof.
  intros H. unfold js_sub. rewrite js_neg_of_Z. unfold of_Z. cbn [js_add].
  rewrite <- inject_Z_plus. apply fl_inject_Z. exact H.
Qed.

Lemma fl_pow2_53 : fl (inject_Z (2 ^ 53)) = Fin (inject_Z (2 ^ 53))
  /\ fl (inject_Z (- 2 ^ 53)) = Fin (inject_Z (- 2 ^ 53)).
Proof. split; apply fl_inject_Z; lia. Qed.

Lemma fl_pow2_60 : fl (inject_Z (2 ^ 60)) = Fin (inject_Z (2 ^ 60))
  /\ fl (inject_Z (- 2 ^ 60)) = Fin (inject_Z (- 2 ^ 60)).
Proof. split; vm_compute; reflexivity. Qed.

(** The percentage of a quotient of counters is a finite integer. *)
Lemma variation_finite (d p : Z) :
  Z.abs d <= 2 ^ 53 -> 0 < p ->
  exists z, Math_round (js_mul (js_div (of_Z d) (of_Z p)) (of_Z 100)) = of_Z z.
Proof.
  intros Hd Hp. unfold of_Z. cbn [js_div].
  assert (Hp' : (0 < inject_Z p)%Q) by (change 0%Q with (inject_Z 0); rewrite <- Zlt_Qlt; lia).
  assert (Hp1 : (1 <= inject_Z p)%Q) by (change 1%Q with (inject_Z 1); rewrite <- Zle_Qle; lia).
  destruct (Qcompare_spec (inject_Z p) 0) as [E|E|E]; [exfalso; lra | exfalso; lra |].
  assert (Hdq : (inject_Z (- 2 ^ 53) <= inject_Z d <= inject_Z (2 ^ 53))%Q)
    by (rewrite <- !Zle_Qle; lia).
  assert (H53 : (0 < inject_Z (2 ^ 53))%Q) by reflexivity.
  assert (Hm53 : (inject_Z (- 2 ^ 53) == - inject_Z (2 ^ 53))%Q) by reflexivity.
  assert (Hq : (inject_Z (- 2 ^ 53) <= inject_Z d / inject_Z p <= inject_Z (2 ^ 53))%Q).
  { split.
    - apply Qle_shift_div_l; [exact Hp'|]. nra.
    - apply Qle_shift_div_r; [exact Hp'|]. nra. }
  destruct fl_pow2_53 as [Ehi Elo].
  destruct (fl_between _ _ _ _ _ Elo Ehi Hq) as (x & -> & Hx).
  cbn [js_mul].
  assert (Hy : (inject_Z (- 2 ^ 60) <= x * inject_Z 100 <= inject_Z (2 ^ 60))%Q).
  { assert ((inject_Z (2 ^ 60) == 128 * inject_Z (2 ^ 53))%Q) by reflexivity.
    assert ((inject_Z (- 2 ^ 60) == - (128 * inject_Z (2 ^ 53)))%Q) by reflexivity.
    change (inject_Z 100) with 100%Q. lra. }
  destruct fl_pow2_60 as [Ehi' Elo'].
  destruct (fl_between _ _ _ _ _ Elo' Ehi' Hy) as (y & -> & Hy').
  destruct (Math_round_between _ _ y Hy') as (z & Hz & _). exists z. exact Hz.
Qed.

(** C7: for counts [current] and [previous] (exactly representable, at
    most 2^53): [calculateVariation] returns
    [Math.round(((current - previous) / previous) * 100)] when
    [previous <> 0], 100 when [previous = 0 < current], and 0 when both
    are 0; the result is always a finite integer (no division by zero is
    evaluated, and neither [NaN] nor an infinity is returned). *)
Theorem calculateVariation_spec (current previous : nat) :
  Z.of_nat current <= 2 ^ 53 -> Z.of_nat previous <= 2 ^ 53 ->
  let r := calculateVariation (of_nat current) (of_nat previous) in
  (previous <> 0%nat ->
     r = Math_round
           (js_mul (js_div (js_sub (of_nat current) (of_nat previous)) (of_nat previous))
                   (of_Z 100))
     /\ js_sub (of_nat current) (of_nat previous)
        = of_Z (Z.of_nat current - Z.of_nat previous))
  /\ (previous = 0%nat -> (0 < current)%nat -> r = of_Z 100)
  /\ (previous = 0%nat -> current = 0%nat -> r = of_Z 0)
  /\ exists z, r = of_Z z.
Proof.
  intros Hc Hp. cbv zeta. unfold calculateVariation.
  destruct previous as [|p].
  - change (js_eq (of_nat 0) (of_Z 0)) with true. cbv iota.
    destruct current as [|c].
    + repeat split; try easy. now exists 0.
    + assert (E : js_gt (of_nat (S c)) (of_Z 0) = true).
      { unfold js_gt, of_nat, of_Z. cbn [js_lt]. apply negb_true_iff.
        destruct (Qle_bool (inject_Z (Z.of_nat (S c))) (inject_Z 0)) eqn:E; [|reflexivity].
        apply Qle_bool_iff in E. rewrite <- Zle_Qle in E. lia. }
      rewrite E. repeat split; try easy. now exists 100.
  - assert (E : js_eq (of_nat (S p)) (of_Z 0) = false).
    { unfold of_nat, of_Z. cbn [js_eq].
      destruct (Qeq_bool (inject_Z (Z.of_nat (S p))) (inject_Z 0)) eqn:E; [|reflexivity].
      apply Qeq_bool_iff in E. unfold Qeq in E. cbn in E. lia. }
    rewrite E.
    assert (Hsub : js_sub (of_nat current) (of_nat (S p))
                   = of_Z (Z.of_nat current - Z.of_nat (S p))).
    { apply js_sub_of_Z. lia. }
    repeat split; try easy.
    rewrite Hsub. apply variation_finite; lia.
Qed.

(** A witness: 3 missions after 2 is a variation of 50 percent. *)
Lemma calculateVariation_spec_witness :
  calculateVariation (of_nat 3) (of_nat 2) = of_Z 50.
Proof.
  pose proof (calculateVariation_spec 3 2 ltac:(vm_compute; discriminate)
                ltac:(vm_compute; discriminate)) as (H & _).
  rewrite (proj1 (H ltac:(discriminate))). vm_compute. reflexivity.
Defined.

(** The expression is evaluated in binary64, as it is written: for 63
    missions after 40 the quotient [23 / 40] times 100 is the double
    57.49999999999999. *)
Example calculateVariation_63_40 :
  calculateVariation (of_nat 63) (of_nat 40) = of_Z 57
  /\ calculateVariation (of_nat 0) (of_nat 0) = of_Z 0
  /\ calculateVariation (of_nat 5) (of_nat 0) = of_Z 100
  /\ calculateVariation (of_nat 1) (of_nat 4) = of_Z (-75).
Proof. repeat split; vm_compute; reflexivity. Qed.

End DashboardFacts.

(** ** [ProgressBar] *)

Section ProgressBarFacts.
Import ProgressBarComponent.

(** C8: for every progress value that is a number (not [NaN]), also
    below 0 or above 100 or infinite, the width of the bar and the
    displayed percentage are [min(max(progress, 0), 100)], and this
    value lies in [0, 100]. *)
Theorem ProgressBar_clamps (props : ProgressBarProps) :
  is_nan (progress props) = false ->
  let shown := Math_min (Math_max (progress props) (of_Z 0)) (of_Z 100) in
  width (ProgressBar props) = shown
  /\ percentageText (ProgressBar props)
     = (if showPercentage props then Some shown else None)
  /\ js_le (of_Z 0) shown = true
  /\ js_le shown (of_Z 100) = true
  /\ (js_lt (progress props) (of_Z 0) = true -> shown = of_Z 0)
  /\ (js_gt (progress props) (of_Z 100) = true -> shown = of_Z 100)
  /\ (js_le (of_Z 0) (progress props) = true ->
      js_le (progress props) (of_Z 100) = true -> shown = progress props).
Proof.
  intros Hnan. cbv zeta.
  split; [reflexivity|]. split; [reflexivity|].
  destruct (progress props) as [| | |q]; [discriminate| | |].
  - cbn. repeat split; easy.
  - cbn. repeat split; easy.
  - unfold Math_max, Math_min, js_gt, of_Z. cbn [js_lt js_le].
    destruct (Qle_bool (inject_Z 0) q) eqn:E0; cbn [negb].
    + cbn [js_lt]. destruct (Qle_bool q (inject_Z 100)) eqn:E1; cbn [negb js_le].
      * rewrite E0, E1. repeat split; easy.
      * repeat split; easy.
    + change (Qle_bool (inject_Z 0) (inject_Z 100)) with true. cbn [negb js_le].
      repeat split; try easy.
      intros H. exfalso. apply negb_true_iff in H.
      assert (H0 : ~ (inject_Z 0 <= q)%Q) by (rewrite <- Qle_bool_iff; congruence).
      assert (H1 : ~ (q <= inject_Z 100)%Q) by (rewrite <- Qle_bool_iff; congruence).
      change (inject_Z 0) with 0%Q in H0. change (inject_Z 100) with 100%Q in H1. lra.
Qed.

(** Witnesses: a value above 100 and a value below 0. *)
Lemma ProgressBar_clamps_witness :
  width (ProgressBar {| progress := of_Z 150; showPercentage := true |}) = of_Z 100
  /\ percentageText (ProgressBar {| progress := of_Z (-5); showPercentage := true |})
     = Some (of_Z 0).
Proof.
  split.
  - exact (proj1 (ProgressBar_clamps {| progress := of_Z 150; showPercentage := true |} eq_refl)).
  - exact (proj1 (proj2 (ProgressBar_clamps
                           {| progress := of_Z (-5); showPercentage := true |} eq_refl))).
Defined.

(** [NaN] is not clamped: it is rendered as it is. *)
Lemma ProgressBar_NaN show :
  width (ProgressBar {| progress := NaN; showPercentage := show |}) = NaN.
Proof. reflexivity. Qed.

End ProgressBarFacts.

(** ** Sub-queries of the policies under row-level security *)

Section PolicySubqueries.
Import RLS.

(** A session always reads its own profile ("Users can read own
    profile"), so the profile tests of the policies see the row. *)
Lemma select_profile_own db uid : select_profile db uid uid = profiles db !! uid.
Proof.
  unfold select_profile, profiles_select_using.
  destruct (profiles db !! uid) as [p|]; [|reflexivity].
  cbn [fst]. rewrite (bool_decide_eq_true_2 _ eq_refl). reflexivity.
Qed.

Lemma exists_profile_eq db uid roles :
  exists_profile db uid roles
  = match profiles db !! uid with
    | Some p =>
        match profile_role p with
        | Some r => bool_decide (r ∈ roles)
        | None => false
        end
        && match profile_is_active p with Some active => active | None => false end
    | None => false
    end.
Proof. unfold exists_profile. rewrite select_profile_own. reflexivity. Qed.

Lemma missions_delete_using_eq db uid m :
  missions_delete_using db uid m
  = match profiles db !! uid with
    | Some p =>
        match profile_is_active p with Some active => active | None => false end
        && match profile_role p with
           | Some r =>
               bool_decide (r ∈ ["super_admin"; "admin"]%string)
               || (bool_decide (r = "expert"%string)
                   && bool_decide (mission_created_by m = uid))
           | None => false
           end
    | None => false
    end.
Proof. unfold missions_delete_using. rewrite select_profile_own. reflexivity. Qed.

(** *** Without an active profile nothing is read through a sub-query *)

Lemma exists_profile_no_active db uid roles :
  has_active_profile db uid = false -> exists_profile db uid roles = false.
Proof.
  unfold has_active_profile, column_true. rewrite exists_profile_eq.
  destruct (profiles db !! uid) as [p|]; [|reflexivity].
  intros ->. apply andb_false_r.
Qed.

Lemma missions_select_no_active db uid m :
  has_active_profile db uid = false -> missions_select_using db uid m = false.
Proof.
  intros H. unfold missions_select_using.
  rewrite !(exists_profile_no_active db uid _ H). reflexivity.
Qed.

Lemma select_mission_no_active db uid id :
  has_active_profile db uid = false -> select_mission db uid id = None.
Proof.
  intros H. unfold select_mission. destruct (missions db !! id) as [m|]; [|reflexivity].
  rewrite (missions_select_no_active db uid m H). reflexivity.
Qed.

Lemma exists_mission_of_no_active db uid mb condition :
  has_active_profile db uid = false -> exists_mission_of db uid mb condition = false.
Proof.
  intros H. unfold exists_mission_of. rewrite (select_mission_no_active db uid _ H).
  reflexivity.
Qed.

Lemma existsb_all_false {A : Type} (f : A -> bool) (l : list A) :
  (forall x, f x = false) -> existsb f l = false.
Proof. intros H. induction l as [|x l IH]; [reflexivity|]. cbn. rewrite H. exact IH. Qed.

Lemma exists_assigned_mission_no_active db uid bid :
  has_active_profile db uid = false -> exists_assigned_mission db uid bid = false.
Proof.
  intros H. unfold exists_assigned_mission. apply existsb_all_false. intros mb.
  rewrite (select_mission_no_active db uid _ H). reflexivity.
Qed.

Lemma exists_open_assigned_mission_no_active db uid bid :
  has_active_profile db uid = false -> exists_open_assigned_mission db uid bid = false.
Proof.
  intros H. unfold exists_open_assigned_mission. apply existsb_all_false. intros mb.
  rewrite (select_mission_no_active db uid _ H). reflexivity.
Qed.

(** *** An open assigned mission is an assigned mission *)

Lemma open_mission_is_assigned db uid bid :
  exists_open_assigned_mission db uid bid = true ->
  exists_assigned_mission db uid bid = true.
Proof.
  unfold exists_open_assigned_mission, exists_assigned_mission.
  rewrite !existsb_exists. intros (mb & Hin & H). exists mb. split; [exact Hin|].
  destruct (select_mission db uid (mission_id mb)) as [m|]; [|discriminate].
  apply andb_true_iff in H as [H _]. exact H.
Qed.

(** *** What an active constateur reads *)

Lemma exists_profile_constateur db uid p roles :
  profiles db !! uid = Some p -> profile_role p = Some "constateur"%string ->
  exists_profile db uid roles
  = bool_decide ("constateur"%string ∈ roles)
    && match profile_is_active p with Some active => active | None => false end.
Proof. intros Hp Hr. rewrite exists_profile_eq, Hp, Hr. reflexivity. Qed.

Lemma missions_select_constateur db uid p m :
  profiles db !! uid = Some p -> profile_role p = Some "constateur"%string ->
  profile_is_active p = Some true ->
  missions_select_using db uid m = is_uid uid (assigned_to m).
Proof.
  intros Hp Hr Ha. unfold missions_select_using.
  rewrite !(exists_profile_constateur db uid p _ Hp Hr), Ha. reflexivity.
Qed.

Lemma select_mission_constateur db uid p id m :
  profiles db !! uid = Some p -> profile_role p = Some "constateur"%string ->
  profile_is_active p = Some true ->
  missions db !! id = Some m -> assigned_to m = Some uid ->
  select_mission db uid id = Some m.
Proof.
  intros Hp Hr Ha Hm Hu. unfold select_mission. rewrite Hm.
  rewrite (missions_select_constateur db uid p m Hp Hr Ha). unfold is_uid.
  rewrite (bool_decide_eq_true_2 _ Hu). reflexivity.
Qed.

Lemma select_mission_Some db uid id m :
  select_mission db uid id = Some m -> missions db !! id = Some m.
Proof.
  unfold select_mission. destruct (missions db !! id) as [m'|]; [|discriminate].
  destruct (missions_select_using db uid m'); [|discriminate]. exact (fun H => H).
Qed.

(** The rows of [mission_buildings] of the missions assigned to an
    active constateur are rows that the constateur reads. *)
Lemma mission_building_visible_to_constateur db uid p mb m :
  profiles db !! uid = Some p -> profile_role p = Some "constateur"%string ->
  profile_is_active p = Some true ->
  In mb (mission_buildings db) ->
  missions db !! mission_id mb = Some m -> assigned_to m = Some uid ->
  In mb (select_mission_buildings db uid).
Proof.
  intros Hp Hr Ha Hin Hm Hu. unfold select_mission_buildings.
  apply filter_In. split; [exact Hin|]. unfold mission_buildings_select_using.
  apply orb_true_iff. right. unfold exists_mission_of.
  rewrite (select_mission_constateur db uid p _ m Hp Hr Ha Hm Hu).
  unfold is_uid. apply bool_decide_eq_true_2. exact Hu.
Qed.

Lemma open_status_spec s :
  match s with
  | Some s => bool_decide (s ∈ [draft; assigned; in_progress])
  | None => false
  end = true <-> open_status s.
Proof.
  unfold open_status. destruct s as [[| | | |]|]; vm_compute; split; intros H;
    try reflexivity; try discriminate; auto;
    destruct H as [H|[H|H]]; discriminate.
Qed.

(** For an active constateur the sub-query of the write policies finds
    exactly the open missions assigned to them that hold the building. *)
Lemma exists_open_assigned_mission_constateur db uid p bid :
  profiles db !! uid = Some p -> profile_role p = Some "constateur"%string ->
  profile_is_active p = Some true ->
  exists_open_assigned_mission db uid bid = true <->
  exists mb m, In mb (mission_buildings db) /\ building_id mb = bid
               /\ missions db !! mission_id mb = Some m
               /\ assigned_to m = Some uid /\ open_status (status m).
Proof.
  intros Hp Hr Ha. unfold exists_open_assigned_mission. rewrite existsb_exists. split.
  - intros (mb & Hin & H). apply filter_In in Hin as [Hin _].
    destruct (select_mission db uid (mission_id mb)) as [m|] eqn:Em; [|discriminate].
    apply select_mission_Some in Em.
    apply andb_true_iff in H as [H Hs]. apply andb_true_iff in H as [Hb Hu].
    apply bool_decide_eq_true in Hb, Hu. apply open_status_spec in Hs.
    exists mb, m. auto.
  - intros (mb & m & Hin & Hb & Em & Hu & Hs). exists mb. split.
    + exact (mission_building_visible_to_constateur db uid p mb m Hp Hr Ha Hin Em Hu).
    + rewrite (select_mission_constateur db uid p _ m Hp Hr Ha Em Hu).
      apply open_status_spec in Hs. rewrite Hs, !andb_true_r. apply andb_true_iff.
      split; apply bool_decide_eq_true; assumption.
Qed.

(** *** The SELECT policy on [mission_buildings] in the sub-queries

    A sub-query that joins [mission_buildings] with the missions
    assigned to the session user loses no row to the SELECT policy on
    [mission_buildings], be it the one in force, the one that it
    replaces or both: each lets the session read the rows of such a
    mission. *)

Lemma assigned_mission_building_read db uid mb m :
  select_mission db uid (mission_id mb) = Some m -> assigned_to m = Some uid ->
  mission_buildings_select_using db uid mb = true
  /\ users_can_read_mission_buildings_using db uid mb = true.
Proof.
  intros Em Hu.
  unfold mission_buildings_select_using, users_can_read_mission_buildings_using,
    exists_mission_of, is_uid.
  rewrite Em, (bool_decide_eq_true_2 _ Hu). cbn [orb]. rewrite !orb_true_r. auto.
Qed.

Lemma existsb_filter {A : Type} (f g : A -> bool) (l : list A) :
  (forall x, f x = true -> g x = true) ->
  existsb f (List.filter g l) = existsb f l.
Proof.
  intros H. induction l as [|x l IH]; [reflexivity|]. cbn.
  destruct (f x) eqn:Ef.
  - rewrite (H x Ef). cbn. rewrite Ef. reflexivity.
  - destruct (g x); cbn; rewrite ?Ef; exact IH.
Qed.

Lemma exists_assigned_mission_any_select db uid bid (visible : mission_building -> bool) :
  (forall mb m, select_mission db uid (mission_id mb) = Some m ->
                assigned_to m = Some uid -> visible mb = true) ->
  existsb
    (fun mb =>
       match select_mission db uid (mission_id mb) with
       | Some m => bool_decide (building_id mb = bid) && bool_decide (assigned_to m = Some uid)
       | None => false
       end)
    (List.filter visible (mission_buildings db))
  = exists_assigned_mission db uid bid.
Proof.
  intros Hv. unfold exists_assigned_mission, select_mission_buildings.
  rewrite !existsb_filter; [reflexivity| |].
  - intros mb H. destruct (select_mission db uid (mission_id mb)) as [m|] eqn:Em;
      [|discriminate].
    apply andb_true_iff in H as [_ Hu]. apply bool_decide_eq_true in Hu.
    exact (proj1 (assigned_mission_building_read db uid mb m Em Hu)).
  - intros mb H. destruct (select_mission db uid (mission_id mb)) as [m|] eqn:Em;
      [|discriminate].
    apply andb_true_iff in H as [_ Hu]. apply bool_decide_eq_true in Hu.
    exact (Hv mb m Em Hu).
Qed.

Lemma exists_open_assigned_mission_any_select db uid bid
    (visible : mission_building -> bool) :
  (forall mb m, select_mission db uid (mission_id mb) = Some m ->
                assigned_to m = Some uid -> visible mb = true) ->
  existsb
    (fun mb =>
       match select_mission db uid (mission_id mb) with
       | Some m =>
           bool_decide (building_id mb = bid) && bool_decide (assigned_to m = Some uid)
           && match status m with
              | Some s => bool_decide (s ∈ [draft; assigned; in_progress])
              | None => false
              end
       | None => false
       end)
    (List.filter visible (mission_buildings db))
  = exists_open_assigned_mission db uid bid.
Proof.
  intros Hv. unfold exists_open_assigned_mission, select_mission_buildings.
  rewrite !existsb_filter; [reflexivity| |].
  - intros mb H. destruct (select_mission db uid (mission_id mb)) as [m|] eqn:Em;
      [|discriminate].
    apply andb_true_iff in H as [H _]. apply andb_true_iff in H as [_ Hu].
    apply bool_decide_eq_true in Hu.
    exact (proj1 (assigned_mission_building_read db uid mb m Em Hu)).
  - intros mb H. destruct (select_mission db uid (mission_id mb)) as [m|] eqn:Em;
      [|discriminate].
    apply andb_true_iff in H as [H _]. apply andb_true_iff in H as [_ Hu].
    apply bool_decide_eq_true in Hu.
    exact (Hv mb m Em Hu).
Qed.

(** In particular under both SELECT policies together. *)
Lemma exists_assigned_mission_either_select db uid bid :
  existsb
    (fun mb =>
       match select_mission db uid (mission_id mb) with
       | Some m => bool_decide (building_id mb = bid) && bool_decide (assigned_to m = Some uid)
       | None => false
       end)
    (List.filter
       (either mission_buildings_select_using users_can_read_mission_buildings_using db uid)
       (mission_buildings db))
  = exists_assigned_mission db uid bid.
Proof.
  apply exists_assigned_mission_any_select. intros mb m Em Hu. unfold either.
  rewrite (proj1 (assigned_mission_building_read db uid mb m Em Hu)). reflexivity.
Qed.

End PolicySubqueries.

(** ** [ProtectedRoute] *)

Section ProtectedRouteFacts.
Import Auth ProtectedRouteComponent.

(** C9 as stated fails in two places: while [loading] the component
    yields the loading screen, which is neither the children nor a
    redirect nor an error or access-refused screen; and an [error] that
    is the empty string is not [null], yet the children are rendered. *)
Lemma ProtectedRoute_claim_fails :
  let allowedRoles : option (list Role) := None in
  let as_stated (auth : AuthState) : Prop :=
    (ProtectedRoute auth allowedRoles = Children <->
       loading auth = false /\ error auth = None
       /\ exists u, user auth = Some u
            /\ (allowedRoles = None
                \/ exists roles, allowedRoles = Some roles /\ role u ∈ roles))
    /\ (ProtectedRoute auth allowedRoles <> Children ->
        redirect_or_refusal (ProtectedRoute auth allowedRoles) = true) in
  ~ as_stated {| user := Some Samples.some_user; loading := true; error := None |}
  /\ ~ as_stated {| user := Some Samples.some_user; loading := false; error := Some [] |}.
Proof.
  cbv zeta. split.
  - intros [_ H]. cbn in H. specialize (H ltac:(discriminate)). discriminate.
  - intros [H _]. cbn in H. destruct (proj1 H eq_refl) as (_ & E & _). discriminate.
Qed.

(** C9, amended: the children are rendered exactly when [loading] is
    false, [error] is null or the empty string, the user is not null and
    either no [allowedRoles] is given or the role of the user is one of
    them; in every other case the component yields the loading screen
    (while loading), a redirect to /login, or an error or access-refused
    screen. *)
Theorem ProtectedRoute_spec (auth : AuthState) (allowedRoles : option (list Role)) :
  (ProtectedRoute auth allowedRoles = Children <->
     loading auth = false
     /\ (error auth = None \/ error auth = Some [])
     /\ exists u, user auth = Some u
          /\ (allowedRoles = None
              \/ exists roles, allowedRoles = Some roles /\ role u ∈ roles))
  /\ (ProtectedRoute auth allowedRoles <> Children ->
        (loading auth = true /\ ProtectedRoute auth allowedRoles = LoadingScreen)
        \/ redirect_or_refusal (ProtectedRoute auth allowedRoles) = true).
Proof.
  unfold ProtectedRoute, shouldRedirectToLogin, truthy_error, truthy_string.
  destruct auth as [u l e]. cbn [loading error user].
  destruct l; [split; [split; [discriminate | intros (H & _); discriminate] | left; auto]|].
  destruct e as [[|c s]|].
  - (* error = "" *)
    destruct u as [u|]; [|split; [split; [discriminate | intros (_ & _ & u & H & _); discriminate] | right; reflexivity]].
    destruct allowedRoles as [roles|].
    + destruct (bool_decide (role u ∈ roles)) eqn:E; cbn [negb].
      * apply bool_decide_eq_true in E. split; [|congruence].
        split; [|reflexivity]. intros _. repeat split; auto. exists u. eauto.
      * apply bool_decide_eq_false in E. split; [|right; reflexivity].
        split; [discriminate|]. intros (_ & _ & u' & [= <-] & [H | (roles' & [= <-] & H)]);
          [discriminate | contradiction].
    + split; [|congruence]. split; [|reflexivity]. intros _. repeat split; auto. exists u. eauto.
  - (* a non-empty error *)
    cbn [andb]. split.
    + split; [destruct (negb _); discriminate | intros (_ & [H | H] & _); discriminate].
    + intros _. right. destruct (negb _); reflexivity.
  - (* error = null *)
    destruct u as [u|]; [|split; [split; [discriminate | intros (_ & _ & u & H & _); discriminate] | right; reflexivity]].
    destruct allowedRoles as [roles|].
    + destruct (bool_decide (role u ∈ roles)) eqn:E; cbn [negb].
      * apply bool_decide_eq_true in E. split; [|congruence].
        split; [|reflexivity]. intros _. repeat split; auto. exists u. eauto.
      * apply bool_decide_eq_false in E. split; [|right; reflexivity].
        split; [discriminate|]. intros (_ & _ & u' & [= <-] & [H | (roles' & [= <-] & H)]);
          [discriminate | contradiction].
    + split; [|congruence]. split; [|reflexivity]. intros _. repeat split; auto. exists u. eauto.
Qed.

End ProtectedRouteFacts.

(** ** Roles: the capabilities of [useRolePermissions] and the policies *)

Section HierarchyFacts.
Import Auth RolePermissions RLS Hierarchy.

(** C1 as stated fails: [isConstateur] is granted to a constateur and
    not to the same user as expert, and so are [isExpert] from expert to
    admin and [hasRole('constateur')]; the constateur assigned to the
    mission of a building created by somebody else reads that building
    and that mission and may take the building off the mission, which
    the same user as expert may not, under the DELETE policy in force,
    under those that it replaces and under all of them together. *)
Lemma authorization_not_monotone :
  (rank constateur < rank expert)%nat
  /\ isConstateur (Some (with_role Samples.some_user constateur)) = true
  /\ isConstateur (Some (with_role Samples.some_user expert)) = false
  /\ buildings_select_using
       (set_role Samples.db_assigned 1%N (role_name constateur)) 1%N
       Samples.building_of_other = true
  /\ buildings_select_using
       (set_role Samples.db_assigned 1%N (role_name expert)) 1%N
       Samples.building_of_other = false
  /\ ~ capability_monotone isConstateur
  /\ ~ capability_monotone isExpert
  /\ ~ policy_monotone buildings_select_using
  /\ ~ policy_monotone missions_select_using
  /\ mission_buildings_delete_using
       (set_role Samples.db_assigned 1%N (role_name constateur)) 1%N
       {| mission_id := 10%N; building_id := 100%N |} = true
  /\ mission_buildings_delete_using
       (set_role Samples.db_assigned 1%N (role_name expert)) 1%N
       {| mission_id := 10%N; building_id := 100%N |} = false
  /\ ~ policy_monotone mission_buildings_delete_using
  /\ ~ capability_monotone (fun user => hasRole user (OneRole "constateur"))
  /\ ~ policy_monotone mission_buildings_delete_using_final_version
  /\ ~ policy_monotone
        (either constateurs_can_delete_buildings_using
                admins_can_delete_mission_buildings_using)
  /\ ~ policy_monotone
        (either mission_buildings_delete_using
                (either constateurs_can_delete_buildings_using
                        admins_can_delete_mission_buildings_using)).
Proof.
  split; [cbn; lia|]. do 4 (split; [vm_compute; reflexivity|]).
  split; [|split; [|split; [|split]]].
  - intros H. specialize (H Samples.some_user constateur expert ltac:(cbn; lia) eq_refl).
    discriminate.
  - intros H. specialize (H Samples.some_user expert admin ltac:(cbn; lia) eq_refl).
    discriminate.
  - intros H.
    specialize (H constateur expert ltac:(cbn; lia) Samples.db_assigned 1%N
                  Samples.building_of_other ltac:(vm_compute; reflexivity)).
    vm_compute in H. discriminate.
  - intros H.
    specialize (H constateur expert ltac:(cbn; lia) Samples.db_assigned 1%N
                  {| assigned_to := Some 1%N; mission_created_by := 2%N;
                     status := Some in_progress |}
                  ltac:(vm_compute; reflexivity)).
    vm_compute in H. discriminate.
  - do 2 (split; [vm_compute; reflexivity|]). split.
    + intros H.
      specialize (H constateur expert ltac:(cbn; lia) Samples.db_assigned 1%N
                    {| mission_id := 10%N; building_id := 100%N |}
                    ltac:(vm_compute; reflexivity)).
      vm_compute in H. discriminate.
    + split.
      { intros H.
        specialize (H Samples.some_user constateur expert ltac:(cbn; lia) eq_refl).
        discriminate. }
      repeat split; intros H;
        specialize (H constateur expert ltac:(cbn; lia) Samples.db_assigned 1%N
                      {| mission_id := 10%N; building_id := 100%N |}
                      ltac:(vm_compute; reflexivity));
        vm_compute in H; discriminate.
Qed.

(** *** The policies after [set_role] *)

Lemma has_active_profile_set_role db uid r :
  has_active_profile (set_role db uid r) uid = has_active_profile db uid.
Proof.
  unfold has_active_profile, set_role. cbn [profiles].
  rewrite lookup_alter_eq. destruct (profiles db !! uid); reflexivity.
Qed.

Lemma exists_profile_set_role db uid r roles :
  exists_profile (set_role db uid r) uid roles
  = match profiles db !! uid with
    | Some p =>
        bool_decide (r ∈ roles)
        && match profile_is_active p with Some active => active | None => false end
    | None => false
    end.
Proof.
  rewrite exists_profile_eq. unfold set_role. cbn [profiles].
  rewrite lookup_alter_eq. destruct (profiles db !! uid); reflexivity.
Qed.

Lemma exists_profile_set_role_active db uid r roles :
  has_active_profile db uid = true ->
  exists_profile (set_role db uid r) uid roles = bool_decide (r ∈ roles).
Proof.
  unfold has_active_profile, column_true. rewrite exists_profile_set_role.
  destruct (profiles db !! uid) as [p|]; [|discriminate].
  intros ->. apply andb_true_r.
Qed.

Lemma missions_delete_using_set_role db uid r m :
  missions_delete_using (set_role db uid r) uid m
  = match profiles db !! uid with
    | Some p =>
        match profile_is_active p with Some active => active | None => false end
        && (bool_decide (r ∈ ["super_admin"; "admin"]%string)
            || (bool_decide (r = "expert"%string)
                && bool_decide (mission_created_by m = uid)))
    | None => false
    end.
Proof.
  rewrite missions_delete_using_eq. unfold set_role. cbn [profiles].
  rewrite lookup_alter_eq. destruct (profiles db !! uid); reflexivity.
Qed.

Lemma missions_delete_using_active db uid r m :
  has_active_profile db uid = true ->
  missions_delete_using (set_role db uid r) uid m
  = bool_decide (r ∈ ["super_admin"; "admin"]%string)
    || (bool_decide (r = "expert"%string) && bool_decide (mission_created_by m = uid)).
Proof.
  unfold has_active_profile, column_true. rewrite missions_delete_using_set_role.
  destruct (profiles db !! uid) as [p|]; [|discriminate].
  intros ->. reflexivity.
Qed.

Lemma missions_delete_using_no_active db uid m :
  has_active_profile db uid = false -> missions_delete_using db uid m = false.
Proof.
  unfold has_active_profile, column_true. rewrite missions_delete_using_eq.
  destruct (profiles db !! uid) as [p|]; [|reflexivity].
  intros ->. reflexivity.
Qed.

Ltac unfold_policy :=
  cbv beta delta [buildings_select_using buildings_insert_check buildings_update_using
                   buildings_update_check buildings_delete_using
                   materials_insert_check materials_select_using materials_update_using
                   materials_update_check materials_delete_using
                   missions_select_using missions_insert_check missions_update_using
                   mission_buildings_insert_check mission_buildings_select_using
                   mission_buildings_update_using mission_buildings_update_check
                   mission_buildings_delete_using
                   either mission_buildings_insert_check_final_version
                   mission_buildings_delete_using_final_version
                   experts_can_add_buildings_check constateurs_can_add_buildings_check
                   users_can_read_mission_buildings_using
                   users_can_update_mission_buildings_using
                   users_can_update_mission_buildings_check
                   constateurs_can_delete_buildings_using
                   admins_can_delete_mission_buildings_using
                   profiles_select_using profiles_insert_check profiles_update_using
                   profiles_update_check profiles_service_role_all
                   storage_insert_check storage_update_using storage_update_check
                   storage_delete_using].

(** The tests of a role name against the lists of the policies are
    decided by computation. *)
Ltac decide_role_tests :=
  repeat match goal with
    | |- context [bool_decide (?a ∈ ?l)] =>
        let v := eval vm_compute in (bool_decide (a ∈ l)) in
        change (bool_decide (a ∈ l)) with v
    | |- context [bool_decide (role_name ?r = ?s)] =>
        let v := eval vm_compute in (bool_decide (role_name r = s)) in
        change (bool_decide (role_name r = s)) with v
    end.

(** What is left of a condition once the role tests are decided: tests
    on the row and sub-queries, taken as unknown Booleans. *)
Ltac forget_row_tests :=
  repeat match goal with
    | |- context [exists_open_assigned_mission ?d ?v ?x] =>
        destruct (exists_open_assigned_mission d v x)
    | |- context [exists_assigned_mission ?d ?v ?x] =>
        destruct (exists_assigned_mission d v x)
    | |- context [exists_mission_of ?d ?v ?x ?c] =>
        destruct (exists_mission_of d v x c)
    | |- context [is_uid ?v ?c] => destruct (is_uid v c)
    | |- context [bool_decide (mission_created_by ?m = ?v)] =>
        destruct (bool_decide (mission_created_by m = v))
    | |- context [bool_decide (?v = fst ?row)] => destruct (bool_decide (v = fst row))
    | |- context [column_true ?c] => destruct (column_true c)
    | |- context [in_mission_documents ?o] => destruct (in_mission_documents o)
    | |- context [material_is_active ?m] => destruct (material_is_active m) as [[|]|]
    end.

(** A condition between two roles: with an active profile the role
    tests decide; without one every profile test and every sub-query
    is false under both roles. *)
Ltac role_cases :=
  match goal with
  | |- policy_monotone_between _ ?r_low ?r_high =>
      let db := fresh "db" in
      let uid := fresh "uid" in
      let row := fresh "row" in
      let Ea := fresh "Ea" in
      intros db uid row; destruct (has_active_profile db uid) eqn:Ea;
      [ unfold_policy;
        rewrite ?(exists_profile_set_role_active _ _ _ _ Ea),
                ?(missions_delete_using_active _ _ _ _ Ea);
        destruct r_low, r_high;
        match goal with
        | Hrank : (rank _ < rank _)%nat |- _ => cbn in Hrank; try lia
        end;
        try congruence;
        cbn [role_name]; decide_role_tests; forget_row_tests;
        cbn [orb andb]; auto
      | unfold_policy;
        rewrite ?exists_profile_no_active, ?exists_mission_of_no_active,
                ?exists_assigned_mission_no_active,
                ?exists_open_assigned_mission_no_active,
                ?missions_delete_using_no_active
          by (rewrite has_active_profile_set_role; exact Ea);
        forget_row_tests; cbn [orb andb]; auto ]
  end.

Lemma buildings_write_monotone :
  policy_monotone buildings_insert_check
  /\ policy_monotone buildings_update_using
  /\ policy_monotone buildings_update_check
  /\ policy_monotone buildings_delete_using.
Proof. repeat split; intros r_low r_high Hrank; role_cases. Qed.

Lemma materials_monotone :
  policy_monotone materials_insert_check
  /\ policy_monotone materials_select_using
  /\ policy_monotone materials_update_using
  /\ policy_monotone materials_update_check
  /\ policy_monotone materials_delete_using.
Proof. repeat split; intros r_low r_high Hrank; role_cases. Qed.

Lemma missions_write_monotone :
  policy_monotone missions_insert_check
  /\ policy_monotone missions_update_using
  /\ policy_monotone missions_delete_using.
Proof. repeat split; intros r_low r_high Hrank; role_cases. Qed.

Lemma mission_buildings_monotone :
  policy_monotone mission_buildings_insert_check
  /\ policy_monotone mission_buildings_select_using
  /\ policy_monotone mission_buildings_update_using
  /\ policy_monotone mission_buildings_update_check.
Proof. repeat split; intros r_low r_high Hrank; role_cases. Qed.

(** The policies on [mission_buildings] that those in force replace:
    the INSERT and DELETE policies before 'draft', and the policies of
    "Fix mission_buildings RLS policies", alone for INSERT and DELETE
    and beside the policies in force for SELECT and UPDATE. *)
Lemma replaced_mission_buildings_monotone :
  policy_monotone mission_buildings_insert_check_final_version
  /\ policy_monotone
       (either experts_can_add_buildings_check constateurs_can_add_buildings_check)
  /\ policy_monotone
       (either mission_buildings_select_using users_can_read_mission_buildings_using)
  /\ policy_monotone
       (either mission_buildings_update_using users_can_update_mission_buildings_using)
  /\ policy_monotone
       (either mission_buildings_update_check users_can_update_mission_buildings_check).
Proof. repeat split; intros r_low r_high Hrank; role_cases. Qed.

Lemma replaced_delete_monotone_to_admins r_low r_high :
  (rank r_low < rank r_high)%nat -> r_high <> expert ->
  policy_monotone_between mission_buildings_delete_using_final_version r_low r_high
  /\ policy_monotone_between
       (either constateurs_can_delete_buildings_using
               admins_can_delete_mission_buildings_using) r_low r_high.
Proof. intros Hrank Hne. repeat split; role_cases. Qed.

(** Conditions that are monotone stay so when combined with OR. *)
Lemma either_monotone_between {Row : Type}
    (policy other : database -> uuid -> Row -> bool) r_low r_high :
  policy_monotone_between policy r_low r_high ->
  policy_monotone_between other r_low r_high ->
  policy_monotone_between (either policy other) r_low r_high.
Proof.
  intros Hp Ho db uid row. unfold either. rewrite !orb_true_iff.
  intros [H|H]; [left; exact (Hp db uid row H) | right; exact (Ho db uid row H)].
Qed.

Lemma profiles_monotone :
  policy_monotone (fun _ : database => profiles_select_using)
  /\ policy_monotone (fun _ : database => profiles_insert_check)
  /\ policy_monotone (fun _ : database => profiles_update_using)
  /\ policy_monotone (fun _ : database => profiles_update_check)
  /\ policy_monotone (fun (_ : database) (_ : uuid) => profiles_service_role_all).
Proof. repeat split; intros r_low r_high Hrank db uid row H; exact H. Qed.

Lemma storage_write_monotone :
  policy_monotone storage_insert_check
  /\ policy_monotone storage_update_using
  /\ policy_monotone storage_update_check
  /\ policy_monotone storage_delete_using.
Proof. repeat split; intros r_low r_high Hrank; role_cases. Qed.

Lemma storage_select_monotone (uuid_text : uuid -> string) :
  policy_monotone (fun db uid => storage_select_using db uid uuid_text).
Proof.
  intros r_low r_high Hrank db uid o. unfold storage_select_using.
  destruct (in_mission_documents o); [|discriminate]. cbn [andb].
  destruct (has_active_profile db uid) eqn:Ea.
  - rewrite (exists_profile_set_role_active db uid (role_name r_high) _ Ea).
    intros _. destruct r_low, r_high; cbn in Hrank; try lia; reflexivity.
  - rewrite (exists_profile_no_active (set_role db uid (role_name r_low)) uid)
      by (rewrite has_active_profile_set_role; exact Ea).
    cbn [orb]. rewrite existsb_all_false; [discriminate|].
    intros [mission_id m].
    rewrite (exists_profile_no_active (set_role db uid (role_name r_low)) uid)
      by (rewrite has_active_profile_set_role; exact Ea).
    rewrite andb_false_r. reflexivity.
Qed.

Lemma select_monotone_to_admins r_low r_high :
  (rank r_low < rank r_high)%nat -> r_high <> expert ->
  policy_monotone_between buildings_select_using r_low r_high
  /\ policy_monotone_between missions_select_using r_low r_high
  /\ policy_monotone_between mission_buildings_delete_using r_low r_high.
Proof. intros Hrank Hne. repeat split; role_cases. Qed.

Lemma hasRole_monotone (requiredRoles : RequiredRoles) :
  upward_closed (required_list requiredRoles) ->
  capability_monotone (fun user => hasRole user requiredRoles).
Proof.
  intros Hup u r_low r_high Hrank. unfold hasRole, with_role. cbn [role].
  fold (required_list requiredRoles). rewrite !bool_decide_eq_true.
  apply Hup. exact Hrank.
Qed.

Ltac capability_cases :=
  intros u r_low r_high Hrank; destruct r_low, r_high; cbn in Hrank; try lia;
  vm_compute; auto.

(** C1, amended: authorization is monotone in the hierarchy
    super_admin > admin > expert > constateur for the capabilities
    [canAccessAdmin], [canAccessExpert], [canManageUsers],
    [canManageBuildings], [canManageMissions], [canViewAllMissions],
    [canAssignMissions], [isAdmin] and [isSuperAdmin], for [hasRole] with
    a list of roles that is closed upwards, for every policy condition
    of [profiles], [materials] and [storage.objects], for the INSERT,
    UPDATE and DELETE conditions of [buildings] and [missions], and for
    the INSERT, SELECT and UPDATE conditions of [mission_buildings]; the
    SELECT conditions of [buildings] and [missions] and the DELETE
    condition of [mission_buildings] are monotone for every pair of
    roles whose higher role is admin or super_admin.  The last group
    says the same of the policies on [mission_buildings] that those in
    force replace: the INSERT and DELETE policies before 'draft', and
    the policies of "Fix mission_buildings RLS policies" for INSERT and
    DELETE and, beside the policies in force, for SELECT and UPDATE. *)
Theorem authorization_monotone :
  (capability_monotone canAccessAdmin
   /\ capability_monotone canAccessExpert
   /\ capability_monotone canManageUsers
   /\ capability_monotone canManageBuildings
   /\ capability_monotone canManageMissions
   /\ capability_monotone canViewAllMissions
   /\ capability_monotone canAssignMissions
   /\ capability_monotone isAdmin
   /\ capability_monotone isSuperAdmin)
  /\ (policy_monotone buildings_insert_check
      /\ policy_monotone buildings_update_using
      /\ policy_monotone buildings_update_check
      /\ policy_monotone buildings_delete_using)
  /\ (policy_monotone materials_insert_check
      /\ policy_monotone materials_select_using
      /\ policy_monotone materials_update_using
      /\ policy_monotone materials_update_check
      /\ policy_monotone materials_delete_using)
  /\ (policy_monotone missions_insert_check
      /\ policy_monotone missions_update_using
      /\ policy_monotone missions_delete_using)
  /\ (forall r_low r_high,
        (rank r_low < rank r_high)%nat -> r_high <> expert ->
        policy_monotone_between buildings_select_using r_low r_high
        /\ policy_monotone_between missions_select_using r_low r_high
        /\ policy_monotone_between mission_buildings_delete_using r_low r_high)
  /\ (forall requiredRoles,
        upward_closed (required_list requiredRoles) ->
        capability_monotone (fun user => hasRole user requiredRoles))
  /\ (policy_monotone mission_buildings_insert_check
      /\ policy_monotone mission_buildings_select_using
      /\ policy_monotone mission_buildings_update_using
      /\ policy_monotone mission_buildings_update_check)
  /\ (policy_monotone (fun _ : database => profiles_select_using)
      /\ policy_monotone (fun _ : database => profiles_insert_check)
      /\ policy_monotone (fun _ : database => profiles_update_using)
      /\ policy_monotone (fun _ : database => profiles_update_check)
      /\ policy_monotone (fun (_ : database) (_ : uuid) => profiles_service_role_all))
  /\ (policy_monotone storage_insert_check
      /\ policy_monotone storage_update_using
      /\ policy_monotone storage_update_check
      /\ policy_monotone storage_delete_using
      /\ forall uuid_text : uuid -> string,
           policy_monotone (fun db uid => storage_select_using db uid uuid_text))
  /\ (policy_monotone mission_buildings_insert_check_final_version
      /\ policy_monotone
           (either experts_can_add_buildings_check constateurs_can_add_buildings_check)
      /\ policy_monotone
           (either mission_buildings_select_using users_can_read_mission_buildings_using)
      /\ policy_monotone
           (either mission_buildings_update_using users_can_update_mission_buildings_using)
      /\ policy_monotone
           (either mission_buildings_update_check users_can_update_mission_buildings_check)
      /\ forall r_low r_high,
           (rank r_low < rank r_high)%nat -> r_high <> expert ->
           policy_monotone_between mission_buildings_delete_using_final_version
             r_low r_high
           /\ policy_monotone_between
                (either constateurs_can_delete_buildings_using
                        admins_can_delete_mission_buildings_using) r_low r_high).
Proof.
  split; [repeat split; capability_cases|].
  split; [exact buildings_write_monotone|].
  split; [exact materials_monotone|].
  split; [exact missions_write_monotone|].
  split; [exact select_monotone_to_admins|].
  split; [exact hasRole_monotone|].
  split; [exact mission_buildings_monotone|].
  split; [exact profiles_monotone|].
  destruct storage_write_monotone as (S1 & S2 & S3 & S4).
  destruct replaced_mission_buildings_monotone as (R1 & R2 & R3 & R4 & R5).
  split; [repeat split; try assumption; exact storage_select_monotone|].
  repeat (split; [assumption|]). exact replaced_delete_monotone_to_admins.
Qed.

End HierarchyFacts.

(** ** Write access of constatateurs to [buildings] *)

Section ConstateurWriteAccess.
Import RLS.

(** The condition of the constateur branch of the write policies. *)
Lemma constateur_write_condition db uid p b :
  profiles db !! uid = Some p -> profile_role p = Some "constateur"%string ->
  buildings_update_using db uid b = true <->
  profile_is_active p = Some true /\ created_by b = Some uid
  /\ exists mb m, In mb (mission_buildings db) /\ building_id mb = id b
                  /\ missions db !! mission_id mb = Some m
                  /\ assigned_to m = Some uid /\ open_status (status m).
Proof.
  intros Hp Hr. unfold buildings_update_using.
  rewrite !(exists_profile_constateur db uid p _ Hp Hr).
  change (bool_decide ("constateur"%string ∈ ["super_admin"; "admin"]%string)) with false.
  change (bool_decide ("constateur"%string ∈ ["expert"]%string)) with false.
  change (bool_decide ("constateur"%string ∈ ["constateur"]%string)) with true.
  cbn [andb orb]. unfold is_uid.
  destruct (profile_is_active p) as [[|]|] eqn:Ha.
  - rewrite <- (exists_open_assigned_mission_constateur db uid p (id b) Hp Hr Ha).
    rewrite !andb_true_iff, bool_decide_eq_true. intuition congruence.
  - rewrite andb_false_r. cbn [andb]. split; [discriminate | intros (H & _); discriminate].
  - rewrite andb_false_r. cbn [andb]. split; [discriminate | intros (H & _); discriminate].
Qed.

(** C2 as stated fails in its last part: the constateur of
    [Samples.db_two_missions] created building 100, which belongs to
    their completed mission 10 and also to their mission 11 in progress,
    and may update and delete it. *)
Lemma constateur_writes_building_of_completed_mission :
  let db := Samples.db_two_missions in
  let b := Samples.building_own in
  (exists p, profiles db !! 1%N = Some p /\ profile_role p = Some "constateur"%string)
  /\ In {| mission_id := 10%N; building_id := id b |} (mission_buildings db)
  /\ missions db !! 10%N
     = Some {| assigned_to := Some 1%N; mission_created_by := 2%N;
               status := Some completed |}
  /\ buildings_update_using db 1%N b = true
  /\ buildings_update_check db 1%N b = true
  /\ buildings_delete_using db 1%N b = true.
Proof.
  cbv zeta. split; [eexists; split; vm_compute; reflexivity|].
  split; [left; reflexivity|]. repeat split; vm_compute; reflexivity.
Qed.

(** C2, amended: a user whose profile has role 'constateur' may UPDATE
    (old row and new row alike) or DELETE a row of [buildings] exactly
    when the profile is active, [created_by] is their id and the
    building belongs to a mission assigned to them whose status is
    'draft', 'assigned' or 'in_progress'; in particular they can
    neither update nor delete a building when every mission assigned to
    them that holds it is 'completed' or 'cancelled'. *)
Theorem constateur_building_write_access
    (db : database) (uid : uuid) (p : profile) (b : building) :
  profiles db !! uid = Some p ->
  profile_role p = Some "constateur"%string ->
  let allowed :=
    profile_is_active p = Some true /\ created_by b = Some uid
    /\ exists mb m, In mb (mission_buildings db) /\ building_id mb = id b
                    /\ missions db !! mission_id mb = Some m
                    /\ assigned_to m = Some uid /\ open_status (status m) in
  (buildings_update_using db uid b = true <-> allowed)
  /\ (buildings_update_check db uid b = true <-> allowed)
  /\ (buildings_delete_using db uid b = true <-> allowed)
  /\ ((forall mb m, In mb (mission_buildings db) -> building_id mb = id b ->
         missions db !! mission_id mb = Some m -> assigned_to m = Some uid ->
         status m = Some completed \/ status m = Some cancelled) ->
      buildings_update_using db uid b = false
      /\ buildings_delete_using db uid b = false).
Proof.
  intros Hp Hr. cbv zeta.
  pose proof (constateur_write_condition db uid p b Hp Hr) as H.
  change (buildings_update_check db uid b) with (buildings_update_using db uid b).
  change (buildings_delete_using db uid b) with (buildings_update_using db uid b).
  do 3 (split; [exact H|]).
  intros Hclosed.
  assert (Hno : buildings_update_using db uid b = false).
  { apply not_true_is_false. intros Hw. apply H in Hw.
    destruct Hw as (_ & _ & mb & m & Hin & Hb & Hm & Ha & Hs).
    destruct (Hclosed mb m Hin Hb Hm Ha) as [E|E]; rewrite E in Hs;
      destruct Hs as [Hs|[Hs|Hs]]; discriminate. }
  split; exact Hno.
Qed.

(** A witness: the constateur of [Samples.db_two_missions] may update
    the building they created. *)
Lemma constateur_building_write_access_witness :
  buildings_update_using Samples.db_two_missions 1%N Samples.building_own = true.
Proof.
  pose proof (constateur_building_write_access Samples.db_two_missions 1%N
                {| profile_role := Some "constateur"%string;
                   profile_is_active := Some true |}
                Samples.building_own eq_refl eq_refl) as (H & _).
  apply H. split; [reflexivity|]. split; [reflexivity|].
  exists {| mission_id := 11%N; building_id := 100%N |},
         {| assigned_to := Some 1%N; mission_created_by := 2%N;
            status := Some in_progress |}.
  repeat split; try reflexivity.
  - right. left. reflexivity.
  - right. right. reflexivity.
Defined.

End ConstateurWriteAccess.

(** ** The PDF generator: wrapped text, tables and headings *)

Section PdfLayoutFacts.
Import PdfGenerator PdfLayout.

Lemma js_add_not_nan x h :
  is_nan x = false -> is_finite h = true -> is_nan (js_add x h) = false.
Proof.
  destruct x as [| | |a], h as [| | |b]; try discriminate; try reflexivity.
  intros _ _. apply fl_not_nan.
Qed.

(** A block that fits with height [b] fits with any smaller height. *)
Lemma within_limit_le x a b :
  (a <= b)%Q -> within_limit x (Fin b) = true -> within_limit x (Fin a) = true.
Proof.
  unfold within_limit. intros Hab. destruct x as [| | |q]; cbn [js_add]; try easy.
  intros H. eapply js_le_trans; [|exact H]. apply fl_le_compat. lra.
Qed.

(** ... and the position below its first [a] millimetres is within the
    limit. *)
Lemma within_limit_advance x a b :
  (a <= b)%Q -> within_limit x (Fin b) = true -> js_le (js_add x (Fin a)) (of_Z 252) = true.
Proof.
  intros Hab H. pose proof (within_limit_le x a b Hab H) as H'.
  unfold within_limit in H'. rewrite maxY_252 in H'. exact H'.
Qed.

(** What [checkPageBreak] does to a document: the position it returns
    leaves room for the required height, and at most one page is
    added. *)
Lemma checkPageBreak_doc_spec pdf y h :
  is_nan y = false -> is_finite h = true -> within_limit (of_Z 25) h = true ->
  let r := checkPageBreak_doc pdf y h in
  within_limit (snd r) h = true
  /\ is_nan (snd r) = false
  /\ drawings (fst r) = drawings pdf
  /\ ((snd r = y /\ currentPage (fst r) = currentPage pdf)
      \/ (snd r = of_Z 25 /\ currentPage (fst r) = S (currentPage pdf))).
Proof.
  intros Hy Hh H25. cbv zeta. unfold checkPageBreak_doc, checkPageBreak.
  rewrite (js_gt_negb_le _ maxY (js_add_not_nan _ _ Hy Hh) eq_refl).
  destruct (js_le (js_add y h) maxY) eqn:E; cbn [negb fst snd drawings].
  - repeat split; [exact E | exact Hy | left; split; reflexivity].
  - repeat split; [exact H25 | right; split; reflexivity].
Qed.

Lemma line_height_plus_2 : js_add PDF_CONFIG.lineHeight (of_Z 2) = of_Z 8.
Proof. vm_compute. reflexivity. Qed.

(** The loop of [addWrappedText] from any state. *)
Lemma addWrappedText_loop (x : number) (lines : list jsstring) :
  forall (pdf : Document) (y : number),
    is_nan y = false ->
    let r :=
      fold_left
        (fun '(pdf, currentY) line_ =>
           let '(pdf, currentY) :=
             checkPageBreak_doc pdf currentY (js_add PDF_CONFIG.lineHeight (of_Z 2)) in
           let pdf := text pdf line_ x currentY in
           (pdf, js_add currentY PDF_CONFIG.lineHeight))
        lines (pdf, y) in
    exists new,
      drawings (fst r) = drawings pdf ++ new
      /\ Forall2
           (fun d line_ =>
              exists page y',
                d = Text page line_ x y'
                /\ within_limit y' (of_Z 8) = true
                /\ (currentPage pdf <= page <= currentPage (fst r))%nat)
           new lines
      /\ (currentPage pdf <= currentPage (fst r) <= currentPage pdf + length lines)%nat
      /\ is_nan (snd r) = false
      /\ (lines <> [] -> js_le (snd r) (of_Z 252) = true).
Proof.
  rewrite line_height_plus_2.
  induction lines as [|l ls IH]; intros pdf y Hy; cbv zeta.
  - exists []. cbn [fold_left fst snd length]. rewrite app_nil_r.
    repeat split; [constructor | lia | lia | exact Hy | congruence].
  - cbn [fold_left].
    destruct (checkPageBreak_doc_spec pdf y (of_Z 8) Hy eq_refl eq_refl)
      as (Hfit & Hnan & Hdraw & Hpage).
    destruct (checkPageBreak_doc pdf y (of_Z 8)) as [pdf1 y1] eqn:E.
    cbn [fst snd] in Hfit, Hnan, Hdraw, Hpage.
    assert (Hy2 : is_nan (js_add y1 PDF_CONFIG.lineHeight) = false)
      by (apply js_add_not_nan; [exact Hnan | reflexivity]).
    specialize (IH (text pdf1 l x y1) (js_add y1 PDF_CONFIG.lineHeight) Hy2).
    cbv zeta in IH. destruct IH as (new & Hnew & Hall & Hpages & Hnan' & Hlast).
    set (r := fold_left _ ls _) in *.
    assert (Hp1 : (currentPage pdf <= currentPage pdf1 <= S (currentPage pdf))%nat)
      by (destruct Hpage as [[_ ->]|[_ ->]]; lia).
    change (currentPage (text pdf1 l x y1)) with (currentPage pdf1) in *.
    exists (Text (currentPage pdf1) l x y1 :: new). repeat split.
    + rewrite Hnew. cbn [text drawings]. rewrite Hdraw, <- app_assoc. reflexivity.
    + constructor.
      * exists (currentPage pdf1), y1. repeat split; [exact Hfit | lia | lia].
      * eapply Forall2_impl; [exact Hall|]. cbv beta.
        intros d s (page & y' & -> & Hw & Hpg). exists page, y'.
        repeat split; [exact Hw | lia | lia].
    + lia.
    + cbn [length]. lia.
    + exact Hnan'.
    + intros _. destruct ls as [|l' ls'].
      * subst r. cbn [fold_left snd].
        apply (within_limit_advance y1 6 8); [lra | exact Hfit].
      * apply Hlast. discriminate.
Qed.

(** X1 ([addWrappedText]): for a start position that is not [NaN], the
    function draws exactly the wrapped lines, in order, at the abscissa
    it was given, and every one of them at a position [y'] where
    [y' + 8 <= 252] holds: no line of a paragraph is written past the
    limit of the page. *)
Theorem addWrappedText_lines_fit
    (splitTextToSize : number -> FontStyle -> jsstring -> number -> list jsstring)
    (pdf : Document) (s : jsstring) (x y maxWidth fontSize : number)
    (fontStyle : FontStyle) :
  is_nan y = false ->
  let lines := splitTextToSize fontSize fontStyle s maxWidth in
  let result := addWrappedText splitTextToSize pdf s x y maxWidth fontSize fontStyle in
  exists new,
    drawings (fst result) = drawings pdf ++ new
    /\ Forall2
         (fun d line_ =>
            exists page y',
              d = Text page line_ x y'
              /\ within_limit y' (of_Z 8) = true
              /\ (currentPage pdf <= page <= currentPage (fst result))%nat)
         new lines.
Proof.
  intros Hy. cbv zeta. unfold addWrappedText. cbv zeta.
  destruct (addWrappedText_loop x (splitTextToSize fontSize fontStyle s maxWidth)
              (setFont (setFontSize pdf fontSize) fontStyle) y Hy)
    as (new & Hnew & Hall & _).
  exists new. split; [exact Hnew | exact Hall].
Qed.

(** A witness: a paragraph of three lines started at 240. *)
Lemma addWrappedText_lines_fit_witness :
  let pdf := {| pages := {| numberOfPages := 1 |}; doc_fontSize := of_Z 10;
                doc_fontStyle := normal; doc_lineWidth := of_Z 1; drawings := [] |} in
  let split := fun (_ : number) (_ : FontStyle) (_ : jsstring) (_ : number) =>
                 [js "a"; js "b"; js "c"] in
  let result := addWrappedText split pdf (js "a b c") (of_Z 20) (of_Z 240)
                  (of_Z 170) (of_Z 10) normal in
  exists new,
    drawings (fst result) = [] ++ new
    /\ Forall2
         (fun d line_ =>
            exists page y',
              d = Text page line_ (of_Z 20) y'
              /\ within_limit y' (of_Z 8) = true
              /\ (1 <= page <= currentPage (fst result))%nat)
         new [js "a"; js "b"; js "c"].
Proof.
  exact (addWrappedText_lines_fit
           (fun _ _ _ _ => [js "a"; js "b"; js "c"])
           {| pages := {| numberOfPages := 1 |}; doc_fontSize := of_Z 10;
              doc_fontStyle := normal; doc_lineWidth := of_Z 1; drawings := [] |}
           (js "a b c") (of_Z 20) (of_Z 240) (of_Z 170) (of_Z 10) normal eq_refl).
Defined.

(** X2 ([addWrappedText]): at most one page is added per line; without
    lines the position is returned unchanged and nothing is drawn; with
    lines the position returned is at most 252. *)
Theorem addWrappedText_position
    (splitTextToSize : number -> FontStyle -> jsstring -> number -> list jsstring)
    (pdf : Document) (s : jsstring) (x y maxWidth fontSize : number)
    (fontStyle : FontStyle) :
  is_nan y = false ->
  let lines := splitTextToSize fontSize fontStyle s maxWidth in
  let result := addWrappedText splitTextToSize pdf s x y maxWidth fontSize fontStyle in
  (currentPage pdf <= currentPage (fst result) <= currentPage pdf + length lines)%nat
  /\ length (drawings (fst result)) = (length (drawings pdf) + length lines)%nat
  /\ (lines = [] -> snd result = y)
  /\ (lines <> [] -> js_le (snd result) (of_Z 252) = true).
Proof.
  intros Hy.
  destruct (addWrappedText_loop x (splitTextToSize fontSize fontStyle s maxWidth)
              (setFont (setFontSize pdf fontSize) fontStyle) y Hy)
    as (new & Hnew & Hall & Hpages & _ & Hlast).
  apply (f_equal (@length Drawing)) in Hnew. rewrite length_app in Hnew.
  rewrite (Forall2_length _ _ _ Hall) in Hnew.
  split; [exact Hpages|]. split; [exact Hnew|]. split; [|exact Hlast].
  cbv zeta. unfold addWrappedText. cbv zeta.
  change (doc_fontSize (setFont (setFontSize pdf fontSize) fontStyle)) with fontSize.
  change (doc_fontStyle (setFont (setFontSize pdf fontSize) fontStyle)) with fontStyle.
  intros ->. reflexivity.
Qed.

Lemma addWrappedText_position_witness :
  let pdf := {| pages := {| numberOfPages := 1 |}; doc_fontSize := of_Z 10;
                doc_fontStyle := normal; doc_lineWidth := of_Z 1; drawings := [] |} in
  let split := fun (_ : number) (_ : FontStyle) (_ : jsstring) (_ : number) =>
                 [js "a"; js "b"; js "c"] in
  let result := addWrappedText split pdf (js "a b c") (of_Z 20) (of_Z 240)
                  (of_Z 170) (of_Z 10) normal in
  (1 <= currentPage (fst result) <= 1 + 3)%nat
  /\ length (drawings (fst result)) = (0 + 3)%nat
  /\ ([js "a"; js "b"; js "c"] = [] -> snd result = of_Z 240)
  /\ ([js "a"; js "b"; js "c"] <> [] -> js_le (snd result) (of_Z 252) = true).
Proof.
  exact (addWrappedText_position
           (fun _ _ _ _ => [js "a"; js "b"; js "c"])
           {| pages := {| numberOfPages := 1 |}; doc_fontSize := of_Z 10;
              doc_fontStyle := normal; doc_lineWidth := of_Z 1; drawings := [] |}
           (js "a b c") (of_Z 20) (of_Z 240) (of_Z 170) (of_Z 10) normal eq_refl).
Defined.

(** [checkPageBreak] decides on the test [y + h <= maxY] alone: the
    position is kept on the same page when it holds, and is the top
    margin of one new page when it does not. *)
Lemma checkPageBreak_doc_cases pdf y h :
  is_nan y = false -> is_finite h = true ->
  let r := checkPageBreak_doc pdf y h in
  snd r = (if within_limit y h then y else of_Z 25)
  /\ currentPage (fst r)
     = (if within_limit y h then currentPage pdf else S (currentPage pdf))
  /\ drawings (fst r) = drawings pdf.
Proof.
  intros Hy Hh. cbv zeta. unfold checkPageBreak_doc, checkPageBreak, within_limit.
  rewrite (js_gt_negb_le _ maxY (js_add_not_nan _ _ Hy Hh) eq_refl).
  destruct (js_le (js_add y h) maxY); cbn [negb fst snd drawings]; repeat split.
Qed.

(** X3 ([addH3Section], [addH4SubSection]): a heading is written where
    room is left under it.  With [y] the incoming position plus 12, the
    title of a section is written at [y] on the current page exactly
    when [y + 32 <= 252] holds, and otherwise at the top margin (25) of
    one new page; it is underlined 3 mm lower from the left margin (20)
    to the right margin (190), and the function returns the position
    8 mm under the title.  With [y] the incoming position plus 8, the
    title of a sub-section is written at [y] on the current page exactly
    when [y + 22 <= 252] holds, otherwise at the top of one new page,
    and the function returns the position 5 mm under it.  In both cases
    the room asked for is left under the title and the returned
    position is at most 252. *)
Theorem headings_keep_room (pdf : Document) (title : jsstring) (currentY : number) :
  is_nan currentY = false ->
  (let result := addH3Section pdf title currentY in
   let y := js_add currentY (of_Z 12) in
   let stays := within_limit y (of_Z 32) in
   let p := if stays then y else of_Z 25 in
   currentPage (fst result) = (if stays then currentPage pdf else S (currentPage pdf))
   /\ within_limit p (of_Z 32) = true
   /\ drawings (fst result)
      = drawings pdf
        ++ [Text (currentPage (fst result)) title (of_Z 20) p;
            Line (currentPage (fst result))
                 (of_Z 20) (js_add p (of_Z 3)) (of_Z 190) (js_add p (of_Z 3))]
   /\ snd result = js_add p (of_Z 8)
   /\ js_le (snd result) (of_Z 252) = true)
  /\ (let result := addH4SubSection pdf title currentY in
      let y := js_add currentY (of_Z 8) in
      let stays := within_limit y (of_Z 22) in
      let p := if stays then y else of_Z 25 in
      currentPage (fst result) = (if stays then currentPage pdf else S (currentPage pdf))
      /\ within_limit p (of_Z 22) = true
      /\ drawings (fst result)
         = drawings pdf ++ [Text (currentPage (fst result)) title (of_Z 20) p]
      /\ snd result = js_add p (of_Z 5)
      /\ js_le (snd result) (of_Z 252) = true).
Proof.
  intros Hy. split; cbv zeta.
  - unfold addH3Section. cbv zeta.
    assert (E32 : js_add (js_add fontSize_h3 spacing_afterH3) (of_Z 10) = of_Z 32)
      by (vm_compute; reflexivity).
    assert (E190 : js_sub PDF_CONFIG.pageWidth PDF_CONFIG.margins_right = of_Z 190)
      by (vm_compute; reflexivity).
    rewrite E32, E190.
    change spacing_beforeH3 with (of_Z 12). change spacing_afterH3 with (of_Z 8).
    assert (Hy' : is_nan (js_add currentY (of_Z 12)) = false)
      by (apply js_add_not_nan; [exact Hy | reflexivity]).
    destruct (checkPageBreak_doc_cases pdf _ (of_Z 32) Hy' eq_refl)
      as (Hp & Hpage & Hdraw).
    assert (Hfit : within_limit
                     (if within_limit (js_add currentY (of_Z 12)) (of_Z 32)
                      then js_add currentY (of_Z 12) else of_Z 25) (of_Z 32) = true).
    { destruct (within_limit (js_add currentY (of_Z 12)) (of_Z 32)) eqn:E;
        [exact E | vm_compute; reflexivity]. }
    destruct (checkPageBreak_doc pdf _ (of_Z 32)) as [pdf1 p] eqn:E.
    cbn [fst snd] in *. subst p.
    change (currentPage (line _ _ _ _ _)) with (currentPage pdf1).
    split; [exact Hpage|]. split; [exact Hfit|]. split; [|split].
    + cbn [line text setLineWidth setFont setFontSize drawings currentPage pages].
      rewrite Hdraw, <- app_assoc. reflexivity.
    + reflexivity.
    + apply (within_limit_advance _ 8 32); [lra | exact Hfit].
  - unfold addH4SubSection. cbv zeta.
    assert (E22 : js_add (js_add fontSize_h4 spacing_afterH4) (of_Z 5) = of_Z 22)
      by (vm_compute; reflexivity).
    rewrite E22.
    change spacing_beforeH4 with (of_Z 8). change spacing_afterH4 with (of_Z 5).
    assert (Hy' : is_nan (js_add currentY (of_Z 8)) = false)
      by (apply js_add_not_nan; [exact Hy | reflexivity]).
    destruct (checkPageBreak_doc_cases pdf _ (of_Z 22) Hy' eq_refl)
      as (Hp & Hpage & Hdraw).
    assert (Hfit : within_limit
                     (if within_limit (js_add currentY (of_Z 8)) (of_Z 22)
                      then js_add currentY (of_Z 8) else of_Z 25) (of_Z 22) = true).
    { destruct (within_limit (js_add currentY (of_Z 8)) (of_Z 22)) eqn:E;
        [exact E | vm_compute; reflexivity]. }
    destruct (checkPageBreak_doc pdf _ (of_Z 22)) as [pdf1 p] eqn:E.
    cbn [fst snd] in *. subst p.
    change (currentPage (text _ _ _ _)) with (currentPage pdf1).
    split; [exact Hpage|]. split; [exact Hfit|]. split; [|split].
    + cbn [text setFont setFontSize drawings currentPage pages].
      rewrite Hdraw. reflexivity.
    + reflexivity.
    + apply (within_limit_advance _ 5 22); [lra | exact Hfit].
Qed.

(** A witness: asked for at 200, a section heading stays on the page
    (212 + 32 <= 252) and is written at 212; asked for at 215, it goes
    to the top of a second page (227 + 32 > 252), while a sub-section
    heading stays (223 + 22 <= 252). *)
Lemma headings_keep_room_witness :
  let pdf := {| pages := {| numberOfPages := 1 |}; doc_fontSize := of_Z 10;
                doc_fontStyle := normal; doc_lineWidth := of_Z 1; drawings := [] |} in
  (currentPage (fst (addH3Section pdf (js "DESCRIPTION") (of_Z 200))) = 1%nat
   /\ snd (addH3Section pdf (js "DESCRIPTION") (of_Z 200)) = of_Z 220)
  /\ (currentPage (fst (addH3Section pdf (js "DESCRIPTION") (of_Z 215))) = 2%nat
      /\ snd (addH3Section pdf (js "DESCRIPTION") (of_Z 215)) = of_Z 33)
  /\ (currentPage (fst (addH4SubSection pdf (js "DESCRIPTION") (of_Z 215))) = 1%nat
      /\ snd (addH4SubSection pdf (js "DESCRIPTION") (of_Z 215)) = of_Z 228).
Proof.
  intros pdf.
  destruct (headings_keep_room pdf (js "DESCRIPTION") (of_Z 200) eq_refl)
    as [(P1 & _ & _ & R1 & _) _].
  destruct (headings_keep_room pdf (js "DESCRIPTION") (of_Z 215) eq_refl)
    as [(P2 & _ & _ & R2 & _) (P3 & _ & _ & R3 & _)].
  exact (conj (conj P1 R1) (conj (conj P2 R2) (conj P3 R3))).
Defined.

(** The loop over the lines of a table value. *)
Lemma addTable_value_loop (x : number) (lines : list jsstring) :
  forall (pdf : Document) (valueY : number),
    is_nan valueY = false ->
    let r :=
      fold_left
        (fun '(pdf, valueY) line_ =>
           (text pdf line_ x valueY, js_add valueY PDF_CONFIG.lineHeight))
        lines (pdf, valueY) in
    drawings (fst r) = drawings pdf ++ stacked_lines (currentPage pdf) x valueY lines
    /\ pages (fst r) = pages pdf
    /\ is_nan (snd r) = false.
Proof.
  induction lines as [|l ls IH]; intros pdf valueY Hy; cbv zeta.
  - cbn [fold_left fst snd stacked_lines]. rewrite app_nil_r. auto.
  - cbn [fold_left stacked_lines].
    assert (Hy2 : is_nan (js_add valueY PDF_CONFIG.lineHeight) = false)
      by (apply js_add_not_nan; [exact Hy | reflexivity]).
    destruct (IH (text pdf l x valueY) _ Hy2) as (Hd & Hp & Hn).
    split; [|split; [exact Hp | exact Hn]].
    rewrite Hd. cbn [text drawings]. rewrite <- app_assoc. reflexivity.
Qed.

Lemma Math_max_not_nan x y :
  is_nan x = false -> is_nan y = false -> is_nan (Math_max x y) = false.
Proof.
  destruct x as [| | |a], y as [| | |b]; try discriminate; intros _ _;
    unfold Math_max; try reflexivity.
  destruct (js_lt (Fin a) (Fin b)); reflexivity.
Qed.

Lemma table_widths :
  js_add PDF_CONFIG.margins_left (js_mul getContentWidth (lit (4 # 10))) = of_Z 88
  /\ js_mul getContentWidth (lit (6 # 10)) = of_Z 102.
Proof. split; vm_compute; reflexivity. Qed.

(** One printed row. *)
Lemma addTable_row_printed
    (splitTextToSize : number -> FontStyle -> jsstring -> number -> list jsstring)
    (labelWidth : number) (pdf : Document) (y : number) (label value : jsstring) :
  js_add PDF_CONFIG.margins_left labelWidth = of_Z 88 ->
  is_nan y = false ->
  truthy_string label && truthy_string value = true ->
  exists pdf' y' p,
    addTable_row splitTextToSize labelWidth (of_Z 102) (pdf, y) (label, value) = (pdf', y')
    /\ drawings pdf'
       = drawings pdf
         ++ Text (currentPage pdf') label (of_Z 20) p
            :: stacked_lines (currentPage pdf') (of_Z 88) p
                 (splitTextToSize (of_Z 10) normal value (of_Z 102))
    /\ within_limit p (of_Z 7) = true
    /\ (currentPage pdf <= currentPage pdf' <= S (currentPage pdf))%nat
    /\ is_nan y' = false.
Proof.
  intros E88 Hy Eboth. unfold addTable_row. rewrite Eboth.
  destruct (checkPageBreak_doc_spec pdf y spacing_tableRowHeight Hy eq_refl eq_refl)
    as (Hfit & Hnan & Hdraw & Hpage).
  destruct (checkPageBreak_doc pdf y spacing_tableRowHeight) as [pdf1 p] eqn:E.
  cbn [fst snd] in Hfit, Hnan, Hdraw, Hpage. cbv zeta.
  set (pdf2 := setFont (text (setFont (setFontSize pdf1 fontSize_p) bold)
                             label PDF_CONFIG.margins_left p) normal).
  change (doc_fontSize pdf2) with (of_Z 10).
  change (doc_fontStyle pdf2) with normal.
  destruct (addTable_value_loop
              (js_add PDF_CONFIG.margins_left labelWidth)
              (splitTextToSize (of_Z 10) normal value (of_Z 102)) pdf2 p Hnan)
    as (Hd & Hp & Hn).
  destruct (fold_left _ (splitTextToSize (of_Z 10) normal value (of_Z 102)) (pdf2, p))
    as [pdf3 valueY] eqn:E3.
  cbn [fst snd] in Hd, Hp, Hn.
  assert (Hp13 : currentPage pdf3 = currentPage pdf1)
    by (unfold currentPage; rewrite Hp; reflexivity).
  exists pdf3, (Math_max (js_add p spacing_tableRowHeight) valueY), p.
  split; [reflexivity|]. split; [|split; [exact Hfit|split]].
  - rewrite Hd, E88, Hp13. subst pdf2.
    cbn [text setFont setFontSize drawings currentPage pages].
    rewrite Hdraw, <- !app_assoc. reflexivity.
  - rewrite Hp13. destruct Hpage as [[_ ->]|[_ ->]]; lia.
  - apply Math_max_not_nan; [|exact Hn].
    apply js_add_not_nan; [exact Hnan | reflexivity].
Qed.

Lemma addTable_loop
    (splitTextToSize : number -> FontStyle -> jsstring -> number -> list jsstring)
    (labelWidth : number) (data : list (jsstring * jsstring)) :
  js_add PDF_CONFIG.margins_left labelWidth = of_Z 88 ->
  forall (pdf : Document) (y : number),
    is_nan y = false ->
    let r := fold_left (addTable_row splitTextToSize labelWidth (of_Z 102)) data (pdf, y) in
    exists groups,
      drawings (fst r) = drawings pdf ++ concat groups
      /\ Forall2 (row_drawings splitTextToSize) groups (List.filter printed_row data)
      /\ (currentPage pdf <= currentPage (fst r)
          <= currentPage pdf + length (List.filter printed_row data))%nat.
Proof.
  intros E88.
  induction data as [|[label value] data IH]; intros pdf y Hy; cbv zeta.
  - exists []. cbn [fold_left fst snd List.filter concat length]. rewrite app_nil_r.
    repeat split; [constructor | lia | lia].
  - cbn [fold_left List.filter].
    change (printed_row (label, value)) with (truthy_string label && truthy_string value).
    destruct (truthy_string label && truthy_string value) eqn:Eboth.
    + destruct (addTable_row_printed splitTextToSize labelWidth pdf y label value
                  E88 Hy Eboth) as (pdf' & y' & p & -> & Hd & Hfit & Hpage & Hnan).
      destruct (IH pdf' y' Hnan) as (groups & Hg & Hall & Hpages).
      exists ((Text (currentPage pdf') label (of_Z 20) p
               :: stacked_lines (currentPage pdf') (of_Z 88) p
                    (splitTextToSize (of_Z 10) normal value (of_Z 102))) :: groups).
      split; [|split].
      * rewrite Hg, Hd. cbn [concat]. rewrite <- !app_assoc. reflexivity.
      * constructor; [|exact Hall].
        exists (currentPage pdf'), p. split; [reflexivity | exact Hfit].
      * cbn [length]. lia.
    + assert (Erow : addTable_row splitTextToSize labelWidth (of_Z 102) (pdf, y) (label, value)
                     = (pdf, y)) by (unfold addTable_row; rewrite Eboth; reflexivity).
      rewrite Erow. apply IH, Hy.
Qed.

(** X4 ([addTable]): only the rows whose label and value are both
    non-empty are printed.  For each of them, in order, the label is
    written at the left margin (20) at a position [p] where
    [p + 7 <= 252] holds, and the lines of the wrapped value follow on
    the same page at abscissa 88, from [p] downwards every 6 mm; no page
    break is made between the lines of one value.  At most one page is
    added per printed row. *)
Theorem addTable_layout
    (splitTextToSize : number -> FontStyle -> jsstring -> number -> list jsstring)
    (pdf : Document) (data : list (jsstring * jsstring)) (startY : number) :
  is_nan startY = false ->
  let result := addTable splitTextToSize pdf data startY in
  exists groups,
    drawings (fst result) = drawings pdf ++ concat groups
    /\ Forall2
         (fun group row =>
            exists page p,
              group = Text page (fst row) (of_Z 20) p
                      :: stacked_lines page (of_Z 88) p
                           (splitTextToSize (of_Z 10) normal (snd row) (of_Z 102))
              /\ within_limit p (of_Z 7) = true)
         groups (List.filter printed_row data)
    /\ (currentPage pdf <= currentPage (fst result)
        <= currentPage pdf + length (List.filter printed_row data))%nat.
Proof.
  intros Hy. cbv zeta. unfold addTable. cbv zeta.
  destruct table_widths as [E88 E102]. rewrite E102.
  destruct (addTable_loop splitTextToSize _ data E88 pdf startY Hy)
    as (groups & Hg & Hall & Hpages).
  destruct (fold_left _ data (pdf, startY)) as [pdf' y'].
  exists groups. split; [exact Hg|]. split; [exact Hall | exact Hpages].
Qed.

(** A witness: a table of two rows at 250, the first with an empty
    value. *)
Lemma addTable_layout_witness :
  let pdf := {| pages := {| numberOfPages := 1 |}; doc_fontSize := of_Z 10;
                doc_fontStyle := normal; doc_lineWidth := of_Z 1; drawings := [] |} in
  let split := fun (_ : number) (_ : FontStyle) (s : jsstring) (_ : number) => [s; s] in
  let data := [(js "Marque:", js ""); (js "Statut:", js "Actif")] in
  let result := addTable split pdf data (of_Z 250) in
  exists groups,
    drawings (fst result) = [] ++ concat groups
    /\ Forall2
         (fun group row =>
            exists page p,
              group = Text page (fst row) (of_Z 20) p
                      :: stacked_lines page (of_Z 88) p [snd row; snd row]
              /\ within_limit p (of_Z 7) = true)
         groups (List.filter printed_row data)
    /\ (1 <= currentPage (fst result) <= 1 + length (List.filter printed_row data))%nat.
Proof.
  exact (addTable_layout (fun _ _ s _ => [s; s])
           {| pages := {| numberOfPages := 1 |}; doc_fontSize := of_Z 10;
              doc_fontStyle := normal; doc_lineWidth := of_Z 1; drawings := [] |}
           [(js "Marque:", js ""); (js "Statut:", js "Actif")] (of_Z 250) eq_refl).
Defined.

(** X5 ([addTable]): rows with an empty label or an empty value change
    nothing; a table without printable row draws nothing, adds no page
    and returns the start position plus 4, whatever that position is. *)
Theorem addTable_skips_empty_rows
    (splitTextToSize : number -> FontStyle -> jsstring -> number -> list jsstring)
    (pdf : Document) (data : list (jsstring * jsstring)) (startY : number) :
  addTable splitTextToSize pdf data startY
  = addTable splitTextToSize pdf (List.filter printed_row data) startY
  /\ (List.filter printed_row data = [] ->
      addTable splitTextToSize pdf data startY = (pdf, js_add startY (of_Z 4))).
Proof.
  assert (H : forall st,
             fold_left (addTable_row splitTextToSize
                          (js_mul getContentWidth (lit (4 # 10)))
                          (js_mul getContentWidth (lit (6 # 10)))) data st
             = fold_left (addTable_row splitTextToSize
                            (js_mul getContentWidth (lit (4 # 10)))
                            (js_mul getContentWidth (lit (6 # 10))))
                         (List.filter printed_row data) st).
  { induction data as [|[label value] data IH]; intros [pdf0 y0]; [reflexivity|].
    cbn [fold_left List.filter]. unfold printed_row at 1. cbn [fst snd].
    destruct (truthy_string label && truthy_string value) eqn:E.
    - cbn [fold_left]. apply IH.
    - unfold addTable_row at 2. rewrite E. apply IH. }
  split.
  - unfold addTable. cbv zeta. rewrite H. reflexivity.
  - intros E. unfold addTable. cbv zeta. rewrite H, E. reflexivity.
Qed.

End PdfLayoutFacts.


(** ** Progress values on the cards and on the mission page *)

Section ProgressDisplayFacts.
Import Progress ProgressBarComponent MissionTabs.

Lemma Qle_bool_inject_Z a b : Qle_bool (inject_Z a) (inject_Z b) = (a <=? b).
Proof.
  destruct (Z.leb_spec a b) as [H|H].
  - apply Qle_bool_iff. rewrite <- Zle_Qle. exact H.
  - destruct (Qle_bool (inject_Z a) (inject_Z b)) eqn:E; [|reflexivity].
    apply Qle_bool_iff in E. rewrite <- Zle_Qle in E. lia.
Qed.

Lemma js_lt_of_Z a b : js_lt (of_Z a) (of_Z b) = (a <? b).
Proof.
  unfold of_Z. cbn [js_lt]. rewrite Qle_bool_inject_Z.
  destruct (Z.leb_spec b a), (Z.ltb_spec a b); try reflexivity; lia.
Qed.

Lemma js_ge_of_Z a b : js_ge (of_Z a) (of_Z b) = (b <=? a).
Proof. unfold js_ge, of_Z. cbn [js_le]. apply Qle_bool_inject_Z. Qed.

(** A value between 0 and 100 is what [ProgressBar] shows. *)
Lemma normalizedProgress_id z :
  0 <= z <= 100 -> normalizedProgress (of_Z z) = of_Z z.
Proof.
  intros Hz. unfold normalizedProgress.
  assert (E1 : Math_max (of_Z z) (of_Z 0) = of_Z z).
  { unfold Math_max. change (of_Z z) with (Fin (inject_Z z)) at 1.
    change (of_Z 0) with (Fin (inject_Z 0)) at 1.
    cbv iota beta. fold (of_Z z). fold (of_Z 0). rewrite js_lt_of_Z.
    destruct (Z.ltb_spec z 0); [lia | reflexivity]. }
  rewrite E1. unfold Math_min. change (of_Z z) with (Fin (inject_Z z)) at 1.
  change (of_Z 100) with (Fin (inject_Z 100)) at 1.
  cbv iota beta. fold (of_Z z). fold (of_Z 100). rewrite js_lt_of_Z.
  destruct (Z.ltb_spec 100 z); [lia | reflexivity].
Qed.

Lemma getProgressColor_of_Z z :
  getProgressColor (of_Z z)
  = if z <? 30 then "bg-red-500"%string
    else if z <? 70 then "bg-amber-500"%string else "bg-green-500"%string.
Proof. unfold getProgressColor. rewrite !js_lt_of_Z. reflexivity. Qed.

Lemma material_counters_spec material :
  material_counters material = (count_true (material_tests material), 10%nat).
Proof.
  unfold material_counters, material_tests. cbv zeta.
  rewrite !incr_if, !count_true_cons. change (count_true []) with 0%nat.
  f_equal; lia.
Qed.

Lemma material_tests_le material : (count_true (material_tests material) <= 10)%nat.
Proof. apply (count_true_le (material_tests material)). Qed.

Lemma percentage_tenths (k : nat) :
  (k <= 10)%nat -> percentage k 10 = of_Z (10 * Z.of_nat k).
Proof.
  intros H. do 11 (destruct k as [|k]; [vm_compute; reflexivity|]). lia.
Qed.

Lemma calculateMaterialProgress_eq material :
  calculateMaterialProgress material
  = of_Z (10 * Z.of_nat (count_true (material_tests material))).
Proof.
  unfold calculateMaterialProgress. rewrite material_counters_spec.
  cbn [Nat.ltb Nat.leb]. apply percentage_tenths, material_tests_le.
Qed.

(** X6 ([calculateMaterialProgress]): the progress of a material is
    exactly ten times the number of its ten form fields that pass their
    test; the binary64 quotient and product never move the result off
    that multiple of 10.  Hence a material counts as validated (progress
    at least 80) exactly when at least eight of the ten fields are
    filled. *)
Theorem calculateMaterialProgress_tenths (material : Material) :
  let filled := count_true (material_tests material) in
  (filled <= 10)%nat
  /\ calculateMaterialProgress material = of_Z (10 * Z.of_nat filled)
  /\ js_ge (calculateMaterialProgress material) (of_Z 80) = (8 <=? filled)%nat.
Proof.
  cbv zeta. split; [apply material_tests_le|]. split; [apply calculateMaterialProgress_eq|].
  rewrite calculateMaterialProgress_eq, js_ge_of_Z.
  destruct (Z.leb_spec 80 (10 * Z.of_nat (count_true (material_tests material)))),
           (Nat.leb_spec 8 (count_true (material_tests material))); try reflexivity; lia.
Qed.

(** X7 (material cards of [MissionMaterialsTab]): the bar of a material
    card is as wide as the progress, without clamping, and its colour
    depends on the number of filled fields only: red for at most two,
    amber for three to six, green for seven or more. *)
Theorem materialCardBar_colour (material : Material) :
  let filled := count_true (material_tests material) in
  width (bar (materialCardBar material)) = calculateMaterialProgress material
  /\ progressColor (materialCardBar material)
     = if (filled <? 3)%nat then "bg-red-500"%string
       else if (filled <? 7)%nat then "bg-amber-500"%string
       else "bg-green-500"%string.
Proof.
  cbv zeta. unfold materialCardBar. cbv zeta. cbn [bar progressColor ProgressBar width progress].
  rewrite calculateMaterialProgress_eq.
  pose proof (material_tests_le material) as Hle.
  split.
  - apply normalizedProgress_id. lia.
  - rewrite getProgressColor_of_Z.
    destruct (Z.ltb_spec (10 * Z.of_nat (count_true (material_tests material))) 30),
             (Z.ltb_spec (10 * Z.of_nat (count_true (material_tests material))) 70),
             (Nat.ltb_spec (count_true (material_tests material)) 3),
             (Nat.ltb_spec (count_true (material_tests material)) 7);
      try reflexivity; lia.
Qed.

(** X8 ([calculateBuildingProgress] and the building cards of
    [MissionBuildingsTab]): the progress of a building is always an
    integer between 0 and 100, so the bar of its card shows it
    unclamped; the colour is red below 30, amber below 70 and green from
    70. *)
Theorem buildingCardBar_range (building : Building) :
  exists z,
    0 <= z <= 100
    /\ calculateBuildingProgress building = of_Z z
    /\ width (bar (buildingCardBar building)) = of_Z z
    /\ progressColor (buildingCardBar building)
       = if z <? 30 then "bg-red-500"%string
         else if z <? 70 then "bg-amber-500"%string
         else "bg-green-500"%string.
Proof.
  destruct (calculateBuildingProgress_range building) as (z & E & Hz).
  exists z. unfold buildingCardBar. cbv zeta.
  cbn [bar progressColor ProgressBar width progress]. rewrite E.
  repeat split; [lia | lia | apply normalizedProgress_id; exact Hz
                | apply getProgressColor_of_Z].
Qed.

(** X9 ([calculateBuildingProgress]): with [filled] the number of fields
    that pass their test (the 21 fixed tests plus one per miscellaneous
    entry) and [total] the number of fields, the result is the exact
    quotient [100 * filled / total] rounded to the nearest integer
    whenever that quotient is not an exact half (and [total] is at most
    2^32): the binary64 operations can only change the result at
    ties. *)
Theorem calculateBuildingProgress_exact (building : Building) :
  let filled := (count_true (building_fixed_tests building)
                 + length (misc_entries (miscellaneous_elements building)))%nat in
  let total := (21 + length (misc_entries (miscellaneous_elements building)))%nat in
  (Z.of_nat total <= 2 ^ 32)%Z ->
  ((200 * Z.of_nat filled + Z.of_nat total) mod (2 * Z.of_nat total) <> 0)%Z ->
  calculateBuildingProgress building
  = of_Z (Qfloor (100 * inject_Z (Z.of_nat filled) / inject_Z (Z.of_nat total) + (1 # 2))%Q).
Proof.
  intros filled total Hb Ht.
  rewrite (calculateBuildingProgress_exact_away_from_ties building Hb Ht).
  fold filled total.
  assert (HT : 0 < Z.of_nat total) by (subst total; lia).
  remember (Z.of_nat filled) as P eqn:EP. remember (Z.of_nat total) as T eqn:ET.
  clear EP ET filled total.
  f_equal. symmetry. apply Qfloor_unique.
  pose proof (Z.div_mod (200 * P + T) (2 * T) ltac:(lia)) as Hdm.
  pose proof (Z.mod_pos_bound (200 * P + T) (2 * T) ltac:(lia)) as Hr.
  set (K := (200 * P + T) / (2 * T)) in *. set (r := (200 * P + T) mod (2 * T)) in *.
  clearbody K r.
  assert (HqT : (0 < inject_Z T)%Q)
    by (change 0%Q with (inject_Z 0); rewrite <- Zlt_Qlt; lia).
  assert (Hq : (200 * inject_Z P + inject_Z T
                == 2 * inject_Z T * inject_Z K + inject_Z r)%Q).
  { change 200%Q with (inject_Z 200). change 2%Q with (inject_Z 2).
    rewrite <- !inject_Z_mult, <- !inject_Z_plus. rewrite Hdm at 1. reflexivity. }
  assert (Hr1 : (0 <= inject_Z r)%Q)
    by (change 0%Q with (inject_Z 0); rewrite <- Zle_Qle; lia).
  assert (Hr2 : (inject_Z r < 2 * inject_Z T)%Q).
  { change 2%Q with (inject_Z 2). rewrite <- inject_Z_mult, <- Zlt_Qlt. lia. }
  remember (100 * inject_Z P / inject_Z T + (1 # 2))%Q as X eqn:EX.
  assert (HX : (X * (2 * inject_Z T) == 200 * inject_Z P + inject_Z T)%Q)
    by (rewrite EX; field; lra).
  clear EX. split.
  - apply (Qmult_le_r _ _ (2 * inject_Z T)); [lra|]. lra.
  - apply (Qmult_lt_r _ _ (2 * inject_Z T)); [lra|]. lra.
Qed.

(** A witness: four fields of 21 give 19 (19.05 rounded). *)
Lemma calculateBuildingProgress_exact_witness :
  calculateBuildingProgress Samples.building_4_of_21 = of_Z 19.
Proof.
  rewrite (calculateBuildingProgress_exact Samples.building_4_of_21);
    [vm_compute; reflexivity | vm_compute; discriminate | vm_compute; discriminate].
Defined.

End ProgressDisplayFacts.

(** ** Overall mission progress: range and validated missions *)

Section OverallProgressFacts.
Import Progress ProgressBarComponent.

(** The sum of [reduce]: progress values are integers between 0 and 100,
    so every partial sum is an integer below 2^53 and is exact. *)
Lemma sum_progress {A : Type} (f : A -> number) (lo hi : Z) (items : list A) :
  0 <= lo -> hi <= 100 ->
  Forall (fun x => exists z, f x = of_Z z /\ lo <= z <= hi) items ->
  forall a, 0 <= a -> a + 100 * Z.of_nat (length items) <= 2 ^ 53 ->
    exists s,
      fold_left (fun sum x => js_add sum (f x)) items (of_Z a) = of_Z (a + s)
      /\ lo * Z.of_nat (length items) <= s <= hi * Z.of_nat (length items).
Proof.
  intros Hlo Hhi Hall. induction Hall as [|x items (z & Ez & Hz) _ IH]; intros a Ha Hbound.
  - exists 0. cbn [fold_left length]. rewrite Z.add_0_r. split; [reflexivity | lia].
  - cbn [fold_left length] in *. rewrite Ez.
    assert (E : js_add (of_Z a) (of_Z z) = of_Z (a + z)).
    { unfold of_Z. cbn [js_add].
      rewrite (fl_comp _ (inject_Z (a + z))) by (rewrite inject_Z_plus; reflexivity).
      apply fl_inject_Z. lia. }
    rewrite E. destruct (IH (a + z) ltac:(lia) ltac:(lia)) as (s & Es & Hs).
    exists (z + s). rewrite Es. split; [f_equal; lia | lia].
Qed.

(** The mean of progress values that lie between [lo] and [hi] lies
    between [lo] and [hi]. *)
Lemma mean_progress_between {A : Type} (f : A -> number) (lo hi : Z) (items : list A) :
  0 <= lo -> lo <= hi -> hi <= 100 -> items <> [] ->
  Z.of_nat (length items) < 2 ^ 32 ->
  Forall (fun x => exists z, f x = of_Z z /\ lo <= z <= hi) items ->
  exists q, mean_progress f items = Fin q /\ (inject_Z lo <= q <= inject_Z hi)%Q.
Proof.
  intros Hlo Hlh Hhi Hne Hlen Hall. unfold mean_progress.
  destruct (sum_progress f lo hi items Hlo Hhi Hall 0 ltac:(lia) ltac:(lia)) as (s & -> & Hs).
  assert (Hn : (0 < length items)%nat) by (destruct items; [congruence | cbn; lia]).
  pose proof (inject_Z_of_nat_pos _ Hn) as Hq.
  unfold of_nat, of_Z. cbn [js_div].
  destruct (Qcompare_spec (inject_Z (Z.of_nat (length items))) 0) as [E|E|E];
    [exfalso; lra | exfalso; lra |].
  apply (fl_between (inject_Z lo) (inject_Z hi)).
  - apply fl_inject_Z. lia.
  - apply fl_inject_Z. lia.
  - split.
    + apply Qle_shift_div_l; [exact Hq|]. rewrite <- inject_Z_mult, <- Zle_Qle. lia.
    + apply Qle_shift_div_r; [exact Hq|]. rewrite <- inject_Z_mult, <- Zle_Qle. lia.
Qed.

Local Open Scope Q_scope.

(** [x * c / c] stays between the bounds that the ends of the interval
    give. *)
Lemma weighting_single (c lo hi A B A' B' q : Q) :
  0 < c ->
  fl (lo * c) = Fin A -> fl (hi * c) = Fin B ->
  fl (A / c) = Fin A' -> fl (B / c) = Fin B' ->
  lo <= q <= hi ->
  exists u, js_div (js_mul (Fin q) (Fin c)) (Fin c) = Fin u /\ A' <= u <= B'.
Proof.
  intros Hc EA EB EA' EB' Hq. cbn [js_mul].
  destruct (fl_between (lo * c) (hi * c) A B (q * c) EA EB) as (t & -> & Ht).
  { split; apply Qmult_le_compat_r; lra. }
  cbn [js_div].
  destruct (Qcompare_spec c 0) as [E|E|E]; [exfalso; lra | exfalso; lra |].
  apply (fl_between (A / c) (B / c) A' B' (t / c) EA' EB').
  assert (Hi : 0 <= / c) by (apply Qlt_le_weak, Qinv_lt_0_compat, Hc).
  unfold Qdiv. split; apply Qmult_le_compat_r; lra.
Qed.

(** [x * c + y * d] likewise. *)
Lemma weighting_both (c d lo hi Ac Bc Ad Bd A B x y : Q) :
  0 < c -> 0 < d ->
  fl (lo * c) = Fin Ac -> fl (hi * c) = Fin Bc ->
  fl (lo * d) = Fin Ad -> fl (hi * d) = Fin Bd ->
  fl (Ac + Ad) = Fin A -> fl (Bc + Bd) = Fin B ->
  lo <= x <= hi -> lo <= y <= hi ->
  exists u, js_add (js_mul (Fin x) (Fin c)) (js_mul (Fin y) (Fin d)) = Fin u
            /\ A <= u <= B.
Proof.
  intros Hc Hd EAc EBc EAd EBd EA EB Hx Hy. cbn [js_mul].
  destruct (fl_between (lo * c) (hi * c) Ac Bc (x * c) EAc EBc) as (s & -> & Hs).
  { split; apply Qmult_le_compat_r; lra. }
  destruct (fl_between (lo * d) (hi * d) Ad Bd (y * d) EAd EBd) as (t & -> & Ht).
  { split; apply Qmult_le_compat_r; lra. }
  cbn [js_add]. apply (fl_between (Ac + Ad) (Bc + Bd) A B (s + t) EA EB). lra.
Qed.

Lemma lit_6_10 : lit (6 # 10) = Fin (5404319552844595 # 9007199254740992).
Proof. vm_compute. reflexivity. Qed.

Lemma lit_4_10 : lit (4 # 10) = Fin (3602879701896397 # 9007199254740992).
Proof. vm_compute. reflexivity. Qed.

Local Close Scope Q_scope.

(** The weighted combination of means between [lo] and [hi], for the
    two intervals used below. *)
Lemma weighted_progress_between (lo : Z) (buildings : list Building)
    (materials : list Material) (missionStatus : jsstring) :
  lo = 0 \/ lo = 80 ->
  missionStatus <> js "completed" -> missionStatus <> js "cancelled" ->
  buildings <> [] \/ materials <> [] ->
  Z.of_nat (length buildings) < 2 ^ 32 ->
  Z.of_nat (length materials) < 2 ^ 32 ->
  Forall (fun b => exists z, calculateBuildingProgress b = of_Z z /\ lo <= z <= 100) buildings ->
  Forall (fun m => exists z, calculateMaterialProgress m = of_Z z /\ lo <= z <= 100) materials ->
  exists z,
    calculateOverallMissionProgress buildings materials missionStatus = of_Z z
    /\ lo <= z <= 100.
Proof.
  intros Hlo Hc Hx Hne Hlb Hlm Hb Hm.
  destruct (calculateOverallMissionProgress_open buildings materials missionStatus Hc Hx)
    as (Hboth & Hbs & Hms).
  assert (Hlo0 : 0 <= lo) by (destruct Hlo; lia).
  assert (Hlo100 : lo <= 100) by (destruct Hlo; lia).
  destruct (list_eq_nil_dec buildings) as [Eb|Nb];
    destruct (list_eq_nil_dec materials) as [Em|Nm].
  - exfalso. destruct Hne; congruence.
  - rewrite (Hms Eb Nm).
    destruct (mean_progress_between _ lo 100 materials Hlo0 Hlo100 ltac:(lia) Nm Hlm Hm)
      as (q & -> & Hq).
    rewrite lit_4_10.
    destruct Hlo as [-> | ->].
    + destruct (weighting_single (3602879701896397 # 9007199254740992) 0 100 0 40 0 100 q eq_refl
                  ltac:(reflexivity) ltac:(vm_compute; reflexivity)
                  ltac:(reflexivity) ltac:(vm_compute; reflexivity) Hq)
        as (u & -> & Hu).
      apply (Math_round_between 0 100 u Hu).
    + destruct (weighting_single (3602879701896397 # 9007199254740992) 80 100 32 40 80 100 q eq_refl
                  ltac:(vm_compute; reflexivity) ltac:(vm_compute; reflexivity)
                  ltac:(vm_compute; reflexivity) ltac:(vm_compute; reflexivity) Hq)
        as (u & -> & Hu).
      apply (Math_round_between 80 100 u Hu).
  - rewrite (Hbs Nb Em).
    destruct (mean_progress_between _ lo 100 buildings Hlo0 Hlo100 ltac:(lia) Nb Hlb Hb)
      as (q & -> & Hq).
    rewrite lit_6_10.
    destruct Hlo as [-> | ->].
    + destruct (weighting_single (5404319552844595 # 9007199254740992) 0 100 0 60 0 100 q eq_refl
                  ltac:(reflexivity) ltac:(vm_compute; reflexivity)
                  ltac:(reflexivity) ltac:(vm_compute; reflexivity) Hq)
        as (u & -> & Hu).
      apply (Math_round_between 0 100 u Hu).
    + destruct (weighting_single (5404319552844595 # 9007199254740992) 80 100 48 60 80 100 q eq_refl
                  ltac:(vm_compute; reflexivity) ltac:(vm_compute; reflexivity)
                  ltac:(vm_compute; reflexivity) ltac:(vm_compute; reflexivity) Hq)
        as (u & -> & Hu).
      apply (Math_round_between 80 100 u Hu).
  - rewrite (Hboth Nb Nm).
    destruct (mean_progress_between _ lo 100 buildings Hlo0 Hlo100 ltac:(lia) Nb Hlb Hb)
      as (x & -> & Hx').
    destruct (mean_progress_between _ lo 100 materials Hlo0 Hlo100 ltac:(lia) Nm Hlm Hm)
      as (y & -> & Hy').
    rewrite lit_6_10, lit_4_10.
    destruct Hlo as [-> | ->].
    + destruct (weighting_both (5404319552844595 # 9007199254740992) (3602879701896397 # 9007199254740992) 0 100 0 60 0 40 0 100 x y eq_refl eq_refl
                  ltac:(reflexivity) ltac:(vm_compute; reflexivity)
                  ltac:(reflexivity) ltac:(vm_compute; reflexivity)
                  ltac:(reflexivity) ltac:(vm_compute; reflexivity) Hx' Hy')
        as (u & -> & Hu).
      apply (Math_round_between 0 100 u Hu).
    + destruct (weighting_both (5404319552844595 # 9007199254740992) (3602879701896397 # 9007199254740992) 80 100 48 60 32 40 80 100 x y eq_refl eq_refl
                  ltac:(vm_compute; reflexivity) ltac:(vm_compute; reflexivity)
                  ltac:(vm_compute; reflexivity) ltac:(vm_compute; reflexivity)
                  ltac:(vm_compute; reflexivity) ltac:(vm_compute; reflexivity) Hx' Hy')
        as (u & -> & Hu).
      apply (Math_round_between 80 100 u Hu).
Qed.

Lemma building_progress_all (buildings : list Building) :
  Forall (fun b => exists z, calculateBuildingProgress b = of_Z z /\ 0 <= z <= 100) buildings.
Proof. apply Forall_forall. intros b _. apply calculateBuildingProgress_range. Qed.

Lemma material_progress_all (materials : list Material) :
  Forall (fun m => exists z, calculateMaterialProgress m = of_Z z /\ 0 <= z <= 100) materials.
Proof. apply Forall_forall. intros m _. apply calculateMaterialProgress_range. Qed.

(** X10 ([calculateOverallMissionProgress]): for every status and all
    lists (of a length that a JavaScript array can have) the result is
    an integer between 0 and 100, so the progress bar of the mission
    page shows it unclamped. *)
Theorem calculateOverallMissionProgress_range
    (buildings : list Building) (materials : list Material) (missionStatus : jsstring) :
  Z.of_nat (length buildings) < 2 ^ 32 ->
  Z.of_nat (length materials) < 2 ^ 32 ->
  exists z,
    0 <= z <= 100
    /\ calculateOverallMissionProgress buildings materials missionStatus = of_Z z
    /\ normalizedProgress (calculateOverallMissionProgress buildings materials missionStatus)
       = of_Z z.
Proof.
  intros Hlb Hlm.
  assert (H : exists z,
             calculateOverallMissionProgress buildings materials missionStatus = of_Z z
             /\ 0 <= z <= 100).
  { destruct (decide (missionStatus = js "completed")) as [->|Hc];
      [exists 100; split; [reflexivity | lia]|].
    destruct (decide (missionStatus = js "cancelled")) as [->|Hx];
      [exists 0; split; [reflexivity | lia]|].
    destruct (list_eq_nil_dec buildings) as [Eb|Nb];
      [destruct (list_eq_nil_dec materials) as [Em|Nm]|].
    - subst. unfold calculateOverallMissionProgress.
      rewrite (bool_decide_eq_false_2 _ Hc), (bool_decide_eq_false_2 _ Hx).
      cbn [length Nat.eqb andb].
      repeat (case_bool_decide; [eexists; split; [reflexivity | lia]|]).
      exists 0; split; [reflexivity | lia].
    - apply (weighted_progress_between 0); auto using building_progress_all, material_progress_all.
    - apply (weighted_progress_between 0); auto using building_progress_all, material_progress_all. }
  destruct H as (z & E & Hz). exists z. rewrite E.
  split; [exact Hz|]. split; [reflexivity | apply normalizedProgress_id, Hz].
Qed.

Lemma calculateOverallMissionProgress_range_witness :
  exists z,
    0 <= z <= 100
    /\ calculateOverallMissionProgress
         [Samples.building_complete; Samples.building_4_of_21] [] (js "in_progress") = of_Z z
    /\ normalizedProgress
         (calculateOverallMissionProgress
            [Samples.building_complete; Samples.building_4_of_21] [] (js "in_progress"))
       = of_Z z.
Proof.
  exact (calculateOverallMissionProgress_range
           [Samples.building_complete; Samples.building_4_of_21] [] (js "in_progress")
           eq_refl eq_refl).
Defined.

(** Items that all pass a filter. *)
Lemma filter_length_all {A : Type} (f : A -> bool) (l : list A) :
  length (List.filter f l) = length l -> Forall (fun x => f x = true) l.
Proof.
  induction l as [|x l IH]; intros H; [constructor|].
  cbn [List.filter length] in H. destruct (f x) eqn:E.
  - cbn [length] in H. constructor; [exact E | apply IH; lia].
  - pose proof (List.filter_length_le f l). lia.
Qed.

(** X11 (validation and progress together, as the mission page shows
    them): when every building and every material of a mission is
    validated, that is [completed = total] in both validation summaries,
    and the mission has at least one item and is not cancelled, the
    overall progress is at least 80. *)
Theorem validated_mission_progress
    (buildings : list Building) (materials : list Material) (missionStatus : jsstring) :
  Z.of_nat (length buildings) < 2 ^ 32 ->
  Z.of_nat (length materials) < 2 ^ 32 ->
  missionStatus <> js "cancelled" ->
  buildings <> [] \/ materials <> [] ->
  completed (getBuildingsValidationStatus buildings)
  = total (getBuildingsValidationStatus buildings) ->
  completed (getMaterialsValidationStatus materials)
  = total (getMaterialsValidationStatus materials) ->
  exists z,
    calculateOverallMissionProgress buildings materials missionStatus = of_Z z
    /\ 80 <= z <= 100.
Proof.
  intros Hlb Hlm Hx Hne Vb Vm.
  destruct (decide (missionStatus = js "completed")) as [->|Hc];
    [exists 100; split; [reflexivity | lia]|].
  apply (weighted_progress_between 80); auto.
  - apply Forall_forall. intros b Hin.
    destruct (calculateBuildingProgress_range b) as (z & E & Hz).
    exists z. split; [exact E|]. split; [|lia].
    assert (Hall : Forall (fun b => js_ge (calculateBuildingProgress b) (of_Z 80) = true)
                          buildings).
    { apply filter_length_all. revert Vb. unfold getBuildingsValidationStatus.
      destruct buildings as [|b0 bs]; [reflexivity|].
      cbn [length Nat.eqb]. repeat (case_match; cbn [completed total]); auto. }
    rewrite Forall_forall in Hall. specialize (Hall b Hin).
    rewrite E, js_ge_of_Z in Hall. lia.
  - apply Forall_forall. intros m Hin.
    destruct (calculateMaterialProgress_range m) as (z & E & Hz).
    exists z. split; [exact E|]. split; [|lia].
    assert (Hall : Forall (fun m => js_ge (calculateMaterialProgress m) (of_Z 80) = true)
                          materials).
    { apply filter_length_all. revert Vm. unfold getMaterialsValidationStatus.
      destruct materials as [|m0 ms]; [reflexivity|].
      cbn [length Nat.eqb]. repeat (case_match; cbn [completed total]); auto. }
    rewrite Forall_forall in Hall. specialize (Hall m Hin).
    rewrite E, js_ge_of_Z in Hall. lia.
Qed.

Lemma validated_mission_progress_witness :
  exists z,
    calculateOverallMissionProgress [Samples.building_complete] [] (js "in_progress") = of_Z z
    /\ 80 <= z <= 100.
Proof.
  apply (validated_mission_progress [Samples.building_complete] [] (js "in_progress"));
    [reflexivity | reflexivity | discriminate | left; discriminate
    | vm_compute; reflexivity | reflexivity].
Defined.

End OverallProgressFacts.


(** ** Dashboard service: periods, indicators and distribution *)

Section DashboardServiceFacts.
Import Dashboard DashboardService.

Lemma Qtruncate_inject_Z z : Qtruncate (inject_Z z) = z.
Proof.
  unfold Qtruncate. destruct (Qle_bool 0 (inject_Z z)).
  - apply Qfloor_Z.
  - apply Qceiling_Z.
Qed.

Lemma TimeClip_of_Z z :
  Z.abs z <= 8640000000000000 -> TimeClip (of_Z z) = of_Z z.
Proof.
  intros H. unfold TimeClip, of_Z.
  assert (E1 : Qle_bool (inject_Z (- 8640000000000000)) (inject_Z z) = true)
    by (apply Qle_bool_iff; rewrite <- Zle_Qle; lia).
  assert (E2 : Qle_bool (inject_Z z) (inject_Z 8640000000000000) = true)
    by (apply Qle_bool_iff; rewrite <- Zle_Qle; lia).
  rewrite E1, E2, Qtruncate_inject_Z. reflexivity.
Qed.

(** X12 ([getDateRange], period ['personnalise']): without both dates
    the call throws 'Dates personnalisées requises', whatever the clock
    says.  With a start [s] and an end [e >= s] (time values in
    milliseconds) such that the previous period still starts at a valid
    date, the current period is [s .. e] and the previous period is
    [2s - e - 1 .. s - 1]: it ends one millisecond before the current
    one starts and has the same length. *)
Theorem getDateRange_personnalise
    (now : Date) (getFullYear getMonth : Date -> number)
    (Date_of : number -> number -> number -> Date) (s e : Z) :
  (forall customEnd,
     getDateRange now getFullYear getMonth Date_of "personnalise" None customEnd
     = Throw "Dates personnalisées requises")
  /\ (forall customStart,
        getDateRange now getFullYear getMonth Date_of "personnalise" customStart None
        = Throw "Dates personnalisées requises")
  /\ (s <= e <= 8640000000000000 ->
      - 8640000000000000 <= 2 * s - e - 1 ->
      getDateRange now getFullYear getMonth Date_of "personnalise"
        (Some (of_Z s)) (Some (of_Z e))
      = Return
          {| current := {| range_start := of_Z s; range_end := of_Z e |};
             previous := {| range_start := of_Z (s - 1 - (e - s));
                            range_end := of_Z (s - 1) |} |}).
Proof.
  split; [|split].
  - intros customEnd. unfold getDateRange. cbn [String.eqb Ascii.eqb Bool.eqb].
    destruct customEnd; reflexivity.
  - intros customStart. unfold getDateRange. cbn [String.eqb Ascii.eqb Bool.eqb].
    destruct customStart; reflexivity.
  - intros Hse Hprev. unfold getDateRange. cbn [String.eqb Ascii.eqb Bool.eqb].
    cbv zeta. unfold getTime, new_Date.
    rewrite (js_sub_of_Z e s) by lia.
    rewrite (js_sub_of_Z s 1) by lia.
    rewrite (TimeClip_of_Z (s - 1)) by lia.
    rewrite (js_sub_of_Z (s - 1) (e - s)) by lia.
    rewrite (TimeClip_of_Z (s - 1 - (e - s))) by lia.
    reflexivity.
Qed.

(** A witness: the week from 1 000 000 000 000 ms. *)
Lemma getDateRange_personnalise_witness :
  getDateRange NaN (fun d => d) (fun d => d) (fun _ _ _ => NaN) "personnalise"
    (Some (of_Z 1000000000000)) (Some (of_Z 1000604800000))
  = Return
      {| current := {| range_start := of_Z 1000000000000;
                       range_end := of_Z 1000604800000 |};
         previous := {| range_start := of_Z (1000000000000 - 1 - (1000604800000 - 1000000000000));
                        range_end := of_Z (1000000000000 - 1) |} |}.
Proof.
  apply (getDateRange_personnalise NaN (fun d => d) (fun d => d) (fun _ _ _ => NaN)
           1000000000000 1000604800000); lia.
Defined.

(** The statuses counted as in progress and the status counted as closed
    exclude each other. *)
Lemma en_cours_not_cloturee m : is_en_cours m = true -> is_cloturee m = false.
Proof.
  unfold is_en_cours, is_cloturee. intros H. apply bool_decide_eq_true in H.
  apply bool_decide_eq_false. intros E. rewrite E in H.
  repeat (apply elem_of_cons in H; destruct H as [H|H]; [discriminate|]).
  apply elem_of_nil in H. exact H.
Qed.

Lemma filter_partition_length {A : Type} (f g : A -> bool) (l : list A) :
  (forall x, f x = true -> g x = false) ->
  (length (List.filter f l) + length (List.filter g l)
   + length (List.filter (fun x => negb (f x) && negb (g x)) l) = length l)%nat.
Proof.
  intros Hfg. induction l as [|x l IH]; [reflexivity|].
  cbn [List.filter length]. specialize (Hfg x).
  destruct (f x) eqn:Ef, (g x) eqn:Eg; cbn [negb andb length];
    first [lia | discriminate (Hfg eq_refl)].
Qed.

(** X13 (indicators of [getDashboardData]): the four counters are taken
    over the missions whose date lies in the current period; every such
    mission is counted in [en_cours] (draft, assigned, in progress), in
    [cloturees] (completed) or in neither (cancelled or any other
    status), never in both, so [en_cours + cloturees <= total] with
    equality exactly when the period has no mission outside the four
    statuses; and [sans_plan <= total]. *)
Theorem kpis_partition (Date_parse : jsstring -> Date)
    (missions : list MissionRow) (ranges : DateRanges) :
  let k := kpis Date_parse missions ranges in
  let currentMissions := List.filter (in_range Date_parse (current ranges)) missions in
  let others :=
    length (List.filter (fun m => negb (is_en_cours m) && negb (is_cloturee m))
                        currentMissions) in
  total k = length currentMissions
  /\ (en_cours k + cloturees k + others = total k)%nat
  /\ (en_cours k + cloturees k <= total k)%nat
  /\ (sans_plan k <= total k)%nat
  /\ (total k <= length missions)%nat.
Proof.
  cbv zeta. unfold kpis. cbv zeta. cbn [total en_cours cloturees sans_plan].
  pose proof (filter_partition_length is_en_cours is_cloturee
                (List.filter (in_range Date_parse (current ranges)) missions)
                en_cours_not_cloturee) as H.
  repeat split; try exact H; try lia; apply List.filter_length_le.
Qed.

Local Open Scope Q_scope.

(** The percentage of a quotient of counters grows with the
    numerator. *)
Lemma variation_le (d1 d2 p : Z) :
  (Z.abs d1 <= 2 ^ 53)%Z -> (Z.abs d2 <= 2 ^ 53)%Z -> (0 < p)%Z -> (d1 <= d2)%Z ->
  exists z1 z2,
    Math_round (js_mul (js_div (of_Z d1) (of_Z p)) (of_Z 100)) = of_Z z1
    /\ Math_round (js_mul (js_div (of_Z d2) (of_Z p)) (of_Z 100)) = of_Z z2
    /\ (z1 <= z2)%Z.
Proof.
  intros H1 H2 Hp Hd. unfold of_Z. cbn [js_div].
  assert (Hp' : 0 < inject_Z p) by (change 0 with (inject_Z 0); rewrite <- Zlt_Qlt; lia).
  assert (Hp1 : 1 <= inject_Z p) by (change 1 with (inject_Z 1); rewrite <- Zle_Qle; lia).
  destruct (Qcompare_spec (inject_Z p) 0) as [E|E|E]; [exfalso; lra | exfalso; lra |].
  assert (Hi : 0 <= / inject_Z p) by (apply Qlt_le_weak, Qinv_lt_0_compat, Hp').
  assert (Hi1 : / inject_Z p <= 1).
  { apply Qle_shift_inv_r; [exact Hp' | lra]. }
  assert (B : forall d, (Z.abs d <= 2 ^ 53)%Z ->
              inject_Z (- 2 ^ 53) <= inject_Z d / inject_Z p <= inject_Z (2 ^ 53)).
  { intros d Hdb.
    assert (Hdq : inject_Z (- 2 ^ 53) <= inject_Z d <= inject_Z (2 ^ 53))
      by (rewrite <- !Zle_Qle; lia).
    assert (H53 : 0 < inject_Z (2 ^ 53)) by reflexivity.
    assert (Hm53 : inject_Z (- 2 ^ 53) == - inject_Z (2 ^ 53)) by reflexivity.
    split.
    - apply Qle_shift_div_l; [exact Hp'|]. nra.
    - apply Qle_shift_div_r; [exact Hp'|]. nra. }
  destruct fl_pow2_53 as [Ehi Elo].
  pose proof (fl_le_compat (inject_Z d1 / inject_Z p) (inject_Z d2 / inject_Z p)) as Hle.
  destruct (fl_between _ _ _ _ _ Elo Ehi (B d1 H1)) as (x1 & Ex1 & Hx1).
  destruct (fl_between _ _ _ _ _ Elo Ehi (B d2 H2)) as (x2 & Ex2 & Hx2).
  rewrite Ex1, Ex2 in *.
  assert (Hx : x1 <= x2).
  { apply Qle_bool_iff. apply Hle. unfold Qdiv. apply Qmult_le_compat_r; [|exact Hi].
    rewrite <- Zle_Qle. exact Hd. }
  cbn [js_mul].
  assert (C : forall x, inject_Z (- 2 ^ 53) <= x <= inject_Z (2 ^ 53) ->
              inject_Z (- 2 ^ 60) <= x * inject_Z 100 <= inject_Z (2 ^ 60)).
  { intros x Hxb.
    assert (inject_Z (2 ^ 60) == 128 * inject_Z (2 ^ 53)) by reflexivity.
    assert (inject_Z (- 2 ^ 60) == - (128 * inject_Z (2 ^ 53))) by reflexivity.
    assert (inject_Z (- 2 ^ 53) == - inject_Z (2 ^ 53)) by reflexivity.
    assert (0 < inject_Z (2 ^ 53)) by reflexivity.
    change (inject_Z 100) with 100. lra. }
  destruct fl_pow2_60 as [Ehi' Elo'].
  pose proof (fl_le_compat (x1 * inject_Z 100) (x2 * inject_Z 100)) as Hle'.
  destruct (fl_between _ _ _ _ _ Elo' Ehi' (C x1 Hx1)) as (y1 & Ey1 & Hy1).
  destruct (fl_between _ _ _ _ _ Elo' Ehi' (C x2 Hx2)) as (y2 & Ey2 & Hy2).
  rewrite Ey1, Ey2 in *.
  assert (Hy : y1 <= y2).
  { apply Qle_bool_iff. apply Hle'. change (inject_Z 100) with 100. lra. }
  exists (Qfloor (y1 + (1 # 2))), (Qfloor (y2 + (1 # 2))).
  split; [reflexivity|]. split; [reflexivity|].
  apply Qfloor_resp_le. lra.
Qed.

Local Close Scope Q_scope.

Lemma calculateVariation_positive (c p : nat) :
  Z.of_nat c <= 2 ^ 53 -> Z.of_nat p <= 2 ^ 53 -> (0 < p)%nat ->
  calculateVariation (of_nat c) (of_nat p)
  = Math_round (js_mul (js_div (of_Z (Z.of_nat c - Z.of_nat p)) (of_Z (Z.of_nat p)))
                       (of_Z 100)).
Proof.
  intros Hc Hp Hpos. unfold calculateVariation.
  assert (E : js_eq (of_nat p) (of_Z 0) = false).
  { unfold of_nat, of_Z. cbn [js_eq].
    destruct (Qeq_bool (inject_Z (Z.of_nat p)) (inject_Z 0)) eqn:E; [|reflexivity].
    apply Qeq_bool_iff in E. unfold Qeq in E. cbn in E. lia. }
  rewrite E. unfold of_nat. rewrite js_sub_of_Z by lia. reflexivity.
Qed.

(** No mission now is a variation of -100, as many as before is 0. *)
Lemma variation_anchors (p : Z) :
  0 < p ->
  Math_round (js_mul (js_div (of_Z (- p)) (of_Z p)) (of_Z 100)) = of_Z (-100)
  /\ Math_round (js_mul (js_div (of_Z 0) (of_Z p)) (of_Z 100)) = of_Z 0.
Proof.
  intros Hp. unfold of_Z. cbn [js_div].
  assert (Hp' : (0 < inject_Z p)%Q) by (change 0%Q with (inject_Z 0); rewrite <- Zlt_Qlt; lia).
  destruct (Qcompare_spec (inject_Z p) 0) as [E|E|E]; [exfalso; lra | exfalso; lra |].
  split.
  - rewrite (fl_comp _ (-1)%Q) by (rewrite inject_Z_opp; field; lra).
    vm_compute. reflexivity.
  - rewrite (fl_comp _ 0%Q) by (change (inject_Z 0) with 0%Q; field; lra).
    vm_compute. reflexivity.
Qed.

Lemma of_Z_inj a b : of_Z a = of_Z b -> a = b.
Proof. unfold of_Z, inject_Z. intros H. injection H as H. exact H. Qed.

(** X14 ([calculateVariation]): for a positive previous count, the
    variation grows with the current count; it is never below -100, it
    is non-negative when the current count is at least the previous one
    and non-positive when it is at most the previous one. *)
Theorem calculateVariation_monotone (c1 c2 p : nat) :
  Z.of_nat c1 <= 2 ^ 53 -> Z.of_nat c2 <= 2 ^ 53 -> Z.of_nat p <= 2 ^ 53 ->
  (0 < p)%nat -> (c1 <= c2)%nat ->
  exists v1 v2,
    calculateVariation (of_nat c1) (of_nat p) = of_Z v1
    /\ calculateVariation (of_nat c2) (of_nat p) = of_Z v2
    /\ -100 <= v1 <= v2
    /\ ((p <= c1)%nat -> 0 <= v1)
    /\ ((c2 <= p)%nat -> v2 <= 0).
Proof.
  intros H1 H2 Hp Hpos Hle.
  rewrite !calculateVariation_positive by assumption.
  set (P := Z.of_nat p) in *. set (C1 := Z.of_nat c1) in *. set (C2 := Z.of_nat c2) in *.
  assert (HP : 0 < P) by (subst P; lia).
  destruct (variation_anchors P HP) as [Alow Azero].
  destruct (variation_le (C1 - P) (C2 - P) P) as (v1 & v2 & E1 & E2 & H12); try lia.
  exists v1, v2. split; [exact E1|]. split; [exact E2|]. split; [split; [|exact H12]|split].
  - destruct (variation_le (- P) (C1 - P) P) as (z0 & z1 & E0 & E1' & H01); try lia.
    rewrite Alow in E0. rewrite E1 in E1'.
    apply of_Z_inj in E0. apply of_Z_inj in E1'. lia.
  - intros Hpc.
    destruct (variation_le 0 (C1 - P) P) as (z0 & z1 & E0 & E1' & H01); try lia.
    rewrite Azero in E0. rewrite E1 in E1'.
    apply of_Z_inj in E0. apply of_Z_inj in E1'. lia.
  - intros Hcp.
    destruct (variation_le (C2 - P) 0 P) as (z2 & z0 & E2' & E0 & H20); try lia.
    rewrite Azero in E0. rewrite E2 in E2'.
    apply of_Z_inj in E0. apply of_Z_inj in E2'. lia.
Qed.

(** A witness: 3 then 5 missions after 4. *)
Lemma calculateVariation_monotone_witness :
  exists v1 v2,
    calculateVariation (of_nat 3) (of_nat 4) = of_Z v1
    /\ calculateVariation (of_nat 5) (of_nat 4) = of_Z v2
    /\ -100 <= v1 <= v2
    /\ ((4 <= 3)%nat -> 0 <= v1)
    /\ ((5 <= 4)%nat -> v2 <= 0).
Proof.
  apply (calculateVariation_monotone 3 5 4); (vm_compute; discriminate) || lia.
Defined.

(** X15 (distribution table of [getDashboardData]): both percentages are
    integers between 0 and 100, both are 0 when the period has neither
    an open nor a closed mission, and otherwise they add up to exactly
    100 whenever the share of the open missions is not an exact half
    percent (for at most 2^32 missions). *)
Theorem statusTable_percentages (currentEnCours currentCloturees : nat) :
  let t := Z.of_nat (currentEnCours + currentCloturees) in
  exists p1 p2,
    statusTable currentEnCours currentCloturees
    = [ {| statut := "En cours"; count := currentEnCours; percent := of_Z p1 |};
        {| statut := "Clôturées"; count := currentCloturees; percent := of_Z p2 |} ]
    /\ 0 <= p1 <= 100 /\ 0 <= p2 <= 100
    /\ (t = 0 -> p1 = 0 /\ p2 = 0)
    /\ (0 < t <= 2 ^ 32 ->
        (200 * Z.of_nat currentEnCours + t) mod (2 * t) <> 0 ->
        p1 + p2 = 100).
Proof.
  cbv zeta. unfold statusTable. cbv zeta.
  set (n := (currentEnCours + currentCloturees)%nat).
  destruct (Nat.ltb_spec 0 n) as [Hn|Hn].
  - destruct (percentage_range currentEnCours n ltac:(lia) Hn) as (p1 & E1 & Hp1).
    destruct (percentage_range currentCloturees n ltac:(lia) Hn) as (p2 & E2 & Hp2).
    exists p1, p2. rewrite E1, E2.
    split; [reflexivity|]. split; [exact Hp1|]. split; [exact Hp2|].
    split; [lia|]. intros Ht Htie.
    assert (Htie' : (200 * Z.of_nat currentCloturees + Z.of_nat n) mod (2 * Z.of_nat n) <> 0).
    { intros H0. apply Htie. apply Z.mod_divide; [lia|].
      apply Z.mod_divide in H0; [|lia]. destruct H0 as [k Hk].
      exists (101 - k). subst n. nia. }
    rewrite (percentage_exact_away_from_ties currentEnCours n Hn ltac:(lia) ltac:(lia) Htie)
      in E1.
    rewrite (percentage_exact_away_from_ties currentCloturees n Hn ltac:(lia) ltac:(lia) Htie')
      in E2.
    apply of_Z_inj in E1. apply of_Z_inj in E2. subst p1 p2.
    set (A := Z.of_nat currentEnCours) in *. set (B := Z.of_nat currentCloturees) in *.
    set (T := Z.of_nat n) in *.
    assert (HT : T = A + B) by (subst T A B n; lia).
    pose proof (Z.div_mod (200 * A + T) (2 * T) ltac:(lia)) as Hdm.
    pose proof (Z.mod_pos_bound (200 * A + T) (2 * T) ltac:(lia)) as Hr.
    set (K := (200 * A + T) / (2 * T)) in *.
    set (r := (200 * A + T) mod (2 * T)) in *.
    assert (E : (200 * B + T) / (2 * T) = 100 - K).
    { symmetry. apply (Z.div_unique _ _ _ (2 * T - r)); [lia | nia]. }
    rewrite E. lia.
  - assert (n = 0%nat) by lia. exists 0, 0.
    split; [reflexivity|]. repeat split; lia.
Qed.

(** A witness: one open mission and two closed ones. *)
Lemma statusTable_percentages_witness :
  exists p1 p2,
    statusTable 1 2
    = [ {| statut := "En cours"; count := 1%nat; percent := of_Z p1 |};
        {| statut := "Clôturées"; count := 2%nat; percent := of_Z p2 |} ]
    /\ p1 + p2 = 100.
Proof.
  destruct (statusTable_percentages 1 2) as (p1 & p2 & E & _ & _ & _ & H).
  exists p1, p2. split; [exact E|]. apply H; [vm_compute; split; congruence|].
  vm_compute. discriminate.
Defined.

End DashboardServiceFacts.


(** ** Routes, guards and the side bar *)

Section RouteFacts.
Import Auth RolePermissions ProtectedRouteComponent RoleGuardComponent AppRoutes.

(** X16 ([ProtectedRoute] around [RoleGuard], as [App] nests them): the
    page of a guarded route is shown exactly when [ProtectedRoute] would
    render its children for the same list of roles; and inside a
    [ProtectedRoute] the guard never shows its own loading screen nor
    its own redirection to /login: when the page is not shown there,
    the user sees the access-denied screen of the guard with their
    role. *)
Theorem guarded_route_spec (auth : AuthState) (allowedRoles : list Role) (page : Page) :
  let element := ProtectedRouteElement (RoleGuardElement allowedRoles (PageElement page)) in
  (render auth element = ShowPage page
   <-> ProtectedRoute auth (Some allowedRoles) = Children)
  /\ (ProtectedRoute auth None = Children ->
      render auth element = ShowPage page
      \/ exists u, user auth = Some u
                   /\ ~ role u ∈ allowedRoles
                   /\ render auth element = FromRoleGuard (GuardAccessDenied (role u))).
Proof.
  cbv zeta. cbn [render]. unfold ProtectedRoute, RoleGuard.
  destruct auth as [[u|] [|] err]; cbn [loading error user];
    destruct (truthy_error err) eqn:Eerr; cbn [negb andb];
    try (unfold shouldRedirectToLogin; rewrite Eerr; cbn [andb negb];
         try (rewrite bool_decide_eq_true_2 by (eexists; reflexivity));
         try (rewrite bool_decide_eq_false_2 by (intros [? ?]; discriminate));
         cbn [negb]);
    try (split; [split; intros; discriminate | intros; discriminate]).
  destruct (decide (role u ∈ allowedRoles)) as [Hin|Hout].
  - rewrite (bool_decide_eq_true_2 _ Hin). cbn [negb].
    split; [split; reflexivity | left; reflexivity].
  - rewrite (bool_decide_eq_false_2 _ Hout). cbn [negb].
    split; [split; intros; discriminate|].
    intros _. right. exists u. auto.
Qed.

Lemma guarded_route_spec_witness :
  render {| user := Some Samples.some_user; loading := false; error := None |}
         (ProtectedRouteElement
            (RoleGuardElement [role Samples.some_user] (PageElement AddMissionPage)))
  = ShowPage AddMissionPage.
Proof.
  apply (guarded_route_spec
           {| user := Some Samples.some_user; loading := false; error := None |}
           [role Samples.some_user] AddMissionPage).
  vm_compute. reflexivity.
Defined.

(** X17 ([Sidebar] and [App]): every link that the side bar shows to a
    signed-in user leads to a declared route whose page that user gets:
    the side bar never offers a page that the guards refuse. *)
Theorem sidebar_links_are_reachable (auth : AuthState) (u : User) (item : NavigationItem) :
  loading auth = false -> truthy_error (error auth) = false -> user auth = Some u ->
  In item (filteredNavigation (user auth)) ->
  exists element page,
    route_element (href item) = Some element
    /\ render auth element = ShowPage page.
Proof.
  destruct auth as [usr ld err]. cbn [loading error user]. intros -> Herr -> Hin.
  assert (R : forall allowedRoles page,
             role u ∈ allowedRoles ->
             render {| user := Some u; loading := false; error := err |}
                    (ProtectedRouteElement (RoleGuardElement allowedRoles (PageElement page)))
             = ShowPage page).
  { intros allowedRoles page Hr. cbn [render]. unfold ProtectedRoute, RoleGuard.
    cbn [loading error user]. rewrite Herr, (bool_decide_eq_true_2 _ Hr). reflexivity. }
  assert (P : forall page,
             render {| user := Some u; loading := false; error := err |}
                    (ProtectedRouteElement (PageElement page))
             = ShowPage page).
  { intros page. cbn [render]. unfold ProtectedRoute.
    cbn [loading error user]. rewrite Herr. reflexivity. }
  unfold filteredNavigation, navigation in Hin.
  apply List.filter_In in Hin as [Hin Hshown].
  cbn [In] in Hin.
  destruct Hin as [<-|[<-|[<-|[<-|[<-|[]]]]]]; cbn [roles href] in *;
    eexists; eexists; (split; [vm_compute; reflexivity|]);
    first [apply P | apply R; apply bool_decide_eq_true in Hshown; exact Hshown].
Qed.

Lemma sidebar_links_are_reachable_witness :
  exists element page,
    route_element "/profile" = Some element
    /\ render {| user := Some Samples.some_user; loading := false; error := None |} element
       = ShowPage page.
Proof.
  apply (sidebar_links_are_reachable
           {| user := Some Samples.some_user; loading := false; error := None |}
           Samples.some_user
           {| nav_name := "Profil"; href := "/profile"; roles := None |});
    [reflexivity | reflexivity | reflexivity | vm_compute; tauto].
Defined.

(** X18 ([useRolePermissions]): for a signed-in user exactly one of
    [isConstateur], [isExpert] and [isAdmin] holds, [isSuperAdmin]
    implies [isAdmin], and the capabilities follow: the expert-level
    ones hold for everyone but constatateurs, the admin-level ones for
    admins only.  Without a user every capability is false. *)
Theorem role_predicates_partition (user : option User) :
  match user with
  | Some u =>
      (isConstateur user, isExpert user, isAdmin user)
      = (bool_decide (role u = constateur), bool_decide (role u = expert),
         bool_decide (role u = admin \/ role u = super_admin))
      /\ (isSuperAdmin user = true -> isAdmin user = true)
      /\ canAccessExpert user = negb (isConstateur user)
      /\ canManageBuildings user = negb (isConstateur user)
      /\ canManageMissions user = negb (isConstateur user)
      /\ canViewAllMissions user = negb (isConstateur user)
      /\ canAssignMissions user = negb (isConstateur user)
      /\ canAccessAdmin user = isAdmin user
      /\ canManageUsers user = isAdmin user
  | None =>
      forall capability,
        In capability [canAccessAdmin; canAccessExpert; canManageUsers; canManageBuildings;
                       canManageMissions; canViewAllMissions; canAssignMissions;
                       isConstateur; isExpert; isAdmin; isSuperAdmin] ->
        capability user = false
  end.
Proof.
  destruct user as [[i [| | |] a]|].
  1-4: repeat split; try reflexivity; try (vm_compute; congruence).
  intros capability Hin. cbn [In] in Hin.
  repeat (destruct Hin as [<-|Hin]; [reflexivity|]). destruct Hin.
Qed.

End RouteFacts.

(** ** The front end and the policies *)

Section PolicyFacts.
Import Auth RolePermissions RLS.

Lemma exists_profile_of db uid p r roles :
  profiles db !! uid = Some p -> profile_role p = Some r ->
  profile_is_active p = Some true ->
  exists_profile db uid roles = bool_decide (r ∈ roles).
Proof.
  intros Hp Hr Ha. rewrite exists_profile_eq, Hp, Hr, Ha. apply andb_true_r.
Qed.

Lemma exists_profile_inactive db uid roles :
  (forall p, profiles db !! uid = Some p -> profile_is_active p <> Some true) ->
  exists_profile db uid roles = false.
Proof.
  intros H. rewrite exists_profile_eq. destruct (profiles db !! uid) as [p|]; [|reflexivity].
  specialize (H p eq_refl). destruct (profile_is_active p) as [[|]|];
    [congruence | apply andb_false_r | apply andb_false_r].
Qed.

(** X19 (front-end capabilities and policies): for a user whose profile
    row is active and carries the role the front end knows,
    [canManageMissions] holds exactly when the INSERT policy of
    [missions] passes; the INSERT policy of [buildings] passes for every
    building the user owns, whatever [canManageBuildings] says; and
    [canAccessAdmin] implies that every row of [buildings], [missions]
    and [materials] may be read, updated and deleted. *)
Theorem capabilities_backed_by_policies
    (db : database) (uid : uuid) (p : profile) (u : User) :
  profiles db !! uid = Some p ->
  profile_role p = Some (role_name (role u)) ->
  profile_is_active p = Some true ->
  (forall m, missions_insert_check db uid m = canManageMissions (Some u))
  /\ (forall b, created_by b = Some uid -> buildings_insert_check db uid b = true)
  /\ (canAccessAdmin (Some u) = true ->
      (forall b, buildings_select_using db uid b = true
                 /\ buildings_update_using db uid b = true
                 /\ buildings_delete_using db uid b = true)
      /\ (forall m, missions_select_using db uid m = true
                    /\ missions_update_using db uid m = true
                    /\ missions_delete_using db uid m = true)
      /\ (forall m, materials_select_using db uid m = true
                    /\ materials_update_using db uid m = true
                    /\ materials_delete_using db uid m = true)).
Proof.
  intros Hp Hr Ha.
  pose proof (fun roles => exists_profile_of db uid p _ roles Hp Hr Ha) as E.
  split; [|split].
  - intros m. unfold missions_insert_check. rewrite E.
    destruct u as [i [| | |] a]; reflexivity.
  - intros b Hb. unfold buildings_insert_check, is_uid. rewrite E, Hb.
    rewrite (bool_decide_eq_true_2 (Some uid = Some uid)) by reflexivity.
    destruct u as [i [| | |] a]; reflexivity.
  - intros Hcap.
    assert (Hadmin : exists_profile db uid ["super_admin"; "admin"]%string = true).
    { rewrite E. destruct u as [i [| | |] a]; vm_compute in Hcap |- *; congruence. }
    assert (Hexp : exists_profile db uid ["super_admin"; "admin"; "expert"]%string = true).
    { rewrite E. destruct u as [i [| | |] a]; vm_compute in Hcap |- *; congruence. }
    split; [|split].
    + intros b. unfold buildings_select_using, buildings_update_using,
        buildings_delete_using. rewrite Hadmin. auto.
    + intros m. unfold missions_select_using, missions_update_using.
      rewrite missions_delete_using_eq, Hadmin, Hexp, Hp, Ha, Hr.
      repeat split; try reflexivity.
      destruct u as [i [| | |] a]; vm_compute in Hcap |- *; congruence.
    + intros m. unfold materials_select_using, materials_update_using,
        materials_delete_using. rewrite Hadmin, Hexp.
      repeat split; rewrite ?orb_true_r; reflexivity.
Qed.

Lemma capabilities_backed_by_policies_witness :
  missions_insert_check Samples.db_two_missions 1%N
    {| assigned_to := None; mission_created_by := 1%N; status := Some draft |}
  = canManageMissions (Some Samples.some_user).
Proof.
  destruct (Samples.db_two_missions.(profiles) !! 1%N) as [p|] eqn:Hp;
    [|vm_compute in Hp; discriminate].
  refine (proj1 (capabilities_backed_by_policies Samples.db_two_missions 1%N p
                   Samples.some_user Hp _ _) _);
    vm_compute in Hp; injection Hp as <-; reflexivity.
Defined.

(** X20 (inactive accounts): a session whose profile row is missing or
    not active is refused every operation on [buildings], the INSERT,
    UPDATE and DELETE of [materials] and the SELECT, INSERT and DELETE of
    [missions]. *)
Theorem inactive_profile_is_refused (db : database) (uid : uuid) :
  (forall p, profiles db !! uid = Some p -> profile_is_active p <> Some true) ->
  (forall b, buildings_select_using db uid b = false
             /\ buildings_insert_check db uid b = false
             /\ buildings_update_using db uid b = false
             /\ buildings_update_check db uid b = false
             /\ buildings_delete_using db uid b = false)
  /\ (forall m, materials_insert_check db uid m = false
                /\ materials_update_using db uid m = false
                /\ materials_update_check db uid m = false
                /\ materials_delete_using db uid m = false)
  /\ (forall m, missions_select_using db uid m = false
                /\ missions_insert_check db uid m = false
                /\ missions_delete_using db uid m = false).
Proof.
  intros H. pose proof (exists_profile_inactive db uid) as E.
  split; [|split].
  - intros b. unfold buildings_select_using, buildings_insert_check,
      buildings_update_using, buildings_update_check, buildings_delete_using.
    rewrite !E by exact H. rewrite ?andb_false_r. cbn [orb andb]. auto.
  - intros m. unfold materials_insert_check, materials_update_using,
      materials_update_check, materials_delete_using.
    rewrite !E by exact H. rewrite ?andb_false_r. cbn [orb andb]. auto.
  - intros m. unfold missions_select_using, missions_insert_check.
    rewrite missions_delete_using_eq.
    rewrite !E by exact H. cbn [orb andb]. repeat split.
    destruct (profiles db !! uid) as [p|] eqn:Hp; [|reflexivity].
    specialize (H p eq_refl). destruct (profile_is_active p) as [[|]|];
      [congruence | reflexivity | reflexivity].
Qed.

Lemma inactive_profile_is_refused_witness :
  buildings_select_using Samples.db_two_missions 99%N Samples.building_own = false.
Proof.
  refine (proj1 (proj1 (inactive_profile_is_refused Samples.db_two_missions 99%N _)
                   Samples.building_own)).
  intros p Hp. vm_compute in Hp. discriminate.
Defined.

(** X21 (isolation of experts): an active expert reads, updates and
    deletes exactly the buildings they created, and reads and deletes
    exactly the missions they created. *)
Theorem expert_isolation (db : database) (uid : uuid) (p : profile) :
  profiles db !! uid = Some p ->
  profile_role p = Some "expert"%string ->
  profile_is_active p = Some true ->
  (forall b, buildings_select_using db uid b = bool_decide (created_by b = Some uid)
             /\ buildings_update_using db uid b = bool_decide (created_by b = Some uid)
             /\ buildings_delete_using db uid b = bool_decide (created_by b = Some uid))
  /\ (forall m, missions_select_using db uid m = bool_decide (mission_created_by m = uid)
                /\ missions_delete_using db uid m = bool_decide (mission_created_by m = uid)).
Proof.
  intros Hp Hr Ha.
  pose proof (fun roles => exists_profile_of db uid p _ roles Hp Hr Ha) as E.
  split.
  - intros b. unfold buildings_select_using, buildings_update_using,
      buildings_delete_using, is_uid. rewrite !E.
    change (bool_decide ("expert"%string ∈ ["super_admin"; "admin"]%string)) with false.
    change (bool_decide ("expert"%string ∈ ["expert"]%string)) with true.
    change (bool_decide ("expert"%string ∈ ["constateur"]%string)) with false.
    cbn [orb andb]. rewrite !andb_false_r, !orb_false_r. auto.
  - intros m. unfold missions_select_using.
    rewrite missions_delete_using_eq, !E, Hp, Ha, Hr.
    change (bool_decide ("expert"%string ∈ ["super_admin"; "admin"]%string)) with false.
    change (bool_decide ("expert"%string ∈ ["expert"]%string)) with true.
    change (bool_decide ("expert"%string ∈ ["constateur"]%string)) with false.
    change (bool_decide ("expert"%string = "expert"%string)) with true.
    cbn [orb andb]. rewrite !orb_false_r. auto.
Qed.

Lemma expert_isolation_witness :
  let db := {| profiles := {[ 7%N := {| profile_role := Some "expert"%string;
                                        profile_is_active := Some true |} ]};
               missions := ∅; mission_buildings := [] |} in
  buildings_select_using db 7%N {| id := 5%N; created_by := Some 8%N |} = false.
Proof.
  intros db.
  refine (proj1 (proj1 (expert_isolation db 7%N
                          {| profile_role := Some "expert"%string;
                             profile_is_active := Some true |} _ _ _)
                   {| id := 5%N; created_by := Some 8%N |}));
    reflexivity.
Defined.

Lemma exists_profile_more_roles db uid :
  exists_profile db uid ["super_admin"; "admin"]%string = true
  \/ exists_profile db uid ["expert"]%string = true ->
  exists_profile db uid ["super_admin"; "admin"; "expert"]%string = true.
Proof.
  rewrite !exists_profile_eq.
  destruct (profiles db !! uid) as [p|]; [|intros [?|?]; discriminate].
  destruct (profile_role p) as [r|]; [|intros [?|?]; discriminate].
  destruct (profile_is_active p) as [[|]|]; rewrite ?andb_false_r;
    try (intros [?|?]; discriminate).
  rewrite !andb_true_r. intros [Hr|Hr]; apply bool_decide_eq_true in Hr;
    apply bool_decide_eq_true; rewrite !elem_of_cons in *; tauto.
Qed.

(** A sub-query on the mission of a row finds, with a stronger
    condition, what it finds with a weaker one. *)
Lemma exists_mission_of_weaken db uid mb (strong weak : mission -> bool) :
  (forall m, strong m = true -> weak m = true) ->
  exists_mission_of db uid mb strong = true -> exists_mission_of db uid mb weak = true.
Proof.
  intros H. unfold exists_mission_of.
  destruct (select_mission db uid (mission_id mb)) as [m|]; [apply H | discriminate].
Qed.

(** X22 (write access implies read access): on [buildings], on
    [materials] and on [mission_buildings], every row that a session
    may update or delete is a row that it may read, the sub-queries of
    the policies being evaluated on the rows that the session reads.
    On [mission_buildings] this holds as well of the DELETE policy
    before 'draft' and of the UPDATE and DELETE policies of "Fix
    mission_buildings RLS policies" beside the policies in force. *)
Theorem write_implies_read (db : database) (uid : uuid) :
  (forall b, buildings_update_using db uid b = true \/ buildings_delete_using db uid b = true ->
             buildings_select_using db uid b = true)
  /\ (forall m, materials_update_using db uid m = true \/ materials_delete_using db uid m = true ->
                materials_select_using db uid m = true)
  /\ (forall mb, mission_buildings_update_using db uid mb = true
                 \/ mission_buildings_delete_using db uid mb = true ->
                 mission_buildings_select_using db uid mb = true)
  /\ (forall mb, mission_buildings_delete_using_final_version db uid mb = true ->
                 mission_buildings_select_using db uid mb = true)
  /\ (forall mb, users_can_update_mission_buildings_using db uid mb = true
                 \/ constateurs_can_delete_buildings_using db uid mb = true
                 \/ admins_can_delete_mission_buildings_using db uid mb = true ->
                 either mission_buildings_select_using
                        users_can_read_mission_buildings_using db uid mb = true).
Proof.
  split; [|split; [|split; [|split]]].
  - intros b H.
    assert (Hu : buildings_update_using db uid b = true) by (destruct H as [H|H]; exact H).
    clear H. unfold buildings_update_using in Hu. unfold buildings_select_using.
    apply orb_true_iff in Hu as [Hu|Hu]; [apply orb_true_iff in Hu as [Hu|Hu]|].
    + rewrite Hu. reflexivity.
    + rewrite Hu. apply orb_true_iff. left. apply orb_true_r.
    + apply andb_true_iff in Hu as [Hu Hm]. apply andb_true_iff in Hu as [_ Hc].
      rewrite Hc, (open_mission_is_assigned _ _ _ Hm). apply orb_true_r.
  - intros m H. unfold materials_select_using.
    pose proof (exists_profile_more_roles db uid) as Hsub.
    destruct H as [H|H].
    + unfold materials_update_using in H. apply orb_true_iff in H as [H|H].
      * rewrite H. apply orb_true_iff. left. apply orb_true_r.
      * apply andb_true_iff in H as [_ Hm].
        rewrite (open_mission_is_assigned _ _ _ Hm). apply orb_true_r.
    + unfold materials_delete_using in H.
      apply orb_true_iff in H as [H|H]; [apply orb_true_iff in H as [H|H]|].
      * rewrite (Hsub (or_introl H)). apply orb_true_iff. left. apply orb_true_r.
      * apply andb_true_iff in H as [_ H].
        rewrite (Hsub (or_intror H)). apply orb_true_iff. left. apply orb_true_r.
      * apply andb_true_iff in H as [_ Hm].
        rewrite (open_mission_is_assigned _ _ _ Hm). apply orb_true_r.
  - intros mb [H|H]; [exact H|].
    unfold mission_buildings_delete_using in H. unfold mission_buildings_select_using.
    apply orb_true_iff in H as [H|H]; [apply orb_true_iff in H as [H|H]|].
    + rewrite (exists_profile_more_roles db uid (or_introl H)). reflexivity.
    + apply orb_true_iff. left. apply orb_true_iff. right.
      revert H. apply exists_mission_of_weaken. intros m Hm.
      apply andb_true_iff in Hm as [Hm _]. exact Hm.
    + apply andb_true_iff in H as [_ H]. apply orb_true_iff. right.
      revert H. apply exists_mission_of_weaken. intros m Hm.
      apply andb_true_iff in Hm as [Hm _]. exact Hm.
  - intros mb H.
    unfold mission_buildings_delete_using_final_version in H.
    unfold mission_buildings_select_using.
    apply orb_true_iff in H as [H|H]; [apply orb_true_iff in H as [H|H]|].
    + rewrite (exists_profile_more_roles db uid (or_introl H)). reflexivity.
    + apply orb_true_iff. left. apply orb_true_iff. right.
      revert H. apply exists_mission_of_weaken. intros m Hm.
      apply andb_true_iff in Hm as [Hm _]. exact Hm.
    + apply andb_true_iff in H as [_ H]. apply orb_true_iff. right.
      revert H. apply exists_mission_of_weaken. intros m Hm.
      apply andb_true_iff in Hm as [Hm _]. exact Hm.
  - intros mb H. unfold either. apply orb_true_iff.
    destruct H as [H|[H|H]].
    + right. exact H.
    + right. revert H. apply exists_mission_of_weaken. intros m Hm.
      apply andb_true_iff in Hm as [Hm _]. apply andb_true_iff in Hm as [Hm _].
      rewrite Hm. reflexivity.
    + left. unfold mission_buildings_select_using.
      rewrite (exists_profile_more_roles db uid (or_introl H)). reflexivity.
Qed.

End PolicyFacts.

(** ** [Tabs] *)

Section TabsFacts.
Import TabsComponent.
Context {Content : Type}.

Lemma find_tab (tabs : list (Tab Content)) (tab : Tab Content) :
  NoDup (map tab_id tabs) -> In tab tabs ->
  List.find (fun t => bool_decide (Some (tab_id t) = Some (tab_id tab))) tabs = Some tab.
Proof.
  induction tabs as [|t tabs IH]; intros Hnd Hin; [destruct Hin|].
  cbn [map] in Hnd. apply NoDup_cons in Hnd as [Hnot Hnd].
  cbn [List.find]. destruct Hin as [->|Hin].
  - rewrite bool_decide_eq_true_2 by reflexivity. reflexivity.
  - rewrite bool_decide_eq_false_2; [apply IH; assumption|].
    intros E. injection E as E. apply Hnot. rewrite E.
    apply list_elem_of_In, in_map, Hin.
Qed.

(** X23 ([Tabs]): when the tabs have distinct identifiers, a click on a
    tab shows the content of that tab and marks its header, and only its
    header, as active.  Without [defaultTab] the component starts on the
    first tab; in a state that names no tab it shows no content and no
    active header. *)
Theorem Tabs_active_tab (tabs : list (Tab Content)) :
  (forall tab,
     NoDup (map tab_id tabs) -> In tab tabs ->
     let view := Tabs tabs (handleTabChange (tab_id tab)) in
     activeTabContent view = Some (content tab)
     /\ Forall2 (fun header t => isActive header = true <-> t = tab) (headers view) tabs)
  /\ (forall first rest,
        tabs = first :: rest ->
        activeTabContent (Tabs tabs (initialActiveTab tabs None)) = Some (content first))
  /\ (forall activeTab,
        (forall tab, In tab tabs -> activeTab <> Some (tab_id tab)) ->
        activeTabContent (Tabs tabs activeTab) = None
        /\ Forall (fun h => isActive h = false) (headers (Tabs tabs activeTab))).
Proof.
  split; [|split].
  - intros tab Hnd Hin. cbv zeta. unfold Tabs, handleTabChange.
    cbn [activeTabContent headers]. rewrite (find_tab tabs tab Hnd Hin).
    split; [reflexivity|]. apply Forall2_fmap_l, Forall_Forall2_diag, Forall_forall.
    intros t Ht. apply list_elem_of_In in Ht. unfold compose. cbn [isActive].
    rewrite bool_decide_eq_true. split.
    + intros E. injection E as E.
      pose proof (find_tab tabs t Hnd Ht) as Ft. rewrite <- E in Ft.
      rewrite (find_tab tabs tab Hnd Hin) in Ft. congruence.
    + intros ->. reflexivity.
  - intros first rest ->. unfold Tabs, initialActiveTab.
    cbn [activeTabContent map head List.find].
    rewrite bool_decide_eq_true_2 by reflexivity. reflexivity.
  - intros activeTab Hnone. unfold Tabs. cbn [activeTabContent headers]. split.
    + destruct (List.find _ tabs) as [t|] eqn:Ef; [|reflexivity].
      apply List.find_some in Ef as [Hin E]. apply bool_decide_eq_true in E.
      exfalso. apply (Hnone t Hin). congruence.
    + apply Forall_forall. intros h Hh. apply list_elem_of_In, in_map_iff in Hh.
      destruct Hh as (t & <- & Hin). cbn [isActive].
      apply bool_decide_eq_false_2. apply Hnone, Hin.
Qed.

End TabsFacts.


(** ** Permission tests of the pages *)

Section MissionPagesFacts.
Import Auth RLS ProtectedRouteComponent RoleGuardComponent AppRoutes MissionPages.

(** X24 (page-level tests of [canManageMissions] and [isConstateur]):
    the pages test the capability functions of the hook without calling
    them, so the tests never depend on the role.  For every user the
    missions page shows "Nouvelle mission", the form of
    [AddMissionPage] is not hidden by its own test, the mission page
    shows "Modifier", and its status buttons depend on
    [mission.assigned_to === user.id] only.  The two buttons lead to
    ['/add-mission'] and ['/expert-missions'], where a signed-in
    constateur gets the access-denied screen of [RoleGuard]. *)
Theorem page_tests_ignore_the_role (user : option User) (mission : RLS.mission) :
  showsNewMissionButton user = true
  /\ rendersMissionForm user = true
  /\ showsEditButton user = true
  /\ truthy (canUpdateStatus user mission) = assigned_to_user user mission
  /\ (forall u err element,
        role u = constateur -> truthy_error err = false ->
        route_element "/add-mission" = Some element
        \/ route_element "/expert-missions" = Some element ->
        render {| Auth.user := Some u; loading := false; error := err |} element
        = FromRoleGuard (GuardAccessDenied constateur)).
Proof.
  repeat split.
  intros u err element Hr Herr [E|E]; vm_compute in E; injection E as <-;
    cbn [render]; unfold ProtectedRoute, RoleGuard; cbn [loading error Auth.user];
    rewrite Herr, Hr; reflexivity.
Qed.

(** X25 ([canDeleteMission] and the DELETE policy of [missions]): for a
    session of the user ([auth.uid()] is [user.id]) whose profile row is
    active and carries the role the front end knows, the page shows
    "Supprimer" exactly when the policy lets the session delete the
    mission. *)
Theorem delete_button_matches_policy
    (db : database) (uid : uuid) (p : profile) (u : User) (mission : RLS.mission) :
  Auth.id u = uid ->
  profiles db !! uid = Some p ->
  profile_role p = Some (role_name (role u)) ->
  profile_is_active p = Some true ->
  showsDeleteButton (Some u) mission = missions_delete_using db uid mission.
Proof.
  intros Hid Hp Hr Ha. unfold showsDeleteButton, canDeleteMission.
  rewrite missions_delete_using_eq.
  rewrite Hp, Ha, Hr, Hid. cbn [andb].
  destruct u as [i [| | |] a]; cbn [role role_name]; try reflexivity.
  change (bool_decide ("expert"%string ∈ ["super_admin"; "admin"]%string)) with false.
  change (bool_decide ("expert"%string = "expert"%string)) with true.
  change (bool_decide (expert = super_admin)) with false.
  change (bool_decide (expert = admin)) with false.
  change (bool_decide (expert = expert)) with true.
  cbn [orb andb]. destruct (bool_decide (mission_created_by mission = uid)); reflexivity.
Qed.

Lemma delete_button_matches_policy_witness :
  showsDeleteButton (Some Samples.some_user)
    {| assigned_to := Some 1%N; mission_created_by := 2%N; status := Some draft |}
  = missions_delete_using Samples.db_two_missions 1%N
      {| assigned_to := Some 1%N; mission_created_by := 2%N; status := Some draft |}.
Proof.
  destruct (Samples.db_two_missions.(profiles) !! 1%N) as [p|] eqn:Hp;
    [|vm_compute in Hp; discriminate].
  refine (delete_button_matches_policy Samples.db_two_missions 1%N p Samples.some_user _
            eq_refl Hp _ _);
    vm_compute in Hp; injection Hp as <-; reflexivity.
Defined.

End MissionPagesFacts.

(** ** Slugs and report data *)

Section ReportDataFacts.
Import Progress PdfGenerator DashboardService ReportData.

Lemma filter_replace_runs in_run s :
  List.filter is_a_z_0_9 (replace_runs in_run s) = List.filter is_a_z_0_9 s.
Proof.
  revert in_run. induction s as [|c s IH]; intros in_run; [reflexivity|].
  cbn [replace_runs List.filter]. destruct (is_a_z_0_9 c) eqn:E.
  - cbn [List.filter]. rewrite E, IH. reflexivity.
  - destruct in_run; [apply IH|]. cbn [List.filter].
    change (is_a_z_0_9 hyphen) with false. cbv iota. apply IH.
Qed.

Lemma filter_drop_while (f g : N -> bool) s :
  (forall c, g c = true -> f c = false) ->
  List.filter f (drop_while g s) = List.filter f s.
Proof.
  intros H. induction s as [|c s IH]; [reflexivity|].
  cbn [drop_while]. destruct (g c) eqn:E; [|reflexivity].
  cbn [List.filter]. rewrite (H c E). exact IH.
Qed.

Lemma filter_drop_while_end (f g : N -> bool) s :
  (forall c, g c = true -> f c = false) ->
  List.filter f (drop_while_end g s) = List.filter f s.
Proof.
  intros H. induction s as [|c s IH]; [reflexivity|].
  cbn [drop_while_end List.filter]. rewrite <- IH.
  destruct (drop_while_end g s) as [|d r] eqn:E.
  - destruct (g c) eqn:Eg.
    + rewrite (H c Eg). reflexivity.
    + cbn [List.filter]. destruct (f c); reflexivity.
  - cbn [List.filter]. reflexivity.
Qed.

Lemma hyphen_not_alphanumeric c : is_hyphen c = true -> is_a_z_0_9 c = false.
Proof.
  unfold is_hyphen. intros E. apply N.eqb_eq in E. subst c. reflexivity.
Qed.

Lemma replace_runs_all_hyphens in_run s :
  Forall (fun c => is_a_z_0_9 c = false) s ->
  Forall (fun c => is_hyphen c = true) (replace_runs in_run s).
Proof.
  intros H. revert in_run. induction H as [|c s Hc _ IH]; intros in_run; [constructor|].
  cbn [replace_runs]. rewrite Hc. destruct in_run; [apply IH|].
  constructor; [reflexivity | apply IH].
Qed.

Lemma drop_while_all (g : N -> bool) s :
  Forall (fun c => g c = true) s -> drop_while g s = [].
Proof.
  induction 1 as [|c s Hc _ IH]; [reflexivity|]. cbn [drop_while]. rewrite Hc. exact IH.
Qed.

Lemma filter_nil_Forall (f : N -> bool) s :
  List.filter f s = [] <-> Forall (fun c => f c = false) s.
Proof.
  induction s as [|c s IH]; [split; constructor|].
  cbn [List.filter]. destruct (f c) eqn:E.
  - split; [discriminate|]. intros H. apply Forall_cons in H as [H _]. congruence.
  - rewrite IH. split; [intros H; constructor; assumption|].
    intros H. apply Forall_cons in H as [_ H]. exact H.
Qed.

(** X26 ([createSlug]): the slug keeps exactly the characters of
    [[a-z0-9]] of the lower-cased title, in their order; everything
    else only contributes hyphens.  So the slug is empty exactly when
    the lower-cased title has no such character (a title written in
    another script, for instance), and the report is then downloaded as
    'rapport_.pdf'. *)
Theorem createSlug_keeps_alphanumerics (title : jsstring) :
  List.filter is_a_z_0_9 (createSlug title) = List.filter is_a_z_0_9 (toLowerCase title)
  /\ (createSlug title = []
      <-> Forall (fun c => is_a_z_0_9 c = false) (toLowerCase title))
  /\ (createSlug title = [] -> fileName title = js "rapport_.pdf").
Proof.
  assert (E : List.filter is_a_z_0_9 (createSlug title)
              = List.filter is_a_z_0_9 (toLowerCase title)).
  { unfold createSlug, strip_hyphens.
    rewrite (filter_drop_while_end _ _ _ hyphen_not_alphanumeric).
    rewrite (filter_drop_while _ _ _ hyphen_not_alphanumeric).
    apply filter_replace_runs. }
  split; [exact E|]. split; [split|].
  - intros H. apply filter_nil_Forall. rewrite <- E, H. reflexivity.
  - intros H. unfold createSlug, strip_hyphens.
    rewrite (drop_while_all _ _ (replace_runs_all_hyphens false _ H)). reflexivity.
  - intros H. unfold fileName. cbv zeta. rewrite H. reflexivity.
Qed.

Lemma group_material_throw materials message :
  fold_left group_material materials (Throw message) = Throw message.
Proof. induction materials as [|m ms IH]; [reflexivity | exact IH]. Qed.

(** The own properties after a run of the loop from the groups [g0]. *)
Lemma materialsByBuilding_loop (materials : list Material) :
  forall g0 : gmap jsstring (list Material),
    Forall (fun m => building_id m ∉ Object_prototype_names) materials ->
    exists g,
      fold_left group_material materials (Return g0) = Return g
      /\ forall key,
           g !! key
           = match g0 !! key, (if truthy_string key then materials_of key materials else []) with
             | Some group, new => Some (group ++ new)
             | None, [] => None
             | None, new => Some new
             end.
Proof.
  induction materials as [|m ms IH]; intros g0 Hok.
  - exists g0. split; [reflexivity|]. intros key. cbn [materials_of List.filter].
    destruct (g0 !! key) as [group|]; destruct (truthy_string key);
      rewrite ?app_nil_r; reflexivity.
  - apply Forall_cons in Hok as [Hm Hok]. cbn [fold_left]. unfold group_material at 2.
    unfold get.
    destruct (truthy_string (building_id m)) eqn:Et.
    + destruct (g0 !! building_id m) as [group|] eqn:Eg.
      * destruct (IH (<[building_id m := group ++ [m]]> g0) Hok) as (g & -> & Hg).
        exists g. split; [reflexivity|]. intros key. rewrite Hg.
        unfold materials_of. cbn [List.filter].
        destruct (decide (building_id m = key)) as [<-|Hne].
        -- rewrite lookup_insert_eq, Eg, Et.
           rewrite (bool_decide_eq_true_2 _ eq_refl), <- app_assoc. reflexivity.
        -- rewrite lookup_insert_ne by exact Hne.
           rewrite (bool_decide_eq_false_2 _ Hne). reflexivity.
      * rewrite (bool_decide_eq_false_2 _ Hm). cbn [app].
        destruct (IH (<[building_id m := [m]]> g0) Hok) as (g & -> & Hg).
        exists g. split; [reflexivity|]. intros key. rewrite Hg.
        unfold materials_of. cbn [List.filter].
        destruct (decide (building_id m = key)) as [<-|Hne].
        -- rewrite lookup_insert_eq, Eg, Et.
           rewrite (bool_decide_eq_true_2 _ eq_refl). reflexivity.
        -- rewrite lookup_insert_ne by exact Hne.
           rewrite (bool_decide_eq_false_2 _ Hne). reflexivity.
    + destruct (IH g0 Hok) as (g & -> & Hg). exists g. split; [reflexivity|].
      intros key. rewrite Hg. unfold materials_of. cbn [List.filter].
      destruct (decide (building_id m = key)) as [<-|Hne].
      * rewrite Et. reflexivity.
      * rewrite (bool_decide_eq_false_2 _ Hne). reflexivity.
Qed.

Lemma materials_of_inherited (materials : list Material) (key : jsstring) :
  Forall (fun m => building_id m ∉ Object_prototype_names) materials ->
  key ∈ Object_prototype_names -> materials_of key materials = [].
Proof.
  intros Hok Hkey. unfold materials_of. induction Hok as [|m ms Hm _ IH]; [reflexivity|].
  cbn [List.filter]. rewrite bool_decide_eq_false_2; [exact IH|].
  intros E. apply Hm. rewrite E. exact Hkey.
Qed.

(** X27 (grouping of the materials in [generateMissionReportPdfBlob]):
    when no [building_id] is the name of a property inherited from
    [Object.prototype] (identifiers are UUIDs), the grouping succeeds
    and, for every key, [materialsByBuilding[key]] is the inherited
    member when the key is such a name, and otherwise the list of the
    materials of that building in their order, or [undefined] when
    there is none; materials without [building_id] are in no group.  A
    first material whose [building_id] is an inherited name makes the
    grouping throw. *)
Theorem materialsByBuilding_spec (materials : list Material) :
  (Forall (fun m => building_id m ∉ Object_prototype_names) materials ->
   exists groups,
     materialsByBuilding materials = Return groups
     /\ forall key,
          get groups key
          = if bool_decide (key ∈ Object_prototype_names) then InheritedMember key
            else
              match key, materials_of key materials with
              | [], _ => Undefined
              | _, [] => Undefined
              | _, group => ArrayValue group
              end)
  /\ (forall m rest,
        materials = m :: rest -> building_id m ∈ Object_prototype_names ->
        materialsByBuilding materials = Throw "TypeError").
Proof.
  split.
  - intros Hok. destruct (materialsByBuilding_loop materials ∅ Hok) as (g & E & Hg).
    exists g. split; [exact E|]. intros key. unfold get. rewrite Hg, lookup_empty.
    destruct (bool_decide (key ∈ Object_prototype_names)) eqn:Ek.
    + apply bool_decide_eq_true in Ek.
      rewrite (materials_of_inherited materials key Hok Ek).
      destruct (truthy_string key); reflexivity.
    + destruct key as [|c key]; [reflexivity|].
      change (truthy_string (c :: key)) with true. cbv iota.
      destruct (materials_of (c :: key) materials); reflexivity.
  - intros m rest -> Hin. unfold materialsByBuilding. cbn [fold_left].
    unfold group_material at 2. unfold get. rewrite lookup_empty.
    assert (Et : truthy_string (building_id m) = true).
    { destruct (building_id m); [|reflexivity].
      apply list_elem_of_In in Hin. vm_compute in Hin. intuition discriminate. }
    rewrite Et, (bool_decide_eq_true_2 _ Hin). apply group_material_throw.
Qed.

End ReportDataFacts.

(** ** Constatateurs on [materials] and on [missions] *)

Section ConstateurPolicyFacts.
Import RLS.

Lemma constateur_roles db uid p :
  profiles db !! uid = Some p -> profile_role p = Some "constateur"%string ->
  let active := match profile_is_active p with Some a => a | None => false end in
  exists_profile db uid ["super_admin"; "admin"; "expert"]%string = false
  /\ exists_profile db uid ["super_admin"; "admin"]%string = false
  /\ exists_profile db uid ["expert"]%string = false
  /\ exists_profile db uid ["constateur"]%string = active.
Proof.
  intros Hp Hr active. rewrite !(exists_profile_constateur db uid p _ Hp Hr).
  repeat split.
Qed.

(** X28 (constatateurs and [materials]): a constateur may add a material
    to a building exactly when their profile is active and the building
    belongs to a mission assigned to them whose status is 'draft',
    'assigned' or 'in_progress'; who created the building or the material
    plays no part.  Updating and deleting a material need, in addition,
    that the constateur created the material. *)
Theorem constateur_material_write_access
    (db : database) (uid : uuid) (p : profile) (m : material) :
  profiles db !! uid = Some p ->
  profile_role p = Some "constateur"%string ->
  let open_mission :=
    exists mb mi, In mb (mission_buildings db)
                  /\ building_id mb = material_building_id m
                  /\ missions db !! mission_id mb = Some mi
                  /\ assigned_to mi = Some uid /\ open_status (status mi) in
  (materials_insert_check db uid m = true
   <-> profile_is_active p = Some true /\ open_mission)
  /\ (materials_update_using db uid m = true
      <-> profile_is_active p = Some true /\ material_created_by m = Some uid
          /\ open_mission)
  /\ (materials_update_check db uid m = true
      <-> profile_is_active p = Some true /\ material_created_by m = Some uid
          /\ open_mission)
  /\ (materials_delete_using db uid m = true
      <-> profile_is_active p = Some true /\ material_created_by m = Some uid
          /\ open_mission).
Proof.
  intros Hp Hr open_mission. subst open_mission.
  destruct (constateur_roles db uid p Hp Hr) as (E3 & E2 & E1 & Ec).
  unfold materials_insert_check, materials_update_using, materials_update_check,
    materials_delete_using.
  rewrite E3, E2, E1, Ec. rewrite ?andb_false_r. cbn [orb]. unfold is_uid.
  destruct (profile_is_active p) as [[|]|] eqn:Ha.
  - rewrite <- (exists_open_assigned_mission_constateur db uid p _ Hp Hr Ha).
    rewrite !andb_true_iff, bool_decide_eq_true. intuition congruence.
  - rewrite ?andb_false_r. cbn [andb].
    repeat split; solve [discriminate | intros (H & _); discriminate].
  - rewrite ?andb_false_r. cbn [andb].
    repeat split; solve [discriminate | intros (H & _); discriminate].
Qed.

(** A witness: the constateur of [Samples.db_assigned] may add a material
    to building 100 of their mission in progress, and may not update a
    material of that building that somebody else created. *)
Lemma constateur_material_write_access_witness :
  materials_insert_check Samples.db_assigned 1%N
    {| material_building_id := 100%N; material_created_by := Some 2%N;
       material_is_active := Some true |} = true
  /\ materials_update_using Samples.db_assigned 1%N
       {| material_building_id := 100%N; material_created_by := Some 2%N;
          material_is_active := Some true |} = false.
Proof.
  pose proof (constateur_material_write_access Samples.db_assigned 1%N
                {| profile_role := Some "constateur"%string;
                   profile_is_active := Some true |}
                {| material_building_id := 100%N; material_created_by := Some 2%N;
                   material_is_active := Some true |}
                eq_refl eq_refl) as (Hi & Hu & _).
  split.
  - apply Hi. split; [reflexivity|].
    exists {| mission_id := 10%N; building_id := 100%N |},
           {| assigned_to := Some 1%N; mission_created_by := 2%N;
              status := Some in_progress |}.
    repeat split; [left; reflexivity | right; right; reflexivity].
  - destruct (materials_update_using _ _ _); [|reflexivity].
    destruct (proj1 Hu eq_refl) as (_ & Hc & _). discriminate Hc.
Defined.

(** X29 (constatateurs and [missions]): a constateur reads a mission
    exactly when their profile is active and the mission is assigned to
    them, and can never create or delete one.  The UPDATE policy tests
    the assignment only: the constateur a mission is assigned to may
    update it even when their profile is not active, so that they may
    update a mission which they may not read. *)
Theorem constateur_mission_access
    (db : database) (uid : uuid) (p : profile) (m : mission) :
  profiles db !! uid = Some p ->
  profile_role p = Some "constateur"%string ->
  (missions_select_using db uid m = true
   <-> profile_is_active p = Some true /\ assigned_to m = Some uid)
  /\ missions_insert_check db uid m = false
  /\ missions_delete_using db uid m = false
  /\ (missions_update_using db uid m = true <-> assigned_to m = Some uid).
Proof.
  intros Hp Hr.
  destruct (constateur_roles db uid p Hp Hr) as (E3 & E2 & E1 & Ec).
  unfold missions_select_using, missions_insert_check, missions_update_using.
  rewrite missions_delete_using_eq.
  rewrite E3, E2, E1, Ec, Hp, Hr. cbn [orb andb]. unfold is_uid.
  rewrite andb_true_iff, bool_decide_eq_true.
  change (bool_decide ("constateur"%string ∈ ["super_admin"; "admin"]%string)) with false.
  change (bool_decide ("constateur"%string = "expert"%string)) with false.
  cbn [orb andb]. rewrite andb_false_r.
  destruct (profile_is_active p) as [[|]|]; intuition congruence.
Qed.

(** A witness: a deactivated constateur may update the mission assigned
    to them and may not read it. *)
Lemma constateur_mission_access_witness :
  let db := {| profiles := {[ 1%N := {| profile_role := Some "constateur"%string;
                                        profile_is_active := Some false |} ]};
               missions := ∅; mission_buildings := [] |} in
  let m := {| assigned_to := Some 1%N; mission_created_by := 2%N;
              status := Some in_progress |} in
  missions_update_using db 1%N m = true /\ missions_select_using db 1%N m = false.
Proof.
  intros db m.
  pose proof (constateur_mission_access db 1%N
                {| profile_role := Some "constateur"%string;
                   profile_is_active := Some false |} m eq_refl eq_refl)
    as (Hs & _ & _ & Hu).
  split.
  - apply Hu. reflexivity.
  - destruct (missions_select_using db 1%N m); [|reflexivity].
    destruct (proj1 Hs eq_refl) as (Ha & _). discriminate Ha.
Defined.




End ConstateurPolicyFacts.
